(** * MCP Hub core: orchestrator, tool router and multitenant manager

    A shallow embedding of [mcp_hub/core/orchestrator.py],
    [mcp_hub/core/router.py] and [mcp_hub/core/multitenant.py], together
    with the part of [mcp_hub/core/registry.py] they read.

    Python objects that are shared and mutated in place ([ManagedServer],
    [TenantContext]) live in a store and are referred to by address; the
    dictionaries whose iteration order the code relies on are
    insertion-ordered association lists; the methods are written in a state
    and exception monad whose programs follow the Python text line by line.
    The Worker Protocol Client ([StdioClientWrapper]) is outside the core:
    what its calls answer is read from an environment. *)

From stdpp Require Import base option list strings gmap.
From Stdlib Require Import ZArith Ascii String.

Local Open Scope string_scope.
Local Open Scope Z_scope.

(* ===================================================================== *)
(** * Insertion-ordered dictionaries (Python [dict] with [str] keys)      *)
(* ===================================================================== *)

Module Dict.
Section Defs.
Context {V : Type}.

Definition t := list (string * V).

Definition empty : t := [].

(** [d.get(k)] *)
Fixpoint get (k : string) (d : t) : option V :=
  match d with
  | [] => None
  | (k', v) :: d' => if String.eqb k k' then Some v else get k d'
  end.

(** [k in d] *)
Definition mem (k : string) (d : t) : bool :=
  match get k d with Some _ => true | None => false end.

(** [d[k] = v]: an existing key keeps its position, a new key goes last. *)
Fixpoint set (k : string) (v : V) (d : t) : t :=
  match d with
  | [] => [(k, v)]
  | (k', v') :: d' =>
      if String.eqb k k' then (k, v) :: d' else (k', v') :: set k v d'
  end.

(** [del d[k]] (the caller checks that [k] is present). *)
Fixpoint del (k : string) (d : t) : t :=
  match d with
  | [] => []
  | (k', v') :: d' => if String.eqb k k' then d' else (k', v') :: del k d'
  end.

Definition keys (d : t) : list string := map fst d.
Definition values (d : t) : list V := map snd d.
Definition items (d : t) : list (string * V) := d.
Definition len (d : t) : nat := List.length d.
End Defs.
Arguments t : clear implicits.
End Dict.

(* ===================================================================== *)
(** * Exceptions                                                          *)
(* ===================================================================== *)

(** The exception classes the core raises or catches.  All of them derive
    from [Exception]; [ToolNotFoundError] and [ServerNotAvailableError]
    derive from [RouterError]. *)
Inductive exn_class :=
  | ValueError | KeyError | AttributeError | RuntimeError
  | MCPConnectionError | MCPInitializationError | MCPToolCallError
  | RouterError | ToolNotFoundError | ServerNotAvailableError
  | TenantNotFoundError | QuotaExceededError
  | OtherException.

Record exn := Exn { exn_cls : exn_class; exn_msg : string }.

Definition exn_class_eqb (a b : exn_class) : bool :=
  match a, b with
  | ValueError, ValueError | KeyError, KeyError
  | AttributeError, AttributeError | RuntimeError, RuntimeError
  | MCPConnectionError, MCPConnectionError
  | MCPInitializationError, MCPInitializationError
  | MCPToolCallError, MCPToolCallError
  | RouterError, RouterError | ToolNotFoundError, ToolNotFoundError
  | ServerNotAvailableError, ServerNotAvailableError
  | TenantNotFoundError, TenantNotFoundError
  | QuotaExceededError, QuotaExceededError
  | OtherException, OtherException => true
  | _, _ => false
  end.

(** [isinstance(e, c)] for the classes above. *)
Definition isinstance (e : exn) (c : exn_class) : bool :=
  exn_class_eqb e.(exn_cls) c
  || match c, e.(exn_cls) with
     | RouterError, (ToolNotFoundError | ServerNotAvailableError) => true
     | _, _ => false
     end.

(** [str(e)] *)
Definition str (e : exn) : string := e.(exn_msg).

(* ===================================================================== *)
(** * Data model                                                          *)
(* ===================================================================== *)

(** JSON-like payloads ([Dict[str, Any]], tool arguments and results) are
    passed around but never inspected by the core. *)
Definition json := string.

(** Addresses of objects in a store; identifiers of client objects. *)
Abbreviation loc := nat (only parsing).
Abbreviation ClientId := nat (only parsing).

(** ** registry.py *)

Module ServerConfig.
Record t := mk {
  name : string;
  type : string;
  command : string;
  args : list string;
  enabled : bool;
  capabilities : list string;
  transport : string;
  metadata : json
}.
End ServerConfig.

Module TenantConfig.
Record t := mk {
  tenant_id : string;
  description : string;
  servers : Dict.t ServerConfig.t
}.

(** [[server for server in self.servers.values() if server.enabled]] *)
Definition get_enabled_servers (self : t) : list ServerConfig.t :=
  filter (fun server => ServerConfig.enabled server = true) (Dict.values (servers self)).
End TenantConfig.

Module Registry.
Record t := mk {
  tenants : Dict.t TenantConfig.t;
  max_retries : Z;
  startup_timeout : Z
}.

Definition get_tenant (self : t) (tenant_id : string) : option TenantConfig.t :=
  Dict.get tenant_id (tenants self).

Definition get_server_config (self : t) (tenant_id server_name : string)
  : option ServerConfig.t :=
  match get_tenant self tenant_id with
  | Some tenant => Dict.get server_name (TenantConfig.servers tenant)
  | None => None
  end.
End Registry.

(** ** transport/stdio_client.py: what the core sees of a tool *)

Module ToolInfo.
Record t := mk {
  name : string;
  description : string;
  input_schema : json
}.
End ToolInfo.

(** ** orchestrator.py *)

Inductive ServerState := STOPPED | STARTING | RUNNING | CRASHED | STOPPING.

Definition ServerState_eqb (a b : ServerState) : bool :=
  match a, b with
  | STOPPED, STOPPED | STARTING, STARTING | RUNNING, RUNNING
  | CRASHED, CRASHED | STOPPING, STOPPING => true
  | _, _ => false
  end.

(** [state.name] *)
Definition ServerState_name (s : ServerState) : string :=
  match s with
  | STOPPED => "STOPPED" | STARTING => "STARTING" | RUNNING => "RUNNING"
  | CRASHED => "CRASHED" | STOPPING => "STOPPING"
  end.

Module ManagedServer.
Record t := mk {
  server_id : string;
  tenant_id : string;
  config : ServerConfig.t;
  state : ServerState;
  process : option unit;
  client : option ClientId;
  pid : option Z;
  started_at : option Z;
  last_error : option string;
  restart_count : Z
}.

(** The dataclass constructor with its defaults, as [start_server] calls it. *)
Definition new (server_id tenant_id : string) (config : ServerConfig.t)
  (state : ServerState) : t :=
  mk server_id tenant_id config state None None None None None 0.

Definition is_running (self : t) : bool := ServerState_eqb (state self) RUNNING.

Definition is_stopped (self : t) : bool :=
  ServerState_eqb (state self) STOPPED || ServerState_eqb (state self) CRASHED.

(** Attribute assignments [self.f = v]. *)
Definition set_state (v : ServerState) (self : t) : t :=
  mk (server_id self) (tenant_id self) (config self) v (process self)
     (client self) (pid self) (started_at self) (last_error self)
     (restart_count self).
Definition set_client (v : option ClientId) (self : t) : t :=
  mk (server_id self) (tenant_id self) (config self) (state self)
     (process self) v (pid self) (started_at self) (last_error self)
     (restart_count self).
Definition set_started_at (v : option Z) (self : t) : t :=
  mk (server_id self) (tenant_id self) (config self) (state self)
     (process self) (client self) (pid self) v (last_error self)
     (restart_count self).
Definition set_last_error (v : option string) (self : t) : t :=
  mk (server_id self) (tenant_id self) (config self) (state self)
     (process self) (client self) (pid self) (started_at self) v
     (restart_count self).
End ManagedServer.

(** The payload of a lifecycle event: [{"server_id": ..}] or
    [{"server_id": .., "error": ..}]. *)
Record EventData := mkEventData {
  ev_server_id : string;
  ev_error : option string
}.

(** A registered listener: any callable.  [__name__] is absent on callables
    such as [functools.partial] objects or instances with [__call__]; the
    call either returns or raises. *)
Record Observer := mkObserver {
  __name__ : option string;
  __call__ : string -> EventData -> option exn
}.

(** ** router.py *)

Module ToolRegistration.
Record t := mk {
  tool_id : string;
  server_id : string;
  original_name : string;
  prefixed_name : string;
  description : string;
  input_schema : json;
  metadata : json
}.
End ToolRegistration.

(** ** multitenant.py *)

Module TenantContext.
Record t := mk {
  tenant_id : string;
  config : TenantConfig.t;
  servers : Dict.t loc;          (* Dict[str, ManagedServer], by reference *)
  tools : list string;
  metrics : json;
  created_at : Z;
  last_activity : Z
}.

Definition set_servers (v : Dict.t loc) (self : t) : t :=
  mk (tenant_id self) (config self) v (tools self) (metrics self)
     (created_at self) (last_activity self).
Definition set_tools (v : list string) (self : t) : t :=
  mk (tenant_id self) (config self) (servers self) v (metrics self)
     (created_at self) (last_activity self).
Definition set_last_activity (v : Z) (self : t) : t :=
  mk (tenant_id self) (config self) (servers self) (tools self)
     (metrics self) (created_at self) v.
End TenantContext.

(** A quota limit: an [int], or [float('inf')] for an unknown quota type. *)
Inductive limit := Finite (n : Z) | Infinity.

(** [a >= l] and [a > l] for an integer [a] and a limit [l]. *)
Definition ge_limit (a : Z) (l : limit) : bool :=
  match l with Finite n => n <=? a | Infinity => false end.
Definition gt_limit (a : Z) (l : limit) : bool :=
  match l with Finite n => n <? a | Infinity => false end.

(* ===================================================================== *)
(** * The program state, its environment and its effects                  *)
(* ===================================================================== *)

(** Everything the three components hold.  [servers_store] and
    [contexts_store] are the stores of [ManagedServer] and [TenantContext]
    objects: the dictionaries hold addresses into them, so that an object
    reached from two places is one object. *)
Record World := mkWorld {
  registry : Registry.t;                    (* the shared Registry          *)
  servers_store : list ManagedServer.t;
  managed_servers : Dict.t loc;             (* Orchestrator.managed_servers *)
  _observers : list Observer;               (* Orchestrator._observers      *)
  next_client : ClientId;                   (* clients constructed so far   *)
  tools : Dict.t ToolRegistration.t;        (* DynamicToolRouter.tools      *)
  contexts_store : list TenantContext.t;
  tenants : Dict.t loc;                     (* MultitenantManager.tenants   *)
  quotas : gmap string (gmap string Z)      (* MultitenantManager.quotas    *)
}.

Definition set_registry (v : Registry.t) (w : World) : World :=
  mkWorld v (servers_store w) (managed_servers w) (_observers w)
    (next_client w) (tools w) (contexts_store w) (tenants w) (quotas w).
Definition set_servers_store (v : list ManagedServer.t) (w : World) : World :=
  mkWorld (registry w) v (managed_servers w) (_observers w)
    (next_client w) (tools w) (contexts_store w) (tenants w) (quotas w).
Definition set_managed_servers (v : Dict.t loc) (w : World) : World :=
  mkWorld (registry w) (servers_store w) v (_observers w)
    (next_client w) (tools w) (contexts_store w) (tenants w) (quotas w).
Definition set_observers (v : list Observer) (w : World) : World :=
  mkWorld (registry w) (servers_store w) (managed_servers w) v
    (next_client w) (tools w) (contexts_store w) (tenants w) (quotas w).
Definition set_next_client (v : ClientId) (w : World) : World :=
  mkWorld (registry w) (servers_store w) (managed_servers w) (_observers w)
    v (tools w) (contexts_store w) (tenants w) (quotas w).
Definition set_tools (v : Dict.t ToolRegistration.t) (w : World) : World :=
  mkWorld (registry w) (servers_store w) (managed_servers w) (_observers w)
    (next_client w) v (contexts_store w) (tenants w) (quotas w).
Definition set_contexts_store (v : list TenantContext.t) (w : World) : World :=
  mkWorld (registry w) (servers_store w) (managed_servers w) (_observers w)
    (next_client w) (tools w) v (tenants w) (quotas w).
Definition set_tenants (v : Dict.t loc) (w : World) : World :=
  mkWorld (registry w) (servers_store w) (managed_servers w) (_observers w)
    (next_client w) (tools w) (contexts_store w) v (quotas w).
Definition set_quotas (v : gmap string (gmap string Z)) (w : World) : World :=
  mkWorld (registry w) (servers_store w) (managed_servers w) (_observers w)
    (next_client w) (tools w) (contexts_store w) (tenants w) v.

(** What the outside answers during one operation: the clock and the
    Worker Protocol Client.  A call that returns nothing of interest is
    [None] when it returns and [Some e] when it raises [e]. *)
Record Env := mkEnv {
  now : Z;                                           (* datetime.now() *)
  connect : ClientId -> option exn;
  initialize : ClientId -> option exn;
  disconnect : ClientId -> option exn;
  is_connected : ClientId -> bool;
  is_initialized : ClientId -> bool;
  list_tools : ClientId -> exn + list ToolInfo.t;
  call_tool : ClientId -> string -> json -> option Z -> exn + json
}.

Inductive level := DEBUG | INFO | WARNING | ERROR.

Inductive client_call :=
  | Connect | Initialize | Disconnect | ListTools
  | CallTool (tool_name : string) (arguments : json) (timeout : option Z).

(** What an operation does to the outside, in order. *)
Inductive effect :=
  | Log (lvl : level) (msg : string)
  | Notified (observer : Observer) (event : string) (data : EventData)
  | ClientCall (c : ClientId) (call : client_call).

(** How a call ends.  [Stuck] is the model's own: a dangling address, which
    no Python run has. *)
Inductive result (A : Type) :=
  | Ret (a : A)
  | Raise (e : exn)
  | Stuck.
Arguments Ret {A} a.
Arguments Raise {A} e.
Arguments Stuck {A}.

Record Out (A : Type) := mkOut {
  res : result A;
  st : World;
  eff : list effect
}.
Arguments mkOut {A} res st eff.
Arguments res {A} o.
Arguments st {A} o.
Arguments eff {A} o.

(** ** The monad of methods *)

Definition M (A : Type) : Type := Env -> World -> Out A.

Definition ret {A} (a : A) : M A := fun _ w => mkOut (Ret a) w [].

Definition bind {A B} (m : M A) (k : A -> M B) : M B :=
  fun env w =>
    match m env w with
    | mkOut (Ret a) w1 t1 =>
        match k a env w1 with
        | mkOut r w2 t2 => mkOut r w2 (t1 ++ t2)
        end
    | mkOut (Raise e) w1 t1 => mkOut (Raise e) w1 t1
    | mkOut Stuck w1 t1 => mkOut Stuck w1 t1
    end.

Declare Scope py_scope.
Delimit Scope py_scope with py.
Notation "x <- m ;; k" := (bind m (fun x => k))
  (at level 100, m at next level, right associativity,
   format "'[v' x  <-  m  ;;  '/' k ']'") : py_scope.
Notation "m ;; k" := (bind m (fun _ => k))
  (at level 100, right associativity) : py_scope.
Local Open Scope py_scope.

Definition raise {A} (e : exn) : M A := fun _ w => mkOut (Raise e) w [].
Definition stuck {A} : M A := fun _ w => mkOut Stuck w [].

Definition ask : M Env := fun env w => mkOut (Ret env) w [].
Definition gets {A} (f : World -> A) : M A := fun _ w => mkOut (Ret (f w)) w [].
Definition modify (f : World -> World) : M unit :=
  fun _ w => mkOut (Ret tt) (f w) [].
Definition emit (e : effect) : M unit := fun _ w => mkOut (Ret tt) w [e].

(** [try: m except ... as e: h e].  [h e = None] when no clause matches
    [e], which then propagates. *)
Definition try_except {A} (m : M A) (h : exn -> option (M A)) : M A :=
  fun env w =>
    match m env w with
    | mkOut (Raise e) w1 t1 =>
        match h e with
        | Some k =>
            match k env w1 with
            | mkOut r w2 t2 => mkOut r w2 (t1 ++ t2)
            end
        | None => mkOut (Raise e) w1 t1
        end
    | o => o
    end.

(** [for x in l: body x] over a list that the body does not change. *)
Fixpoint for_each {A} (l : list A) (body : A -> M unit) : M unit :=
  match l with
  | [] => ret tt
  | x :: l' => body x ;; for_each l' body
  end.

(** [logger.debug/info/warning/error(msg)] *)
Definition log (lvl : level) (msg : string) : M unit := emit (Log lvl msg).

(** ** Objects in the stores *)

(** Reading through a reference. *)
Definition deref_server (l : loc) : M ManagedServer.t :=
  fun _ w =>
    match servers_store w !! l with
    | Some m => mkOut (Ret m) w []
    | None => mkOut Stuck w []
    end.

(** Assigning attributes of the object at [l]. *)
Definition update_server (l : loc) (f : ManagedServer.t -> ManagedServer.t)
  : M unit :=
  fun _ w =>
    match servers_store w !! l with
    | Some m => mkOut (Ret tt) (set_servers_store (<[l := f m]> (servers_store w)) w) []
    | None => mkOut Stuck w []
    end.

(** Constructing a [ManagedServer]. *)
Definition new_server (m : ManagedServer.t) : M loc :=
  fun _ w =>
    mkOut (Ret (List.length (servers_store w)))
          (set_servers_store (servers_store w ++ [m]) w) [].

Definition deref_context (l : loc) : M TenantContext.t :=
  fun _ w =>
    match contexts_store w !! l with
    | Some c => mkOut (Ret c) w []
    | None => mkOut Stuck w []
    end.

Definition update_context (l : loc) (f : TenantContext.t -> TenantContext.t)
  : M unit :=
  fun _ w =>
    match contexts_store w !! l with
    | Some c => mkOut (Ret tt) (set_contexts_store (<[l := f c]> (contexts_store w)) w) []
    | None => mkOut Stuck w []
    end.

Definition new_context (c : TenantContext.t) : M loc :=
  fun _ w =>
    mkOut (Ret (List.length (contexts_store w)))
          (set_contexts_store (contexts_store w ++ [c]) w) [].

(** Constructing a [StdioClientWrapper]. *)
Definition new_client : M ClientId :=
  fun _ w => mkOut (Ret (next_client w)) (set_next_client (S (next_client w)) w) [].

(** Awaiting a client call that returns nothing of interest. *)
Definition await_client (c : ClientId) (call : client_call)
  (answer : Env -> ClientId -> option exn) : M unit :=
  fun env w =>
    match answer env c with
    | None => mkOut (Ret tt) w [ClientCall c call]
    | Some e => mkOut (Raise e) w [ClientCall c call]
    end.

(** [for x in l: acc = body acc x], for loops that build a local value. *)
Fixpoint for_fold {A B} (l : list A) (acc : B) (body : B -> A -> M B) : M B :=
  match l with
  | [] => ret acc
  | x :: l' => acc' <- body acc x ;; for_fold l' acc' body
  end.

(** [s.split(sep, 1)] when [sep in s]: the text before the first [sep] and
    the text after it; [None] when [sep not in s]. *)
Fixpoint split_once (sep : ascii) (s : string) : option (string * string) :=
  match s with
  | EmptyString => None
  | String c s' =>
      if Ascii.eqb c sep then Some (EmptyString, s')
      else match split_once sep s' with
           | Some (a, b) => Some (String c a, b)
           | None => None
           end
  end.

(* ===================================================================== *)
(** * orchestrator.py: class Orchestrator                                 *)
(* ===================================================================== *)

Module Orchestrator.

Definition _generate_server_id (tenant_id server_name : string) : string :=
  tenant_id ++ ":" ++ server_name.

Definition _parse_server_id (server_id : string) : M (string * string) :=
  match split_once ":" server_id with
  | None => raise (Exn ValueError ("Formato de ID invalido: " ++ server_id))
  | Some parts => ret parts
  end.

(** [callback.__name__] *)
Definition getattr_name (callback : Observer) : M string :=
  match __name__ callback with
  | Some n => ret n
  | None => raise (Exn AttributeError "object has no attribute '__name__'")
  end.

Definition add_observer (callback : Observer) : M unit :=
  modify (fun w => set_observers (_observers w ++ [callback]) w) ;;
  name <- getattr_name callback ;;
  log DEBUG ("Observador registrado: " ++ name).

(** [observer(event, data)] *)
Definition call_observer (observer : Observer) (event : string)
  (data : EventData) : M unit :=
  fun _ w =>
    match __call__ observer event data with
    | None => mkOut (Ret tt) w [Notified observer event data]
    | Some e => mkOut (Raise e) w [Notified observer event data]
    end.

Definition _notify_observers (event : string) (data : EventData) : M unit :=
  observers <- gets _observers ;;
  for_each observers (fun observer =>
    try_except
      (call_observer observer event data)
      (fun e => Some (
         name <- getattr_name observer ;;
         log ERROR ("Error en observador " ++ name ++ ": " ++ str e)))).

(** [server_id in self.managed_servers and
     self.managed_servers[server_id].is_running()], with the record. *)
Definition running_record (server_id : string) : M (option loc) :=
  managed <- gets (fun w => Dict.get server_id (managed_servers w)) ;;
  match managed with
  | Some l =>
      m <- deref_server l ;;
      ret (if ManagedServer.is_running m then Some l else None)
  | None => ret None
  end.

(** [start_server] up to [await client.connect()] (lines 221-251): either
    the record of the already running server, or the new record and the
    client that is about to connect. *)
Definition start_server_enter (server_id : string)
  : M (loc + loc * ClientId) :=
  parts <- _parse_server_id server_id ;;
  let tenant_id := parts.1 in
  let server_name := parts.2 in
  server_config <- gets (fun w =>
    Registry.get_server_config (registry w) tenant_id server_name) ;;
  match server_config with
  | None =>
      raise (Exn ValueError ("Servidor no encontrado en registry: " ++ server_id))
  | Some server_config =>
      running <- running_record server_id ;;
      match running with
      | Some existing =>
          log WARNING ("Servidor ya esta ejecutandose: " ++ server_id) ;;
          ret (inl existing)
      | None =>
          log INFO ("Iniciando servidor: " ++ server_id) ;;
          managed <- new_server
            (ManagedServer.new server_id tenant_id server_config STARTING) ;;
          modify (fun w =>
            set_managed_servers (Dict.set server_id managed (managed_servers w)) w) ;;
          _notify_observers "server_starting" (mkEventData server_id None) ;;
          client <- new_client ;;
          ret (inr (managed, client))
      end
  end.

(** The rest of [start_server] (lines 253-275): [awaited] is
    [await client.connect(); await client.initialize()]. *)
Definition start_server_resume (server_id : string) (managed : loc)
  (client : ClientId) (awaited : M unit) : M loc :=
  try_except
    (awaited ;;
     env <- ask ;;
     update_server managed (fun m =>
       ManagedServer.set_last_error None
         (ManagedServer.set_started_at (Some (now env))
            (ManagedServer.set_client (Some client)
               (ManagedServer.set_state RUNNING m)))) ;;
     log INFO ("Servidor iniciado exitosamente: " ++ server_id) ;;
     _notify_observers "server_started" (mkEventData server_id None) ;;
     ret managed)
    (fun e =>
       if isinstance e MCPConnectionError || isinstance e MCPInitializationError
       then Some (
         update_server managed (fun m =>
           ManagedServer.set_last_error (Some (str e))
             (ManagedServer.set_state CRASHED m)) ;;
         log ERROR ("Fallo al iniciar servidor " ++ server_id ++ ": " ++ str e) ;;
         _notify_observers "server_failed" (mkEventData server_id (Some (str e))) ;;
         raise e)
       else None).

Definition connect_and_initialize (client : ClientId) : M unit :=
  await_client client Connect connect ;;
  await_client client Initialize initialize.

Definition start_server (server_id : string) : M loc :=
  entered <- start_server_enter server_id ;;
  match entered with
  | inl existing => ret existing
  | inr (managed, client) =>
      start_server_resume server_id managed client (connect_and_initialize client)
  end.

Definition start_tenant_servers (tenant_id : string) : M (list loc) :=
  tenant <- gets (fun w => Registry.get_tenant (registry w) tenant_id) ;;
  match tenant with
  | None => raise (Exn ValueError ("Tenant no encontrado: " ++ tenant_id))
  | Some tenant =>
      log INFO ("Iniciando servidores del tenant: " ++ tenant_id) ;;
      started_servers <-
        for_fold (TenantConfig.get_enabled_servers tenant) ([] : list loc)
          (fun started_servers server_config =>
             let server_id :=
               _generate_server_id tenant_id (ServerConfig.name server_config) in
             try_except
               (managed <- start_server server_id ;;
                ret (started_servers ++ [managed])%list)
               (fun e => Some (
                  log ERROR ("Error iniciando servidor " ++ server_id ++ ": " ++ str e) ;;
                  ret started_servers))) ;;
      log INFO ("Servidores iniciados para tenant " ++ tenant_id) ;;
      ret started_servers
  end.

(** [stop_server] up to [await managed.client.disconnect()] (lines
    312-328): [None] after an early return, otherwise the record and the
    client to disconnect, if it has one. *)
Definition stop_server_enter (server_id : string)
  : M (option (loc * option ClientId)) :=
  managed <- gets (fun w => Dict.get server_id (managed_servers w)) ;;
  match managed with
  | None =>
      log WARNING ("Servidor no gestionado: " ++ server_id) ;;
      ret None
  | Some managed =>
      m <- deref_server managed ;;
      if ManagedServer.is_stopped m then
        log WARNING ("Servidor ya detenido: " ++ server_id) ;;
        ret None
      else
        log INFO ("Deteniendo servidor: " ++ server_id) ;;
        update_server managed (ManagedServer.set_state STOPPING) ;;
        _notify_observers "server_stopping" (mkEventData server_id None) ;;
        m <- deref_server managed ;;
        ret (Some (managed, ManagedServer.client m))
  end.

(** The rest of [stop_server] (lines 326-342): [awaited] is
    [await managed.client.disconnect()] when the record has a client. *)
Definition stop_server_resume (server_id : string) (managed : loc)
  (client : option ClientId) (awaited : M unit) : M unit :=
  try_except
    (match client with
     | Some _ =>
         awaited ;;
         update_server managed (ManagedServer.set_client None)
     | None => ret tt
     end ;;
     update_server managed (fun m =>
       ManagedServer.set_started_at None (ManagedServer.set_state STOPPED m)) ;;
     log INFO ("Servidor detenido exitosamente: " ++ server_id) ;;
     _notify_observers "server_stopped" (mkEventData server_id None))
    (fun e => Some (
       log ERROR ("Error deteniendo servidor " ++ server_id ++ ": " ++ str e) ;;
       update_server managed (fun m =>
         ManagedServer.set_last_error (Some (str e))
           (ManagedServer.set_state CRASHED m)))).

Definition stop_server (server_id : string) : M unit :=
  entered <- stop_server_enter server_id ;;
  match entered with
  | None => ret tt
  | Some (managed, client) =>
      stop_server_resume server_id managed client
        (match client with
         | Some c => await_client c Disconnect disconnect
         | None => ret tt
         end)
  end.

Definition stop_tenant_servers (tenant_id : string) : M unit :=
  log INFO ("Deteniendo servidores del tenant: " ++ tenant_id) ;;
  items <- gets (fun w => Dict.items (managed_servers w)) ;;
  server_ids <-
    for_fold items ([] : list string)
      (fun server_ids item =>
         managed <- deref_server item.2 ;;
         ret (if String.eqb (ManagedServer.tenant_id managed) tenant_id
                 && ManagedServer.is_running managed
              then (server_ids ++ [item.1])%list else server_ids)) ;;
  for_each server_ids stop_server.

Definition stop_all : M unit :=
  log INFO "Deteniendo todos los servidores" ;;
  server_ids <- gets (fun w => Dict.keys (managed_servers w)) ;;
  for_each server_ids stop_server ;;
  log INFO "Todos los servidores detenidos".

(** The dictionary [get_server_status] builds. *)
Record ServerStatus := mkServerStatus {
  status_server_id : string;
  status_tenant_id : string;
  status_state : string;
  status_config : string * string * string * bool;
  status_started_at : option Z;
  status_last_error : option string;
  status_restart_count : Z
}.

Definition get_server_status (server_id : string) : M (option ServerStatus) :=
  managed <- gets (fun w => Dict.get server_id (managed_servers w)) ;;
  match managed with
  | None => ret None
  | Some managed =>
      m <- deref_server managed ;;
      ret (Some (mkServerStatus
        server_id
        (ManagedServer.tenant_id m)
        (ServerState_name (ManagedServer.state m))
        (ServerConfig.name (ManagedServer.config m),
         ServerConfig.type (ManagedServer.config m),
         ServerConfig.command (ManagedServer.config m),
         ServerConfig.enabled (ManagedServer.config m))
        (ManagedServer.started_at m)
        (ManagedServer.last_error m)
        (ManagedServer.restart_count m)))
  end.

Definition get_server_client (server_id : string) : M (option ClientId) :=
  managed <- gets (fun w => Dict.get server_id (managed_servers w)) ;;
  match managed with
  | Some managed =>
      m <- deref_server managed ;;
      if ManagedServer.is_running m then ret (ManagedServer.client m)
      else ret None
  | None => ret None
  end.

Definition _handle_server_failure (server_id : string) (error : string)
  : M unit :=
  managed <- gets (fun w => Dict.get server_id (managed_servers w)) ;;
  match managed with
  | None => ret tt
  | Some managed =>
      update_server managed (fun m =>
        ManagedServer.set_last_error (Some error)
          (ManagedServer.set_state CRASHED m)) ;;
      _notify_observers "server_failed" (mkEventData server_id (Some error))
  end.

(** One round of the monitoring loop. *)
Definition _check_servers : M unit :=
  items <- gets (fun w => Dict.items (managed_servers w)) ;;
  for_each items (fun item =>
    let server_id := item.1 in
    managed <- deref_server item.2 ;;
    if negb (ManagedServer.is_running managed) then ret tt
    else
      try_except
        (env <- ask ;;
         if match ManagedServer.client managed with
            | None => true
            | Some c => negb (is_connected env c)
            end
         then
           log WARNING ("Servidor desconectado: " ++ server_id) ;;
           _handle_server_failure server_id "Conexion perdida"
         else ret tt)
        (fun e => Some (
           log ERROR ("Error verificando servidor " ++ server_id ++ ": " ++ str e)))).

End Orchestrator.

(* ===================================================================== *)
(** * router.py: class DynamicToolRouter                                  *)
(* ===================================================================== *)

Module DynamicToolRouter.

Definition _generate_prefixed_name (server_id tool_name : string) : M string :=
  parts <- Orchestrator._parse_server_id server_id ;;
  ret (parts.2 ++ "." ++ tool_name).

Definition _generate_tool_id (server_id tool_name : string) : string :=
  server_id ++ ":" ++ tool_name.

(** [await client.list_tools()] *)
Definition await_list_tools (client : ClientId) : M (list ToolInfo.t) :=
  fun env w =>
    match list_tools env client with
    | inr tools => mkOut (Ret tools) w [ClientCall client ListTools]
    | inl e => mkOut (Raise e) w [ClientCall client ListTools]
    end.

(** [await client.call_tool(tool_name=.., arguments=.., timeout=..)] *)
Definition await_call_tool (client : ClientId) (tool_name : string)
  (arguments : json) (timeout : option Z) : M json :=
  fun env w =>
    match call_tool env client tool_name arguments timeout with
    | inr result =>
        mkOut (Ret result) w [ClientCall client (CallTool tool_name arguments timeout)]
    | inl e =>
        mkOut (Raise e) w [ClientCall client (CallTool tool_name arguments timeout)]
    end.

Definition discover_tools (server_id : string) : M (list ToolRegistration.t) :=
  log INFO ("Descubriendo herramientas del servidor: " ++ server_id) ;;
  client <- Orchestrator.get_server_client server_id ;;
  match client with
  | None =>
      raise (Exn ServerNotAvailableError
               ("Servidor no disponible o no iniciado: " ++ server_id))
  | Some client =>
      env <- ask ;;
      if negb (is_initialized env client) then
        raise (Exn ServerNotAvailableError
                 ("Servidor no inicializado: " ++ server_id))
      else
        try_except
          (listed <- await_list_tools client ;;
           discovered <-
             for_fold listed ([] : list ToolRegistration.t)
               (fun discovered tool =>
                  let tool_id := _generate_tool_id server_id (ToolInfo.name tool) in
                  prefixed_name <-
                    _generate_prefixed_name server_id (ToolInfo.name tool) ;;
                  let registration :=
                    ToolRegistration.mk tool_id server_id (ToolInfo.name tool)
                      prefixed_name (ToolInfo.description tool)
                      (ToolInfo.input_schema tool) "{}" in
                  modify (fun w =>
                    set_tools (Dict.set tool_id registration (tools w)) w) ;;
                  log DEBUG ("Herramienta registrada: " ++ prefixed_name) ;;
                  ret (discovered ++ [registration])%list) ;;
           log INFO ("Herramientas descubiertas para " ++ server_id) ;;
           ret discovered)
          (fun e => Some (
             log ERROR ("Error descubriendo herramientas de " ++ server_id
                        ++ ": " ++ str e) ;;
             raise (Exn RouterError ("Fallo al descubrir herramientas: " ++ str e))))
  end.

(** The first registration, in the order of [self.tools.values()], whose
    prefixed name is [tool_name]: the loop of [call_tool] and [get_tool]. *)
Fixpoint first_with_prefixed_name (tool_name : string)
  (regs : list ToolRegistration.t) : option ToolRegistration.t :=
  match regs with
  | [] => None
  | reg :: regs' =>
      if String.eqb (ToolRegistration.prefixed_name reg) tool_name
      then Some reg
      else first_with_prefixed_name tool_name regs'
  end.

Definition call_tool (tool_name : string) (arguments : json)
  (timeout : option Z) : M json :=
  log DEBUG ("Llamando a herramienta: " ++ tool_name) ;;
  regs <- gets (fun w => Dict.values (tools w)) ;;
  match first_with_prefixed_name tool_name regs with
  | None =>
      raise (Exn ToolNotFoundError ("Herramienta no encontrada: " ++ tool_name))
  | Some registration =>
      client <- Orchestrator.get_server_client
                  (ToolRegistration.server_id registration) ;;
      match client with
      | None =>
          raise (Exn ServerNotAvailableError
                   ("Servidor no disponible: "
                    ++ ToolRegistration.server_id registration))
      | Some client =>
          try_except
            (result <- await_call_tool client
                         (ToolRegistration.original_name registration)
                         arguments timeout ;;
             log DEBUG ("Herramienta ejecutada exitosamente: " ++ tool_name) ;;
             ret result)
            (fun e =>
               if isinstance e MCPToolCallError then Some (
                 log ERROR ("Error ejecutando herramienta " ++ tool_name
                            ++ ": " ++ str e) ;;
                 raise e)
               else Some (
                 log ERROR ("Error inesperado en herramienta " ++ tool_name
                            ++ ": " ++ str e) ;;
                 raise (Exn RouterError ("Error ejecutando herramienta: " ++ str e))))
      end
  end.

Definition get_tool (tool_name : string) : M (option ToolRegistration.t) :=
  regs <- gets (fun w => Dict.values (tools w)) ;;
  ret (first_with_prefixed_name tool_name regs).

Definition get_tools_by_server (server_id : string)
  : M (list ToolRegistration.t) :=
  regs <- gets (fun w => Dict.values (tools w)) ;;
  ret (List.filter
         (fun reg => String.eqb (ToolRegistration.server_id reg) server_id)
         regs).

(** [del self.tools[tool_id]] *)
Definition del_tool (tool_id : string) : M unit :=
  present <- gets (fun w => Dict.mem tool_id (tools w)) ;;
  if present then modify (fun w => set_tools (Dict.del tool_id (tools w)) w)
  else raise (Exn KeyError tool_id).

(** [server_id] is [Optional[str]] and is tested for truth: [None] and the
    empty string both clear everything. *)
Definition clear_tools (server_id : option string) : M unit :=
  match server_id with
  | Some (String c s) =>
      let server_id := String c s in
      items <- gets (fun w => Dict.items (tools w)) ;;
      let to_remove :=
        List.map fst
          (List.filter
             (fun item => String.eqb (ToolRegistration.server_id item.2) server_id)
             items) in
      for_each to_remove del_tool ;;
      log INFO ("Herramientas limpiadas para servidor: " ++ server_id)
  | _ =>
      modify (set_tools Dict.empty) ;;
      log INFO "Todas las herramientas limpiadas"
  end.

Definition refresh_tools (server_id : string) : M (list ToolRegistration.t) :=
  log INFO ("Refrescando herramientas del servidor: " ++ server_id) ;;
  clear_tools (Some server_id) ;;
  discover_tools server_id.

End DynamicToolRouter.

(* ===================================================================== *)
(** * multitenant.py: TenantContext methods, class MultitenantManager     *)
(* ===================================================================== *)

(** [for item in d.items(): acc = body acc item] over a dictionary [d] of
    the state that the body may delete from.  A dictionary iterator
    remembers the size the dictionary had when the loop began; each time it
    is asked for the next item, also for the one after the last, it raises
    [RuntimeError] if the size is no longer that one.  [rest] are the items
    still to visit (the bodies here never insert or replace an entry). *)
Fixpoint for_items_live {V B} (d : World -> Dict.t V) (size : nat)
  (rest : list (string * V)) (acc : B) (body : B -> string * V -> M B) : M B :=
  current <- gets (fun w => Dict.len (d w)) ;;
  if negb (Nat.eqb current size) then
    raise (Exn RuntimeError "dictionary changed size during iteration")
  else
    match rest with
    | [] => ret acc
    | item :: rest' =>
        acc' <- body acc item ;;
        for_items_live d size rest' acc' body
    end.

Definition for_items {V B} (d : World -> Dict.t V) (acc : B)
  (body : B -> string * V -> M B) : M B :=
  items <- gets (fun w => Dict.items (d w)) ;;
  for_items_live d (List.length items) items acc body.

Module TenantContextMethods.

(** [context.update_activity()] *)
Definition update_activity (self : loc) : M unit :=
  env <- ask ;;
  update_context self (TenantContext.set_last_activity (now env)).

(** [context.get_active_servers()] *)
Definition get_active_servers (self : loc) : M (list loc) :=
  c <- deref_context self ;;
  for_fold (Dict.values (TenantContext.servers c)) ([] : list loc)
    (fun active server =>
       m <- deref_server server ;;
       ret (if ManagedServer.is_running m then (active ++ [server])%list
            else active)).

(** [context.is_active()] *)
Definition is_active (self : loc) : M bool :=
  active <- get_active_servers self ;;
  ret (0 <? Z.of_nat (List.length active)).

End TenantContextMethods.

Module MultitenantManager.

Definition default_quotas : gmap string Z :=
  <["max_servers" := 10]>
    (<["max_tools_per_server" := 100]>
       (<["max_concurrent_requests" := 50]> ∅)).

Definition set_quota (tenant_id quota_type : string) (limit : Z) : M unit :=
  modify (fun w =>
    set_quotas
      (<[tenant_id :=
           <[quota_type := limit]> (default ∅ (quotas w !! tenant_id))]>
         (quotas w)) w) ;;
  log INFO ("Cuota establecida para tenant " ++ tenant_id ++ ": " ++ quota_type).

Definition get_quota (tenant_id quota_type : string) : M limit :=
  q <- gets quotas ;;
  match q !! tenant_id with
  | Some per_tenant =>
      match per_tenant !! quota_type with
      | Some n => ret (Finite n)
      | None =>
          ret (match default_quotas !! quota_type with
               | Some n => Finite n
               | None => Infinity
               end)
      end
  | None =>
      ret (match default_quotas !! quota_type with
           | Some n => Finite n
           | None => Infinity
           end)
  end.

Definition check_quota (tenant_id quota_type : string) : M bool :=
  context <- gets (fun w => Dict.get tenant_id (tenants w)) ;;
  match context with
  | None => ret true
  | Some context =>
      limit <- get_quota tenant_id quota_type ;;
      (if String.eqb quota_type "max_servers" then
         c <- deref_context context ;;
         let current := Z.of_nat (Dict.len (TenantContext.servers c)) in
         if ge_limit current limit then
           raise (Exn QuotaExceededError
                    ("Tenant " ++ tenant_id ++ " ha excedido su cuota de servidores"))
         else ret tt
       else if String.eqb quota_type "max_tools_per_server" then
         c <- deref_context context ;;
         for_each (Dict.items (TenantContext.servers c)) (fun item =>
           let server_id := item.1 in
           regs <- DynamicToolRouter.get_tools_by_server server_id ;;
           let n_tools := Z.of_nat (List.length regs) in
           if gt_limit n_tools limit then
             raise (Exn QuotaExceededError
                      ("Tenant " ++ tenant_id ++ ": servidor " ++ server_id
                       ++ " ha excedido su cuota de herramientas"))
           else ret tt)
       else ret tt) ;;
      ret true
  end.

Definition get_or_create_tenant (tenant_id : string) : M loc :=
  existing <- gets (fun w => Dict.get tenant_id (tenants w)) ;;
  match existing with
  | Some context =>
      TenantContextMethods.update_activity context ;;
      ret context
  | None =>
      config <- gets (fun w => Registry.get_tenant (registry w) tenant_id) ;;
      match config with
      | None =>
          raise (Exn TenantNotFoundError ("Tenant no encontrado: " ++ tenant_id))
      | Some config =>
          env <- ask ;;
          context <- new_context
            (TenantContext.mk tenant_id config Dict.empty [] "{}"
               (now env) (now env)) ;;
          modify (fun w =>
            set_tenants (Dict.set tenant_id context (tenants w)) w) ;;
          log INFO ("Contexto de tenant creado: " ++ tenant_id) ;;
          ret context
      end
  end.

Definition get_tenant (tenant_id : string) : M (option loc) :=
  gets (fun w => Dict.get tenant_id (tenants w)).

Definition start_tenant_servers (tenant_id : string) : M (list loc) :=
  log INFO ("Iniciando servidores del tenant: " ++ tenant_id) ;;
  context <- get_or_create_tenant tenant_id ;;
  check_quota tenant_id "max_servers" ;;
  started_servers <- Orchestrator.start_tenant_servers tenant_id ;;
  for_each started_servers (fun server =>
    m <- deref_server server ;;
    update_context context (fun c =>
      TenantContext.set_servers
        (Dict.set (ManagedServer.server_id m) server (TenantContext.servers c)) c)) ;;
  for_each started_servers (fun server =>
    m <- deref_server server ;;
    try_except
      (DynamicToolRouter.discover_tools (ManagedServer.server_id m) ;; ret tt)
      (fun e => Some (
         log ERROR ("Error descubriendo herramientas de "
                    ++ ManagedServer.server_id m ++ ": " ++ str e)))) ;;
  names <-
    for_fold started_servers ([] : list string)
      (fun names server =>
         m <- deref_server server ;;
         regs <- DynamicToolRouter.get_tools_by_server (ManagedServer.server_id m) ;;
         ret (names ++ List.map ToolRegistration.prefixed_name regs)%list) ;;
  update_context context (TenantContext.set_tools names) ;;
  TenantContextMethods.update_activity context ;;
  log INFO ("Servidores iniciados para tenant " ++ tenant_id) ;;
  ret started_servers.

Definition stop_tenant_servers (tenant_id : string) : M unit :=
  log INFO ("Deteniendo servidores del tenant: " ++ tenant_id) ;;
  Orchestrator.stop_tenant_servers tenant_id ;;
  existing <- gets (fun w => Dict.get tenant_id (tenants w)) ;;
  match existing with
  | Some context =>
      c <- deref_context context ;;
      for_each (Dict.keys (TenantContext.servers c)) (fun server_id =>
        DynamicToolRouter.clear_tools (Some server_id)) ;;
      update_context context (TenantContext.set_servers Dict.empty) ;;
      update_context context (TenantContext.set_tools []) ;;
      TenantContextMethods.update_activity context
  | None => ret tt
  end ;;
  log INFO ("Servidores detenidos para tenant: " ++ tenant_id).

Definition get_tenant_tools (tenant_id : string) : M (list string) :=
  context <- get_tenant tenant_id ;;
  match context with
  | None => ret []
  | Some context => c <- deref_context context ;; ret (TenantContext.tools c)
  end.

(** [del self.tenants[tenant_id]] *)
Definition del_tenant (tenant_id : string) : M unit :=
  present <- gets (fun w => Dict.mem tenant_id (tenants w)) ;;
  if present then modify (fun w => set_tenants (Dict.del tenant_id (tenants w)) w)
  else raise (Exn KeyError tenant_id).

(** Timestamps count microseconds, the resolution of [datetime];
    [idle_timeout] counts seconds. *)
Definition cleanup_inactive_tenants (idle_timeout : Z) : M (list string) :=
  env <- ask ;;
  let now := now env in
  for_items tenants ([] : list string)
    (fun cleaned_tenants item =>
       let tenant_id := item.1 in
       let context := item.2 in
       c <- deref_context context ;;
       let idle_microseconds := now - TenantContext.last_activity c in
       inactive <-
         (if idle_timeout * 1000000 <? idle_microseconds then
            active <- TenantContextMethods.is_active context ;;
            ret (negb active)
          else ret false) ;;
       if inactive then
         log INFO ("Tenant inactivo limpiado: " ++ tenant_id) ;;
         stop_tenant_servers tenant_id ;;
         del_tenant tenant_id ;;
         ret (cleaned_tenants ++ [tenant_id])%list
       else ret cleaned_tenants).

End MultitenantManager.

(* ===================================================================== *)
(** * Runs of the system                                                  *)
(* ===================================================================== *)

(** [Registry.reload()]: the configuration is read again, in place. *)
Definition reload (r : Registry.t) : M unit := modify (set_registry r).

Definition ignore {A} (m : M A) : M unit := _ <- m ;; ret tt.

(** The calls the gateway, the monitoring loop and the tests make. *)
Inductive Op :=
  | op_reload (r : Registry.t)
  | op_add_observer (callback : Observer)
  | op_start_server (server_id : string)
  | op_stop_server (server_id : string)
  | op_start_group (tenant_id : string)
  | op_stop_group (tenant_id : string)
  | op_stop_all
  | op_check_servers
  | op_discover_tools (server_id : string)
  | op_call_tool (tool_name : string) (arguments : json) (timeout : option Z)
  | op_clear_tools (server_id : option string)
  | op_refresh_tools (server_id : string)
  | op_set_quota (tenant_id quota_type : string) (limit : Z)
  | op_check_quota (tenant_id quota_type : string)
  | op_get_or_create_tenant (tenant_id : string)
  | op_start_tenant_servers (tenant_id : string)
  | op_stop_tenant_servers (tenant_id : string)
  | op_cleanup_inactive_tenants (idle_timeout : Z).

Definition exec (op : Op) : M unit :=
  match op with
  | op_reload r => reload r
  | op_add_observer callback => Orchestrator.add_observer callback
  | op_start_server server_id => ignore (Orchestrator.start_server server_id)
  | op_stop_server server_id => Orchestrator.stop_server server_id
  | op_start_group tenant_id => ignore (Orchestrator.start_tenant_servers tenant_id)
  | op_stop_group tenant_id => Orchestrator.stop_tenant_servers tenant_id
  | op_stop_all => Orchestrator.stop_all
  | op_check_servers => Orchestrator._check_servers
  | op_discover_tools server_id => ignore (DynamicToolRouter.discover_tools server_id)
  | op_call_tool tool_name arguments timeout =>
      ignore (DynamicToolRouter.call_tool tool_name arguments timeout)
  | op_clear_tools server_id => DynamicToolRouter.clear_tools server_id
  | op_refresh_tools server_id => ignore (DynamicToolRouter.refresh_tools server_id)
  | op_set_quota tenant_id quota_type limit =>
      MultitenantManager.set_quota tenant_id quota_type limit
  | op_check_quota tenant_id quota_type =>
      ignore (MultitenantManager.check_quota tenant_id quota_type)
  | op_get_or_create_tenant tenant_id =>
      ignore (MultitenantManager.get_or_create_tenant tenant_id)
  | op_start_tenant_servers tenant_id =>
      ignore (MultitenantManager.start_tenant_servers tenant_id)
  | op_stop_tenant_servers tenant_id =>
      MultitenantManager.stop_tenant_servers tenant_id
  | op_cleanup_inactive_tenants idle_timeout =>
      ignore (MultitenantManager.cleanup_inactive_tenants idle_timeout)
  end.

(** The state after the constructors of the three components. *)
Definition initial_world (r : Registry.t) : World :=
  mkWorld r [] Dict.empty [] 0%nat Dict.empty [] Dict.empty ∅.

(** A coroutine suspended inside [start_server] or [stop_server]: it holds
    its record and its client while other coroutines run. *)
Inductive task :=
  | Connecting (server_id : string) (managed : loc) (client : ClientId)
  | Disconnecting (server_id : string) (managed : loc) (client : ClientId).

(** The states the system goes through.  An operation runs against some
    environment, however it ends; [start_server] and [stop_server] may also
    be suspended at their awaits, other steps taking place before they
    resume. *)
Inductive reachable : World -> list task -> Prop :=
  | reach_init r :
      reachable (initial_world r) []
  | reach_exec w ts env op :
      reachable w ts ->
      reachable (st (exec op env w)) ts
  | reach_start_suspend w ts env server_id managed client :
      reachable w ts ->
      res (Orchestrator.start_server_enter server_id env w)
        = Ret (inr (managed, client)) ->
      reachable (st (Orchestrator.start_server_enter server_id env w))
                (Connecting server_id managed client :: ts)
  | reach_start_resume w ts1 ts2 env server_id managed client :
      reachable w (ts1 ++ Connecting server_id managed client :: ts2)%list ->
      reachable
        (st (Orchestrator.start_server_resume server_id managed client
               (Orchestrator.connect_and_initialize client) env w))
        (ts1 ++ ts2)%list
  | reach_stop_suspend w ts env server_id managed client :
      reachable w ts ->
      res (Orchestrator.stop_server_enter server_id env w)
        = Ret (Some (managed, Some client)) ->
      reachable (st (Orchestrator.stop_server_enter server_id env w))
                (Disconnecting server_id managed client :: ts)
  | reach_stop_resume w ts1 ts2 env server_id managed client :
      reachable w (ts1 ++ Disconnecting server_id managed client :: ts2)%list ->
      reachable
        (st (Orchestrator.stop_server_resume server_id managed (Some client)
               (await_client client Disconnect disconnect) env w))
        (ts1 ++ ts2)%list.

(* ===================================================================== *)
(** * Vocabulary of the statements                                        *)
(* ===================================================================== *)

(** The record managed under [server_id], if any. *)
Definition managed_record (w : World) (server_id : string)
  : option ManagedServer.t :=
  match Dict.get server_id (managed_servers w) with
  | Some l => servers_store w !! l
  | None => None
  end.

(** The context of [tenant_id], if any. *)
Definition tenant_context (w : World) (tenant_id : string)
  : option TenantContext.t :=
  match Dict.get tenant_id (tenants w) with
  | Some l => contexts_store w !! l
  | None => None
  end.

(** The worker-name part of a composite id. *)
Definition short_name (server_id : string) : option string :=
  match split_once ":" server_id with
  | Some (_, server_name) => Some server_name
  | None => None
  end.

(** [c not in s] *)
Fixpoint free_of (c : ascii) (s : string) : bool :=
  match s with
  | EmptyString => true
  | String c' s' => negb (Ascii.eqb c' c) && free_of c s'
  end.

(** The limit [check_quota] compares the number of servers with. *)
Definition effective_max_servers (w : World) (tenant_id : string) : Z :=
  match quotas w !! tenant_id with
  | Some per_tenant =>
      match per_tenant !! "max_servers" with
      | Some n => n
      | None => 10
      end
  | None => 10
  end.

(** A record is consistent: a running server has its client, and nothing
    has ever counted a restart. *)
Definition record_ok (m : ManagedServer.t) : Prop :=
  (ManagedServer.state m = RUNNING -> ManagedServer.client m <> None)
  /\ ManagedServer.restart_count m = 0.

Definition store_ok (w : World) : Prop :=
  Forall record_ok (servers_store w).

(** The object at [l] is a record with id [server_id]; the object at [l] is
    the context of [tenant_id]. *)
Definition has_id (w : World) (l : loc) (server_id : string) : Prop :=
  exists m, servers_store w !! l = Some m
            /\ ManagedServer.server_id m = server_id.

Definition ctx_of (w : World) (l : loc) (tenant_id : string) : Prop :=
  exists c, contexts_store w !! l = Some c
            /\ TenantContext.tenant_id c = tenant_id.

(** The table of managed servers points into the store, at records that
    carry the id they are filed under. *)
Definition table_ok (w : World) : Prop :=
  forall server_id l,
    In (server_id, l) (managed_servers w) -> has_id w l server_id.

(** The servers a context tracks are filed under ids of its own tenant. *)
Definition context_ok (c : TenantContext.t) : Prop :=
  forall server_id l,
    In (server_id, l) (TenantContext.servers c) ->
    exists server_name,
      server_id = TenantContext.tenant_id c ++ ":" ++ server_name.

Definition contexts_ok (w : World) : Prop :=
  Forall context_ok (contexts_store w).

(** The table of tenants points into the store of contexts, at the context
    of that tenant. *)
Definition tenants_ok (w : World) : Prop :=
  forall tenant_id l,
    In (tenant_id, l) (tenants w) -> ctx_of w l tenant_id.

(** A catalog entry carries the names [discover_tools] derives. *)
Definition registration_ok (reg : ToolRegistration.t) : Prop :=
  exists server_name,
    short_name (ToolRegistration.server_id reg) = Some server_name
    /\ ToolRegistration.prefixed_name reg
       = server_name ++ "." ++ ToolRegistration.original_name reg.

Definition catalog_ok (w : World) : Prop :=
  Forall registration_ok (Dict.values (tools w)).

Definition Inv (w : World) : Prop :=
  store_ok w /\ table_ok w /\ contexts_ok w /\ tenants_ok w /\ catalog_ok w.

(** [Inv], together with objects known to a caller: records [K] of known
    ids and contexts [KC] of known tenants. *)
Definition InvK (K KC : loc -> string -> Prop) (w : World) : Prop :=
  Inv w
  /\ (forall l server_id, K l server_id -> has_id w l server_id)
  /\ (forall l tenant_id, KC l tenant_id -> ctx_of w l tenant_id).

(** Assignments to a record that keep it consistent and keep its id;
    assignments to a context that keep it consistent and keep its tenant. *)
Definition server_setter_ok (f : ManagedServer.t -> ManagedServer.t) : Prop :=
  forall m, (record_ok m -> record_ok (f m))
            /\ ManagedServer.server_id (f m) = ManagedServer.server_id m.

Definition context_setter_ok (f : TenantContext.t -> TenantContext.t) : Prop :=
  forall c, (context_ok c -> context_ok (f c))
            /\ TenantContext.tenant_id (f c) = TenantContext.tenant_id c.

(* ===================================================================== *)
(** * A program logic for methods                                         *)
(* ===================================================================== *)

(** From a state where [P] holds, [m] returns [a] in a state where [Q a]
    holds, or ends otherwise in a state where [E] holds. *)
Definition hoare {A} (P : World -> Prop) (m : M A) (Q : A -> World -> Prop)
  (E : World -> Prop) : Prop :=
  forall env w, P w ->
    match res (m env w) with
    | Ret a => Q a (st (m env w))
    | Raise _ | Stuck => E (st (m env w))
    end.

#[warnings="-inconsistent-scopes"] Abbreviation preserves Inv m := (hoare Inv m (fun _ => Inv) Inv).

(** [m] leaves the state as it is. *)
Definition readonly {A} (m : M A) : Prop := forall env w, st (m env w) = w.

(** [K] and one more known object. *)
Definition also (K : loc -> string -> Prop) (l0 : loc) (s0 : string)
  : loc -> string -> Prop :=
  fun l s => K l s \/ (l = l0 /\ s = s0).

Definition nothing_known : loc -> string -> Prop := fun _ _ => False.

(** One state extends another: objects keep their address and name. *)
Definition extends (w w' : World) : Prop :=
  (forall l s, has_id w l s -> has_id w' l s)
  /\ (forall l t, ctx_of w l t -> ctx_of w' l t).

(** The record [start_server_enter] hands on. *)
Definition entered_loc (r : loc + loc * ClientId) : loc :=
  match r with inl l => l | inr (l, _) => l end.

(** The state in which [stop_server] has cleared the client of the record
    at [l] and not yet assigned its state. *)
Definition client_cleared (K KC : loc -> string -> Prop) (l : loc) (w : World)
  : Prop :=
  exists w0 m,
    InvK K KC w0 /\ servers_store w0 !! l = Some m
    /\ w = set_servers_store
             (<[l := ManagedServer.set_client None m]> (servers_store w0)) w0.

(** The lifecycle state of the worker managed under [server_id]. *)
Definition worker_state (w : World) (server_id : string) : option ServerState :=
  match managed_record w server_id with
  | Some m => Some (ManagedServer.state m)
  | None => None
  end.

(** The worker is unmanaged, or its record is in another state than
    [RUNNING]. *)
Definition not_running (w : World) (server_id : string) : Prop :=
  Dict.get server_id (managed_servers w) = None
  \/ exists m, managed_record w server_id = Some m
               /\ ManagedServer.state m <> RUNNING.

(** * discover_tools *)

(** The registration [discover_tools] makes of one tool. *)
Definition registration_of (server_id short : string) (tool : ToolInfo.t)
  : ToolRegistration.t :=
  ToolRegistration.mk
    (DynamicToolRouter._generate_tool_id server_id (ToolInfo.name tool))
    server_id (ToolInfo.name tool) (short ++ "." ++ ToolInfo.name tool)
    (ToolInfo.description tool) (ToolInfo.input_schema tool) "{}".

(** The catalog after registering [listed], in order. *)
Definition register_all (server_id short : string) (listed : list ToolInfo.t)
  (catalog : Dict.t ToolRegistration.t) : Dict.t ToolRegistration.t :=
  fold_left
    (fun d tool =>
       Dict.set (DynamicToolRouter._generate_tool_id server_id (ToolInfo.name tool))
                (registration_of server_id short tool) d)
    listed catalog.

(** The body of the loop of [discover_tools]. *)
Definition register_one (server_id : string)
  (discovered : list ToolRegistration.t) (tool : ToolInfo.t)
  : M (list ToolRegistration.t) :=
  let tool_id := DynamicToolRouter._generate_tool_id server_id (ToolInfo.name tool) in
  prefixed_name <-
    DynamicToolRouter._generate_prefixed_name server_id (ToolInfo.name tool) ;;
  let registration :=
    ToolRegistration.mk tool_id server_id (ToolInfo.name tool)
      prefixed_name (ToolInfo.description tool)
      (ToolInfo.input_schema tool) "{}" in
  modify (fun w =>
    set_tools (Dict.set tool_id registration (tools w)) w) ;;
  log DEBUG ("Herramienta registrada: " ++ prefixed_name) ;;
  ret (discovered ++ [registration])%list.


(** * Concrete configurations *)

Definition example_server (name : string) : ServerConfig.t :=
  ServerConfig.mk name "database" "python" [] true ["tools"] "stdio" "{}".

Definition example_tool (name : string) : ToolInfo.t :=
  ToolInfo.mk name "" "{}".

(** A tenant and the names of its servers. *)
Definition example_tenant (tenant_id : string) (names : list string)
  : string * TenantConfig.t :=
  (tenant_id,
   TenantConfig.mk tenant_id ""
     (List.map (fun n => (n, example_server n)) names)).

Definition example_registry (ts : list (string * list string)) : Registry.t :=
  Registry.mk (List.map (fun t => example_tenant t.1 t.2) ts) 3 30.

(** At time [t], every client call succeeds; client [c] lists the tools
    named [listing c]. *)
Definition quiet_env (t : Z) (listing : ClientId -> list string) : Env :=
  mkEnv t (fun _ => None) (fun _ => None) (fun _ => None)
    (fun _ => true) (fun _ => true)
    (fun c => inr (List.map example_tool (listing c)))
    (fun _ _ _ _ => inr "{}").

(** ** Two workers whose dotted names collide *)

Definition dotted_registry : Registry.t := example_registry [("t", ["a"; "a.b"])].
Definition dotted_env : Env :=
  quiet_env 0 (fun c => if Nat.eqb c 0 then ["b.c"] else ["c"]).
Definition dotted_world : World :=
  st (MultitenantManager.start_tenant_servers "t" dotted_env
        (initial_world dotted_registry)).

(** ** The same worker name under two tenants *)

Definition twin_registry : Registry.t :=
  example_registry [("t1", ["echo"]); ("t2", ["echo"])].
Definition twin_env : Env := quiet_env 0 (fun _ => ["add"]).
Definition twin_world : World :=
  st (exec (op_start_tenant_servers "t2") twin_env
        (st (exec (op_start_tenant_servers "t1") twin_env
               (initial_world twin_registry)))).

(** ** A running worker whose configuration was reloaded away *)

Definition echo_registry : Registry.t := example_registry [("default", ["echo"])].
Definition echo_env : Env := quiet_env 0 (fun _ => ["add"]).
Definition echo_world : World :=
  st (exec (op_start_server "default:echo") echo_env (initial_world echo_registry)).
Definition orphan_world : World :=
  st (exec (op_reload (example_registry [])) echo_env echo_world).

(** ** A quota of zero for a tenant without context *)

Definition zero_quota_world : World :=
  st (exec (op_set_quota "t1" "max_servers" 0) echo_env
        (initial_world (example_registry [("t1", ["echo"])]))).

(** ** An idle tenant *)

Definition idle_world : World :=
  st (exec (op_get_or_create_tenant "default") (quiet_env 0 (fun _ => []))
        (initial_world echo_registry)).

(** ** A listener without [__name__] *)

Definition partial_listener : Observer :=
  mkObserver None (fun _ _ => Some (Exn OtherException "listener failed")).
Definition named_listener : Observer :=
  mkObserver (Some "on_event") (fun _ _ => None).

(* ===================================================================== *)
(** * orchestrator.py and router.py: further methods                     *)
(* ===================================================================== *)

(** Log lines are kept up to the numbers they format. *)

(** Class [Orchestrator]. *)
Module OrchestratorStatus.

(** The dictionary comprehension of [get_all_servers_status]: for every
    managed id whose status is not [None], the id is mapped to the status,
    which the comprehension asks for a second time. *)
Definition get_all_servers_status : M (Dict.t (option Orchestrator.ServerStatus)) :=
  server_ids <- gets (fun w => Dict.keys (managed_servers w)) ;;
  for_fold server_ids (Dict.empty : Dict.t (option Orchestrator.ServerStatus))
    (fun result server_id =>
       condition <- Orchestrator.get_server_status server_id ;;
       match condition with
       | None => ret result
       | Some _ =>
           value <- Orchestrator.get_server_status server_id ;;
           ret (Dict.set server_id value result)
       end).

End OrchestratorStatus.

(** Class [DynamicToolRouter]. *)
Module RouterCatalog.

(** [status["state"]] *)
Definition subscript_state (status : option Orchestrator.ServerStatus) : M string :=
  match status with
  | Some status => ret (Orchestrator.status_state status)
  | None => raise (Exn OtherException "'NoneType' object is not subscriptable")
  end.

Definition discover_all_tools : M (list ToolRegistration.t) :=
  log INFO "Descubriendo herramientas de todos los servidores" ;;
  servers_status <- OrchestratorStatus.get_all_servers_status ;;
  all_tools <-
    for_fold (Dict.items servers_status) ([] : list ToolRegistration.t)
      (fun all_tools item =>
         let server_id := item.1 in
         state <- subscript_state item.2 ;;
         if String.eqb state "RUNNING" then
           try_except
             (discovered <- DynamicToolRouter.discover_tools server_id ;;
              ret (all_tools ++ discovered)%list)
             (fun e => Some (
                log WARNING ("Error descubriendo herramientas de " ++ server_id
                             ++ ": " ++ str e) ;;
                ret all_tools))
         else ret all_tools) ;;
  log INFO "Total de herramientas descubiertas" ;;
  ret all_tools.

(** [server_id] is tested for truth, as in [clear_tools]. *)
Definition list_tools (server_id : option string) : M (list ToolRegistration.t) :=
  match server_id with
  | Some (String c s) =>
      regs <- gets (fun w => Dict.values (tools w)) ;;
      ret (List.filter
             (fun reg => String.eqb (ToolRegistration.server_id reg) (String c s))
             regs)
  | _ => gets (fun w => Dict.values (tools w))
  end.

(** The function [create_tool_wrapper] builds: its [__name__], its
    [__doc__], and what a call with keyword arguments does. *)
Record ToolWrapper := mkToolWrapper {
  wrapper_name : string;
  wrapper_doc : string;
  wrapper_call : json -> M json
}.

Definition create_tool_wrapper (tool_name : string) : M ToolWrapper :=
  registration <- DynamicToolRouter.get_tool tool_name ;;
  match registration with
  | None =>
      raise (Exn ToolNotFoundError ("Herramienta no encontrada: " ++ tool_name))
  | Some registration =>
      ret (mkToolWrapper tool_name (ToolRegistration.description registration)
             (fun kwargs => DynamicToolRouter.call_tool tool_name kwargs None))
  end.

Definition create_all_tool_wrappers : M (Dict.t ToolWrapper) :=
  regs <- gets (fun w => Dict.values (tools w)) ;;
  wrappers <-
    for_fold regs (Dict.empty : Dict.t ToolWrapper)
      (fun wrappers registration =>
         try_except
           (wrapper <- create_tool_wrapper
                         (ToolRegistration.prefixed_name registration) ;;
            ret (Dict.set (ToolRegistration.prefixed_name registration)
                          wrapper wrappers))
           (fun e =>
              if isinstance e ToolNotFoundError then Some (ret wrappers)
              else None)) ;;
  log INFO "Wrappers creados" ;;
  ret wrappers.

End RouterCatalog.

(* ===================================================================== *)
(** * transport/stdio_client.py: class StdioClientWrapper                 *)
(* ===================================================================== *)

(** The client the orchestrator constructs for every server: [connect],
    [disconnect] and [call_tool], over the awaits they make on the MCP
    SDK.  Durations are not modelled: whether an await under
    [asyncio.wait_for] runs out of time is part of the answer it gets. *)
Module StdioClientWrapper.

(** The awaits on the SDK. *)
Inductive sdk_call :=
  | StdioEnter                 (* self._stdio_context.__aenter__()          *)
  | SessionEnter               (* self._session.__aenter__()                *)
  | SessionExit                (* self._session.__aexit__(None, None, None) *)
  | StdioExit                  (* self._stdio_context.__aexit__(...)        *)
  | SessionCallTool (tool_name : string) (arguments : json).

(** What an await does: it returns, it raises an exception other than a
    timeout, or it raises [asyncio.TimeoutError]. *)
Inductive answer := Returns (r : json) | Fails (e : exn) | TimesOut.

(** What a method raises: [asyncio.TimeoutError], or an exception of one
    of the classes of [exn].  All derive from [Exception]. *)
Inductive raised := Timeout | Other (e : exn).

(** [str(e)] *)
Definition raised_str (e : raised) : string :=
  match e with Timeout => "" | Other e => str e end.

Inductive event :=
  | Awaited (c : sdk_call)
  | Slept                                     (* await asyncio.sleep(1) *)
  | Logged (lvl : level) (msg : string).

(** The attributes the three methods read and assign.  [_session] and
    [_stdio_context] are [true] when the attribute holds an object and
    [false] when it is [None]; [_server_info] holds the keys of
    [_server_info.tools]. *)
Record t := mk {
  max_retries : Z;
  _session : bool;
  _stdio_context : bool;
  _connected : bool;
  _initialized : bool;
  _server_info : option (list string)
}.

Definition set_session (v : bool) (self : t) : t :=
  mk (max_retries self) v (_stdio_context self) (_connected self)
     (_initialized self) (_server_info self).
Definition set_stdio_context (v : bool) (self : t) : t :=
  mk (max_retries self) (_session self) v (_connected self)
     (_initialized self) (_server_info self).
Definition set_connected (v : bool) (self : t) : t :=
  mk (max_retries self) (_session self) (_stdio_context self) v
     (_initialized self) (_server_info self).
Definition set_initialized (v : bool) (self : t) : t :=
  mk (max_retries self) (_session self) (_stdio_context self) (_connected self)
     v (_server_info self).
Definition set_server_info (v : option (list string)) (self : t) : t :=
  mk (max_retries self) (_session self) (_stdio_context self) (_connected self)
     (_initialized self) v.

(** A run of a method: its outcome, the object afterwards, the number of
    awaits on the SDK made so far, and what happened, in order. *)
Record Run (A : Type) := mkRun {
  outcome : raised + A;
  object : t;
  awaits : nat;
  events : list event
}.
Arguments mkRun {A}.
Arguments outcome {A}.
Arguments object {A}.
Arguments awaits {A}.
Arguments events {A}.

(** A method runs against the answers of the SDK, [sdk n] being the answer
    to await number [n], on an object and a number of awaits made. *)
Definition C (A : Type) : Type := (nat -> answer) -> t -> nat -> Run A.

Definition ret {A} (a : A) : C A := fun _ self n => mkRun (inr a) self n [].

Definition raise {A} (e : raised) : C A := fun _ self n => mkRun (inl e) self n [].

Definition bind {A B} (m : C A) (k : A -> C B) : C B :=
  fun sdk self n =>
    match m sdk self n with
    | mkRun (inr a) self1 n1 t1 =>
        match k a sdk self1 n1 with
        | mkRun o self2 n2 t2 => mkRun o self2 n2 (t1 ++ t2)
        end
    | mkRun (inl e) self1 n1 t1 => mkRun (inl e) self1 n1 t1
    end.

(** [try: m except ...: h]; the handler answers [None] for an exception no
    clause matches. *)
Definition try_except {A} (m : C A) (h : raised -> option (C A)) : C A :=
  fun sdk self n =>
    match m sdk self n with
    | mkRun (inl e) self1 n1 t1 =>
        match h e with
        | Some k =>
            match k sdk self1 n1 with
            | mkRun o self2 n2 t2 => mkRun o self2 n2 (t1 ++ t2)
            end
        | None => mkRun (inl e) self1 n1 t1
        end
    | r => r
    end.

Definition get : C t := fun _ self n => mkRun (inr self) self n [].

Definition assign (f : t -> t) : C unit := fun _ self n => mkRun (inr tt) (f self) n [].

Definition log (lvl : level) (msg : string) : C unit :=
  fun _ self n => mkRun (inr tt) self n [Logged lvl msg].

Definition sleep : C unit := fun _ self n => mkRun (inr tt) self n [Slept].

(** [await c] *)
Definition await (c : sdk_call) : C json :=
  fun sdk self n =>
    match sdk n with
    | Returns r => mkRun (inr r) self (S n) [Awaited c]
    | Fails e => mkRun (inl (Other e)) self (S n) [Awaited c]
    | TimesOut => mkRun (inl Timeout) self (S n) [Awaited c]
    end.

Declare Scope client_scope.
Delimit Scope client_scope with client.
Notation "x <- m ;; k" := (bind m (fun x => k))
  (at level 100, m at next level, right associativity) : client_scope.
Notation "m ;; k" := (bind m (fun _ => k))
  (at level 100, right associativity) : client_scope.
Local Open Scope client_scope.

Definition disconnect : C unit :=
  self <- get ;;
  if negb (_connected self) then ret tt
  else
    try_except
      (self <- get ;;
       (if _session self then
          await SessionExit ;;
          assign (set_session false)
        else ret tt) ;;
       self <- get ;;
       (if _stdio_context self then
          await StdioExit ;;
          assign (set_stdio_context false)
        else ret tt) ;;
       assign (set_connected false) ;;
       assign (set_initialized false) ;;
       assign (set_server_info None) ;;
       log INFO "Conexion cerrada exitosamente")
      (fun e => Some (log ERROR ("Error al cerrar conexion: " ++ raised_str e))).

Definition connect : C unit :=
  self <- get ;;
  if _connected self then
    log WARNING "Ya hay una conexion activa"
  else
    try_except
      (assign (set_stdio_context true) ;;
       await StdioEnter ;;
       assign (set_session true) ;;
       await SessionEnter ;;
       assign (set_connected true) ;;
       log INFO "Conexion establecida con servidor")
      (fun e => Some (
         log ERROR ("Error al conectar con servidor: " ++ raised_str e) ;;
         disconnect ;;
         raise (Other (Exn MCPConnectionError
                         ("Fallo al conectar: " ++ raised_str e))))).

(** The loop [for attempt in range(self.max_retries)] of [call_tool], with
    [remaining] rounds to go; [Some result] is [return result] from inside
    the loop, [None] is the loop running to its end. *)
Fixpoint attempts (tool_name : string) (arguments : json) (max_retries : Z)
  (remaining : nat) (attempt : Z) : C (option json) :=
  match remaining with
  | O => ret None
  | S remaining' =>
      returned <-
        try_except
          (result <- await (SessionCallTool tool_name arguments) ;;
           log DEBUG ("Resultado exitoso de herramienta: " ++ tool_name) ;;
           ret (Some result))
          (fun e =>
             match e with
             | Timeout =>
                 Some (if attempt =? max_retries - 1 then raise Timeout
                       else
                         log WARNING ("Timeout en llamada a herramienta "
                                      ++ tool_name) ;;
                         sleep ;;
                         ret None)
             | Other _ => None
             end) ;;
      match returned with
      | Some result => ret (Some result)
      | None => attempts tool_name arguments max_retries remaining' (attempt + 1)
      end
  end.

(** [call_tool]; the result [None] is Python's [None], which the function
    returns when the loop ends without a [return]. *)
Definition call_tool (tool_name : string) (arguments : json) : C (option json) :=
  self <- get ;;
  if negb (_initialized self) || negb (_session self) then
    raise (Other (Exn MCPConnectionError
                    "Sesion no inicializada. Usar initialize() primero."))
  else
    known <-
      match _server_info self with
      | Some names => ret (existsb (String.eqb tool_name) names)
      | None =>
          raise (Other (Exn AttributeError
                          "'NoneType' object has no attribute 'tools'"))
      end ;;
    if negb known then
      raise (Other (Exn ValueError ("Herramienta no encontrada: " ++ tool_name)))
    else
      try_except
        (log DEBUG ("Llamando a herramienta: " ++ tool_name) ;;
         attempts tool_name arguments (max_retries self)
           (Z.to_nat (max_retries self)) 0)
        (fun e =>
           match e with
           | Timeout =>
               Some (log ERROR ("Timeout llamando a herramienta " ++ tool_name) ;;
                     raise (Other (Exn MCPToolCallError
                                     ("Timeout llamando a herramienta "
                                      ++ tool_name))))
           | Other e =>
               Some (log ERROR ("Error llamando a herramienta " ++ tool_name
                                ++ ": " ++ str e) ;;
                     raise (Other (Exn MCPToolCallError
                                     ("Error llamando a herramienta " ++ tool_name
                                      ++ ": " ++ str e))))
           end).

End StdioClientWrapper.

Local Close Scope client_scope.

(** ** A client after [initialize], and a session that answers late *)

Definition ready_client : StdioClientWrapper.t :=
  StdioClientWrapper.mk 3 true true true true (Some ["add"]).

Definition fresh_client : StdioClientWrapper.t :=
  StdioClientWrapper.mk 3 false false false false None.

(** The first await times out, the second returns. *)
Definition late_sdk (n : nat) : StdioClientWrapper.answer :=
  match n with
  | O => StdioClientWrapper.TimesOut
  | _ => StdioClientWrapper.Returns "{}"
  end.

(** The stdio context is entered, the session is not. *)
Definition broken_sdk (n : nat) : StdioClientWrapper.answer :=
  match n with
  | O => StdioClientWrapper.Returns "{}"
  | _ => StdioClientWrapper.Fails (Exn OtherException "broken pipe")
  end.

(* ===================================================================== *)
(** * Vocabulary of the further properties                                *)
(* ===================================================================== *)

(** A listener has a [__name__]. *)
Definition named (o : Observer) : Prop := __name__ o <> None.

(** The listener calls among the effects of an operation, in order. *)
Fixpoint listener_calls (t : list effect) : list (Observer * string * EventData) :=
  match t with
  | [] => []
  | Notified observer event data :: t' => (observer, event, data) :: listener_calls t'
  | _ :: t' => listener_calls t'
  end.

(** The number of catalog entries of a server. *)
Definition tool_count (w : World) (server_id : string) : Z :=
  Z.of_nat (List.length
    (List.filter
       (fun reg => String.eqb (ToolRegistration.server_id reg) server_id)
       (Dict.values (tools w)))).

(** The record [stop_server] leaves of a record [m] that is not stopped:
    [STOPPED] without client, or [CRASHED] with its client when
    [disconnect] raises. *)
Definition stopped_record (env : Env) (m : ManagedServer.t) : ManagedServer.t :=
  match ManagedServer.client m with
  | Some c =>
      match disconnect env c with
      | None =>
          ManagedServer.set_started_at None
            (ManagedServer.set_state STOPPED (ManagedServer.set_client None m))
      | Some e =>
          ManagedServer.set_last_error (Some (str e))
            (ManagedServer.set_state CRASHED m)
      end
  | None =>
      ManagedServer.set_started_at None (ManagedServer.set_state STOPPED m)
  end.

(** The state [stop_server] leaves. *)
Definition after_stop (env : Env) (server_id : string) (w : World) : World :=
  match Dict.get server_id (managed_servers w) with
  | Some l =>
      match servers_store w !! l with
      | Some m =>
          if ManagedServer.is_stopped m then w
          else set_servers_store (<[l := stopped_record env m]> (servers_store w)) w
      | None => w
      end
  | None => w
  end.

(** No record of the table is running or in transition. *)
Definition all_stopped (w : World) : Prop :=
  forall server_id m,
    managed_record w server_id = Some m -> ManagedServer.is_stopped m = true.

(** The record holds a client that is connected. *)
Definition connected (env : Env) (m : ManagedServer.t) : Prop :=
  exists c, ManagedServer.client m = Some c /\ is_connected env c = true.

(** The record [_handle_server_failure] leaves. *)
Definition failed_record (error : string) (m : ManagedServer.t) : ManagedServer.t :=
  ManagedServer.set_last_error (Some error) (ManagedServer.set_state CRASHED m).

(** One monitoring round changes a record only from running and
    disconnected to crashed. *)
Definition checked (env : Env) (w w' : World) : Prop :=
  managed_servers w' = managed_servers w
  /\ List.length (servers_store w') = List.length (servers_store w)
  /\ forall l m',
       servers_store w' !! l = Some m' ->
       servers_store w !! l = Some m'
       \/ exists m, servers_store w !! l = Some m
                    /\ ManagedServer.state m = RUNNING
                    /\ ~ connected env m
                    /\ m' = failed_record "Conexion perdida" m.

(** The table of managed servers is a dictionary (no id is filed twice)
    whose values are addresses of records. *)
Definition table_valid (w : World) : Prop :=
  NoDup (Dict.keys (managed_servers w))
  /\ forall server_id l,
       In (server_id, l) (managed_servers w) ->
       (l < List.length (servers_store w))%nat.

(** The dictionaries of the state are dictionaries: no key occurs twice. *)
Definition dicts_ok (w : World) : Prop :=
  NoDup (Dict.keys (managed_servers w))
  /\ NoDup (Dict.keys (tools w))
  /\ NoDup (Dict.keys (tenants w))
  /\ Forall (fun c => NoDup (Dict.keys (TenantContext.servers c)))
            (contexts_store w).

(** The record at [l] is in state [RUNNING]. *)
Definition running_at (w : World) (l : nat) : Prop :=
  exists m, servers_store w !! l = Some m /\ ManagedServer.state m = RUNNING.

(** The client of the running record managed under some id. *)
Definition live_client (w : World) (c : nat) : Prop :=
  exists server_id m,
    managed_record w server_id = Some m
    /\ ManagedServer.state m = RUNNING
    /\ ManagedServer.client m = Some c.

(** An effect of a discovery: a log line, or [list_tools] called on the
    client of a running server. *)
Definition discovery_effect (w : World) (e : effect) : Prop :=
  match e with
  | Log _ _ => True
  | ClientCall c call => call = ListTools /\ live_client w c
  | Notified _ _ _ => False
  end.

(* ===================================================================== *)
(** * Further configurations                                              *)
(* ===================================================================== *)

(** ** Workers that refuse the connection, and a connection that was lost *)

Definition refusing_env : Env :=
  mkEnv 0 (fun _ => Some (Exn MCPConnectionError "connection refused"))
    (fun _ => None) (fun _ => None) (fun _ => false) (fun _ => false)
    (fun _ => inr []) (fun _ _ _ _ => inr "{}").

Definition lost_env : Env :=
  mkEnv 5 (fun _ => None) (fun _ => None) (fun _ => None)
    (fun _ => false) (fun _ => true)
    (fun _ => inr []) (fun _ _ _ _ => inr "{}").

(** ** A tenant at its limit of servers *)

Definition full_world : World :=
  st (exec (op_start_tenant_servers "t1") twin_env
        (st (exec (op_set_quota "t1" "max_servers" 1) twin_env
               (initial_world twin_registry)))).


(* ===================================================================== *)
(** * Starts and stops that other coroutines interleave with              *)
(* ===================================================================== *)

(** The record [start_server] leaves once its client is connected and
    initialized. *)
Definition started_record (now : Z) (client : ClientId) (m : ManagedServer.t)
  : ManagedServer.t :=
  ManagedServer.set_last_error None
    (ManagedServer.set_started_at (Some now)
       (ManagedServer.set_client (Some client)
          (ManagedServer.set_state RUNNING m))).

(** The record [stop_server] leaves when nothing fails; [client] is what
    the record held when [stop_server] tested [managed.client]. *)
Definition halted_record (client : option ClientId) (m : ManagedServer.t)
  : ManagedServer.t :=
  ManagedServer.set_started_at None
    (ManagedServer.set_state STOPPED
       (match client with
        | Some _ => ManagedServer.set_client None m
        | None => m
        end)).

(** ** A start suspended at its awaits, and a second start of the same id *)

Definition starting_world : World :=
  st (Orchestrator.start_server_enter "default:echo" echo_env
        (initial_world echo_registry)).

Definition raced_world : World :=
  st (Orchestrator.start_server_enter "default:echo" echo_env starting_world).

(** ** A stop suspended at its disconnect *)

Definition stopping_world : World :=
  st (Orchestrator.stop_server_enter "default:echo" echo_env echo_world).

(** ** A catalog entry, its worker stopped, and clients that fail a call *)

Definition discovered_world : World :=
  st (exec (op_discover_tools "default:echo") echo_env echo_world).

Definition halted_world : World :=
  st (exec (op_stop_server "default:echo") echo_env discovered_world).

Definition failing_env (e : exn) : Env :=
  mkEnv 0 (fun _ => None) (fun _ => None) (fun _ => None)
    (fun _ => true) (fun _ => true)
    (fun _ => inr [example_tool "add"]) (fun _ _ _ _ => inl e).

(** ** A tenant whose servers are already running *)

(** What [start_server] tests before it creates anything, for the server
    [server_config] of [tenant_id]: the id parses, the registry knows the
    server, and the id is managed by the record [l], which is [RUNNING]. *)
Definition already_running (w : World) (tenant_id : string)
  (server_config : ServerConfig.t) (l : nat) : Prop :=
  let server_id :=
    Orchestrator._generate_server_id tenant_id (ServerConfig.name server_config) in
  (exists parts,
     split_once ":" server_id = Some parts
     /\ Registry.get_server_config (registry w) parts.1 parts.2 <> None)
  /\ Dict.get server_id (managed_servers w) = Some l
  /\ running_at w l.

(** The effect is a line of the log: no client was called, no listener
    notified. *)
Definition log_line (e : effect) : Prop :=
  match e with
  | Log _ _ => True
  | _ => False
  end.

(* ===================================================================== *)
(** * Rules of the program logic                                          *)
(* ===================================================================== *)



Lemma hoare_conseq {A} (P P' : World -> Prop) (m : M A) (Q Q' : A -> World -> Prop) (E E' : World -> Prop) :
  hoare P m Q E ->
  (forall w, P' w -> P w) -> (forall a w, Q a w -> Q' a w) -> (forall w, E w -> E' w) ->
  hoare P' m Q' E'.
Proof.
  intros H HP HQ HE env w Hw. specialize (H env w (HP _ Hw)).
  destruct (res (m env w)); auto.
Qed.

Lemma hoare_pre {A} (P P' : World -> Prop) (m : M A) Q E :
  hoare P m Q E -> (forall w, P' w -> P w) -> hoare P' m Q E.
Proof. intros. eapply hoare_conseq; eauto. Qed.

Lemma hoare_weaken_E {A} (P : World -> Prop) (m : M A) Q (E E' : World -> Prop) :
  hoare P m Q E -> (forall w, E w -> E' w) -> hoare P m Q E'.
Proof. intros. eapply hoare_conseq; eauto. Qed.

Lemma hoare_ret {A} (P : World -> Prop) (a : A) (Q : A -> World -> Prop) E :
  (forall w, P w -> Q a w) -> hoare P (ret a) Q E.
Proof. intros H env w Hw. cbn. auto. Qed.

Lemma hoare_raise {A} (P : World -> Prop) e (Q : A -> World -> Prop) (E : World -> Prop) :
  (forall w, P w -> E w) -> hoare P (raise e) Q E.
Proof. intros H env w Hw. cbn. auto. Qed.

Lemma hoare_stuck {A} (P : World -> Prop) (Q : A -> World -> Prop) (E : World -> Prop) :
  (forall w, P w -> E w) -> hoare P stuck Q E.
Proof. intros H env w Hw. cbn. auto. Qed.

Lemma hoare_bind {A B} (P : World -> Prop) (m : M A) (k : A -> M B)
  (Q1 : A -> World -> Prop) (Q : B -> World -> Prop) E :
  hoare P m Q1 E -> (forall a, hoare (Q1 a) (k a) Q E) -> hoare P (bind m k) Q E.
Proof.
  intros Hm Hk env w Hw. specialize (Hm env w Hw). unfold bind.
  destruct (m env w) as [[a|e|] w1 t1]; cbn in *; auto.
  specialize (Hk a env w1 Hm). destruct (k a env w1) as [r w2 t2]; cbn in *. exact Hk.
Qed.

Lemma hoare_try {A} (P : World -> Prop) (m : M A) h (Q : A -> World -> Prop) (E' E : World -> Prop) :
  hoare P m Q E' ->
  (forall e k, h e = Some k -> hoare E' k Q E) ->
  (forall w, E' w -> E w) ->
  hoare P (try_except m h) Q E.
Proof.
  intros Hm Hh HE env w Hw. specialize (Hm env w Hw). unfold try_except.
  destruct (m env w) as [[a|e|] w1 t1]; cbn in *; auto.
  destruct (h e) as [k|] eqn:Ek; cbn; auto.
  specialize (Hh e k Ek env w1 Hm). destruct (k env w1) as [r w2 t2]; cbn in *. exact Hh.
Qed.

Lemma hoare_gets {A} (P : World -> Prop) (f : World -> A) E :
  hoare P (gets f) (fun a w => P w /\ a = f w) E.
Proof. intros env w Hw. cbn. auto. Qed.

Lemma hoare_ask (P : World -> Prop) E : hoare P ask (fun _ w => P w) E.
Proof. intros env w Hw. cbn. auto. Qed.

Lemma hoare_modify (P : World -> Prop) f (Q : unit -> World -> Prop) E :
  (forall w, P w -> Q tt (f w)) -> hoare P (modify f) Q E.
Proof. intros H env w Hw. cbn. auto. Qed.

Lemma hoare_log (P : World -> Prop) lvl msg E : hoare P (log lvl msg) (fun _ w => P w) E.
Proof. intros env w Hw. cbn. auto. Qed.

Lemma hoare_for_each {A} (I : World -> Prop) (l : list A) body E :
  (forall x, In x l -> hoare I (body x) (fun _ => I) E) ->
  hoare I (for_each l body) (fun _ => I) E.
Proof.
  induction l as [|x l IH]; intros H; cbn.
  - apply hoare_ret; auto.
  - eapply hoare_bind; [apply H; left; reflexivity|]. intros ?. apply IH. intros; apply H; right; auto.
Qed.

Lemma hoare_for_fold {A B} (I : B -> World -> Prop) (l : list A) (acc : B) body E :
  (forall acc x, In x l -> hoare (I acc) (body acc x) I E) ->
  hoare (I acc) (for_fold l acc body) I E.
Proof.
  revert acc. induction l as [|x l IH]; intros acc H; cbn.
  - apply hoare_ret; auto.
  - eapply hoare_bind; [apply H; left; reflexivity|]. intros acc'. apply IH. intros; apply H; right; auto.
Qed.

Lemma hoare_conj {A} P1 P2 (m : M A) Q1 Q2 E1 E2 :
  hoare P1 m Q1 E1 -> hoare P2 m Q2 E2 ->
  hoare (fun w => P1 w /\ P2 w) m (fun a w => Q1 a w /\ Q2 a w) (fun w => E1 w /\ E2 w).
Proof.
  intros H1 H2 env w [Hw1 Hw2]. specialize (H1 env w Hw1). specialize (H2 env w Hw2).
  destruct (res (m env w)); auto.
Qed.

Lemma hoare_pure {A} (phi : Prop) P (m : M A) Q E :
  (phi -> hoare P m Q E) -> hoare (fun w => P w /\ phi) m Q E.
Proof. intros H env w [Hw Hphi]. exact (H Hphi env w Hw). Qed.


(** * Read-only programs *)


Lemma readonly_ret {A} (a : A) : readonly (ret a).
Proof. intros env w; reflexivity. Qed.
Lemma readonly_raise {A} e : readonly (@raise A e).
Proof. intros env w; reflexivity. Qed.
Lemma readonly_stuck {A} : readonly (@stuck A).
Proof. intros env w; reflexivity. Qed.
Lemma readonly_ask : readonly ask.
Proof. intros env w; reflexivity. Qed.
Lemma readonly_gets {A} (f : World -> A) : readonly (gets f).
Proof. intros env w; reflexivity. Qed.
Lemma readonly_emit e : readonly (emit e).
Proof. intros env w; reflexivity. Qed.
Lemma readonly_log lvl msg : readonly (log lvl msg).
Proof. intros env w; reflexivity. Qed.
Lemma readonly_deref_server l : readonly (deref_server l).
Proof. intros env w; unfold deref_server; destruct (_ !! _); reflexivity. Qed.
Lemma readonly_deref_context l : readonly (deref_context l).
Proof. intros env w; unfold deref_context; destruct (_ !! _); reflexivity. Qed.
Lemma readonly_await_client c call answer : readonly (await_client c call answer).
Proof. intros env w; unfold await_client; destruct (answer env c); reflexivity. Qed.

Lemma readonly_bind {A B} (m : M A) (k : A -> M B) :
  readonly m -> (forall a, readonly (k a)) -> readonly (bind m k).
Proof.
  intros Hm Hk env w. specialize (Hm env w). unfold bind.
  destruct (m env w) as [[a|e|] w1 t1]; cbn in *; auto.
  specialize (Hk a env w1). destruct (k a env w1); cbn in *. congruence.
Qed.

Lemma readonly_try {A} (m : M A) h :
  readonly m -> (forall e k, h e = Some k -> readonly k) -> readonly (try_except m h).
Proof.
  intros Hm Hh env w. specialize (Hm env w). unfold try_except.
  destruct (m env w) as [[a|e|] w1 t1]; cbn in *; auto.
  destruct (h e) as [k|] eqn:Ek; cbn; auto.
  specialize (Hh e k Ek env w1). destruct (k env w1); cbn in *. congruence.
Qed.

Lemma readonly_for_each {A} (l : list A) body :
  (forall x, readonly (body x)) -> readonly (for_each l body).
Proof.
  intros H. induction l; cbn; [apply readonly_ret|].
  apply readonly_bind; auto.
Qed.

Lemma readonly_for_fold {A B} (l : list A) (acc : B) body :
  (forall acc x, readonly (body acc x)) -> readonly (for_fold l acc body).
Proof.
  intros H. revert acc. induction l; intros acc; cbn; [apply readonly_ret|].
  apply readonly_bind; auto.
Qed.

Lemma readonly_hoare {A} (m : M A) (P : World -> Prop) :
  readonly m -> hoare P m (fun _ => P) P.
Proof.
  intros H env w Hw. rewrite (H env w). destruct (res (m env w)); auto.
Qed.

Lemma readonly_hoare_weak {A} (m : M A) (P E : World -> Prop) :
  readonly m -> (forall w, P w -> E w) -> hoare P m (fun _ => P) E.
Proof.
  intros H HE env w Hw. rewrite (H env w). destruct (res (m env w)); auto.
Qed.

(** A read-only program, with what is known of the value it returns. *)
Lemma readonly_hoare_val {A} (m : M A) (P : World -> Prop) (phi : A -> World -> Prop) :
  readonly m ->
  (forall env w a, res (m env w) = Ret a -> phi a w) ->
  hoare P m (fun a w => P w /\ phi a w) P.
Proof.
  intros H Hv env w Hw. specialize (Hv env w). rewrite (H env w).
  destruct (res (m env w)); auto.
Qed.

Create HintDb readonly.

Ltac readonly_tac :=
  repeat first
    [ solve [ auto with readonly nocore ]
    | apply readonly_ret | apply readonly_raise | apply readonly_stuck
    | apply readonly_ask | apply readonly_gets | apply readonly_emit
    | apply readonly_log | apply readonly_deref_server
    | apply readonly_deref_context | apply readonly_await_client
    | apply readonly_bind; [ | intros ? ]
    | apply readonly_try; [ | intros ? ? ? ]
    | apply readonly_for_each; intros ?
    | apply readonly_for_fold; intros ? ?
    | match goal with
      | H : Some _ = Some _ |- _ => injection H as <-
      | H : (if ?b then _ else _) = Some _ |- _ => destruct b; [ | discriminate ]
      | H : (if ?b then _ else _) = Some _ |- _ => destruct b
      | H : None = Some _ |- _ => discriminate
      | |- readonly (match ?x with _ => _ end) => destruct x
      | |- readonly (let _ := _ in _) => cbv zeta
      end ].

Lemma readonly_call_observer o ev d : readonly (Orchestrator.call_observer o ev d).
Proof. intros env w; unfold Orchestrator.call_observer; destruct (__call__ _ _ _); reflexivity. Qed.
#[global] Hint Resolve readonly_call_observer : readonly.

Lemma readonly_getattr_name o : readonly (Orchestrator.getattr_name o).
Proof. unfold Orchestrator.getattr_name. readonly_tac. Qed.
#[global] Hint Resolve readonly_getattr_name : readonly.

Lemma readonly_notify ev d : readonly (Orchestrator._notify_observers ev d).
Proof.
  unfold Orchestrator._notify_observers. readonly_tac.
Qed.
#[global] Hint Resolve readonly_notify : readonly.

Lemma readonly_parse sid : readonly (Orchestrator._parse_server_id sid).
Proof. unfold Orchestrator._parse_server_id. readonly_tac. Qed.
#[global] Hint Resolve readonly_parse : readonly.

Lemma readonly_running_record sid : readonly (Orchestrator.running_record sid).
Proof. unfold Orchestrator.running_record. readonly_tac. Qed.
#[global] Hint Resolve readonly_running_record : readonly.

Lemma readonly_get_server_client sid : readonly (Orchestrator.get_server_client sid).
Proof. unfold Orchestrator.get_server_client. readonly_tac. Qed.
#[global] Hint Resolve readonly_get_server_client : readonly.

Lemma readonly_get_server_status sid : readonly (Orchestrator.get_server_status sid).
Proof. unfold Orchestrator.get_server_status. readonly_tac. Qed.
#[global] Hint Resolve readonly_get_server_status : readonly.

Lemma readonly_connect_and_initialize c : readonly (Orchestrator.connect_and_initialize c).
Proof. unfold Orchestrator.connect_and_initialize. readonly_tac. Qed.
#[global] Hint Resolve readonly_connect_and_initialize : readonly.

Lemma readonly_get_tools_by_server sid : readonly (DynamicToolRouter.get_tools_by_server sid).
Proof. unfold DynamicToolRouter.get_tools_by_server. readonly_tac. Qed.
#[global] Hint Resolve readonly_get_tools_by_server : readonly.

Lemma readonly_get_tool n : readonly (DynamicToolRouter.get_tool n).
Proof. unfold DynamicToolRouter.get_tool. readonly_tac. Qed.
#[global] Hint Resolve readonly_get_tool : readonly.

Lemma readonly_await_list_tools c : readonly (DynamicToolRouter.await_list_tools c).
Proof. intros env w; unfold DynamicToolRouter.await_list_tools; destruct (list_tools _ _); reflexivity. Qed.
#[global] Hint Resolve readonly_await_list_tools : readonly.

Lemma readonly_await_call_tool c n a t : readonly (DynamicToolRouter.await_call_tool c n a t).
Proof. intros env w; unfold DynamicToolRouter.await_call_tool; destruct (call_tool _ _ _ _ _); reflexivity. Qed.
#[global] Hint Resolve readonly_await_call_tool : readonly.

Lemma readonly_call_tool n a t : readonly (DynamicToolRouter.call_tool n a t).
Proof.
  unfold DynamicToolRouter.call_tool. readonly_tac.
Qed.
#[global] Hint Resolve readonly_call_tool : readonly.

Lemma readonly_generate_prefixed_name sid n : readonly (DynamicToolRouter._generate_prefixed_name sid n).
Proof. unfold DynamicToolRouter._generate_prefixed_name. readonly_tac. Qed.
#[global] Hint Resolve readonly_generate_prefixed_name : readonly.

Lemma readonly_get_quota t q : readonly (MultitenantManager.get_quota t q).
Proof. unfold MultitenantManager.get_quota. readonly_tac. Qed.
#[global] Hint Resolve readonly_get_quota : readonly.

Lemma readonly_check_quota t q : readonly (MultitenantManager.check_quota t q).
Proof.
  unfold MultitenantManager.check_quota. readonly_tac.
Qed.
#[global] Hint Resolve readonly_check_quota : readonly.

Lemma readonly_get_active_servers l : readonly (TenantContextMethods.get_active_servers l).
Proof. unfold TenantContextMethods.get_active_servers. readonly_tac. Qed.
#[global] Hint Resolve readonly_get_active_servers : readonly.

Lemma readonly_is_active l : readonly (TenantContextMethods.is_active l).
Proof. unfold TenantContextMethods.is_active. readonly_tac. Qed.
#[global] Hint Resolve readonly_is_active : readonly.

(** * Dictionaries *)

Lemma dict_get_In {V} k (v : V) d : Dict.get k d = Some v -> In (k, v) d.
Proof.
  induction d as [|[k' v'] d IH]; cbn; [discriminate|].
  destruct (String.eqb k k') eqn:E.
  - apply String.eqb_eq in E. intros [= ->]. subst. auto.
  - auto.
Qed.

Lemma dict_In_set {V} k (v : V) k' v' d :
  In (k, v) (Dict.set k' v' d) -> (k = k' /\ v = v') \/ In (k, v) d.
Proof.
  induction d as [|[k0 v0] d IH]; cbn.
  - intros [[= <- <-]|[]]; auto.
  - destruct (String.eqb k' k0) eqn:E; cbn.
    + intros [[= <- <-]|H]; auto.
    + intros [H|H]; auto. destruct (IH H); auto.
Qed.

Lemma dict_In_del {V} k (v : V) k' d :
  In (k, v) (Dict.del k' d) -> In (k, v) d.
Proof.
  induction d as [|[k0 v0] d IH]; cbn; auto.
  destruct (String.eqb k' k0); cbn; intuition.
Qed.

Lemma dict_get_set_eq {V} k (v : V) d : Dict.get k (Dict.set k v d) = Some v.
Proof.
  induction d as [|[k0 v0] d IH]; cbn.
  - by rewrite String.eqb_refl.
  - destruct (String.eqb k k0) eqn:E; cbn; rewrite ?String.eqb_refl, ?E; auto.
Qed.

Lemma dict_get_set_ne {V} k k' (v : V) d :
  k <> k' -> Dict.get k (Dict.set k' v d) = Dict.get k d.
Proof.
  intros Hne. induction d as [|[k0 v0] d IH]; cbn.
  - apply String.eqb_neq in Hne. by rewrite Hne.
  - destruct (String.eqb k' k0) eqn:E; cbn.
    + apply String.eqb_eq in E. subst k0.
      apply String.eqb_neq in Hne. by rewrite Hne.
    + destruct (String.eqb k k0); auto.
Qed.

(** * The invariant under the primitive steps *)

Ltac split_invk :=
  refine (conj (conj _ (conj _ (conj _ (conj _ _)))) (conj _ _));
  try assumption.

Section Primitives.
Context (K KC : loc -> string -> Prop).

Lemma has_id_update w l f l' sid m :
  servers_store w !! l = Some m ->
  ManagedServer.server_id (f m) = ManagedServer.server_id m ->
  has_id w l' sid ->
  has_id (set_servers_store (<[l := f m]> (servers_store w)) w) l' sid.
Proof.
  intros Hl Hf (m' & Hm' & Hid). unfold has_id; cbn.
  destruct (decide (l = l')) as [->|Hne].
  - exists (f m). rewrite list_lookup_insert_eq by (eapply lookup_lt_Some; eauto).
    split; auto. congruence.
  - exists m'. rewrite list_lookup_insert_ne by auto. auto.
Qed.

Lemma has_id_alloc w m0 l sid :
  has_id w l sid -> has_id (set_servers_store (servers_store w ++ [m0]) w) l sid.
Proof.
  intros (m & Hm & Hid). exists m. split; auto. cbn.
  apply lookup_app_l_Some. auto.
Qed.

Lemma ctx_of_update w l f l' t c :
  contexts_store w !! l = Some c ->
  TenantContext.tenant_id (f c) = TenantContext.tenant_id c ->
  ctx_of w l' t ->
  ctx_of (set_contexts_store (<[l := f c]> (contexts_store w)) w) l' t.
Proof.
  intros Hl Hf (c' & Hc' & Hid). unfold ctx_of; cbn.
  destruct (decide (l = l')) as [->|Hne].
  - exists (f c). rewrite list_lookup_insert_eq by (eapply lookup_lt_Some; eauto).
    split; auto. congruence.
  - exists c'. rewrite list_lookup_insert_ne by auto. auto.
Qed.

Lemma ctx_of_alloc w c0 l t :
  ctx_of w l t -> ctx_of (set_contexts_store (contexts_store w ++ [c0]) w) l t.
Proof.
  intros (c & Hc & Hid). exists c. split; auto. cbn.
  apply lookup_app_l_Some. auto.
Qed.

Lemma InvK_update_server l f :
  server_setter_ok f -> preserves (InvK K KC) (update_server l f).
Proof.
  intros Hf env w HI. unfold update_server.
  destruct (servers_store w !! l) as [m|] eqn:El; cbn; [|exact HI].
  destruct HI as ((Hs & Ht & Hc & Hn & Hcat) & HK & HKC).
  destruct (Hf m) as [Hok Hid].
  split_invk.
  - unfold store_ok in *; cbn. apply Forall_insert; auto.
    apply Hok. eapply Forall_lookup_1; eauto.
  - intros sid l' Hin. apply has_id_update; auto.
  - intros l' sid Hk. apply has_id_update; auto.
Qed.

Lemma InvK_new_server m0 :
  record_ok m0 ->
  hoare (InvK K KC) (new_server m0)
    (fun l w => InvK K KC w /\ servers_store w !! l = Some m0)
    (InvK K KC).
Proof.
  intros Hm env w HI. unfold new_server; cbn.
  destruct HI as ((Hs & Ht & Hc & Hn & Hcat) & HK & HKC).
  split; [split_invk|].
  - unfold store_ok in *; cbn. apply Forall_app; split; auto.
  - intros sid l' Hin. apply has_id_alloc; auto.
  - intros l' sid Hk. apply has_id_alloc; auto.
  - rewrite lookup_app_r by lia. by rewrite Nat.sub_diag.
Qed.

Lemma InvK_set_managed sid l :
  hoare (fun w => InvK K KC w /\ has_id w l sid)
    (modify (fun w => set_managed_servers (Dict.set sid l (managed_servers w)) w))
    (fun _ => InvK K KC) (InvK K KC).
Proof.
  apply hoare_modify. intros w (((Hs & Ht & Hc & Hn & Hcat) & HK & HKC) & Hid).
  split_invk.
  intros sid' l' Hin. cbn in Hin. apply dict_In_set in Hin as [[-> ->]|Hin]; auto.
  apply (Ht _ _ Hin).
Qed.

Lemma InvK_update_context l f :
  context_setter_ok f -> preserves (InvK K KC) (update_context l f).
Proof.
  intros Hf env w HI. unfold update_context.
  destruct (contexts_store w !! l) as [c|] eqn:El; cbn; [|exact HI].
  destruct HI as ((Hs & Ht & Hc & Hn & Hcat) & HK & HKC).
  destruct (Hf c) as [Hok Hid].
  split_invk.
  - unfold contexts_ok in *; cbn. apply Forall_insert; auto.
    apply Hok. eapply Forall_lookup_1; eauto.
  - intros t l' Hin. apply ctx_of_update; auto.
  - intros l' t Hk. apply ctx_of_update; auto.
Qed.

Lemma InvK_new_context c0 :
  context_ok c0 ->
  hoare (InvK K KC) (new_context c0)
    (fun l w => InvK K KC w /\ contexts_store w !! l = Some c0)
    (InvK K KC).
Proof.
  intros Hm env w HI. unfold new_context; cbn.
  destruct HI as ((Hs & Ht & Hc & Hn & Hcat) & HK & HKC).
  split; [split_invk|].
  - unfold contexts_ok in *; cbn. apply Forall_app; split; auto.
  - intros t l' Hin. apply ctx_of_alloc; auto.
  - intros l' t Hk. apply ctx_of_alloc; auto.
  - rewrite lookup_app_r by lia. by rewrite Nat.sub_diag.
Qed.

Lemma InvK_set_tenant t l :
  hoare (fun w => InvK K KC w /\ ctx_of w l t)
    (modify (fun w => set_tenants (Dict.set t l (tenants w)) w))
    (fun _ => InvK K KC) (InvK K KC).
Proof.
  apply hoare_modify. intros w (((Hs & Ht & Hc & Hn & Hcat) & HK & HKC) & Hid).
  split_invk.
  intros t' l' Hin. cbn in Hin. apply dict_In_set in Hin as [[-> ->]|Hin]; auto.
  apply (Hn _ _ Hin).
Qed.

Lemma InvK_del_tenant t :
  preserves (InvK K KC) (MultitenantManager.del_tenant t).
Proof.
  unfold MultitenantManager.del_tenant.
  eapply hoare_bind; [apply hoare_gets|]. intros present; cbv beta.
  destruct present.
  - apply hoare_modify. intros w (((Hs & Ht & Hc & Hn & Hcat) & HK & HKC) & _).
    split_invk.
    intros t' l' Hin. cbn in Hin. apply dict_In_del in Hin. apply (Hn _ _ Hin).
  - apply hoare_raise. tauto.
Qed.

Lemma InvK_set_tool tool_id reg :
  registration_ok reg ->
  preserves (InvK K KC)
    (modify (fun w => set_tools (Dict.set tool_id reg (tools w)) w)).
Proof.
  intros Hreg. apply hoare_modify. intros w ((Hs & Ht & Hc & Hn & Hcat) & HK & HKC).
  split_invk.
  unfold catalog_ok in *. cbn. apply Forall_forall. intros r Hr.
  unfold Dict.values in Hr. apply list_elem_of_In, in_map_iff in Hr as [[k r'] [<- Hin]].
  apply dict_In_set in Hin as [[-> ->]|Hin]; auto.
  rewrite Forall_forall in Hcat. apply Hcat. apply list_elem_of_In, in_map_iff.
  exists (k, r'). auto.
Qed.

Lemma InvK_del_tool tool_id :
  preserves (InvK K KC) (DynamicToolRouter.del_tool tool_id).
Proof.
  unfold DynamicToolRouter.del_tool.
  eapply hoare_bind; [apply hoare_gets|]. intros present; cbv beta.
  destruct present.
  - apply hoare_modify. intros w (((Hs & Ht & Hc & Hn & Hcat) & HK & HKC) & _).
    split_invk.
    unfold catalog_ok in *. cbn. apply Forall_forall. intros r Hr.
    unfold Dict.values in Hr. apply list_elem_of_In, in_map_iff in Hr as [[k r'] [<- Hin]].
    apply dict_In_del in Hin.
    rewrite Forall_forall in Hcat. apply Hcat. apply list_elem_of_In, in_map_iff.
    exists (k, r'). auto.
  - apply hoare_raise. tauto.
Qed.

Lemma InvK_clear_all_tools :
  preserves (InvK K KC) (modify (set_tools Dict.empty)).
Proof.
  apply hoare_modify. intros w ((Hs & Ht & Hc & Hn & Hcat) & HK & HKC).
  split_invk.
  constructor.
Qed.

Lemma InvK_frame f :
  (forall w, servers_store (f w) = servers_store w) ->
  (forall w, managed_servers (f w) = managed_servers w) ->
  (forall w, contexts_store (f w) = contexts_store w) ->
  (forall w, tenants (f w) = tenants w) ->
  (forall w, tools (f w) = tools w) ->
  preserves (InvK K KC) (modify f).
Proof.
  intros H1 H2 H3 H4 H5. apply hoare_modify.
  intros w ((Hs & Ht & Hc & Hn & Hcat) & HK & HKC).
  unfold InvK, Inv, store_ok, table_ok, contexts_ok, tenants_ok, catalog_ok, has_id, ctx_of in *.
  rewrite H1, H2, H3, H4, H5. auto 10.
Qed.

Lemma InvK_new_client : preserves (InvK K KC) new_client.
Proof. intros env w HI. exact HI. Qed.

End Primitives.

(** * Setters *)

Lemma setter_ok_id : server_setter_ok (fun m => m).
Proof. intros m; auto. Qed.

Lemma setter_ok_starting_to_running now c :
  server_setter_ok (fun m =>
    ManagedServer.set_last_error None
      (ManagedServer.set_started_at (Some now)
         (ManagedServer.set_client (Some c)
            (ManagedServer.set_state RUNNING m)))).
Proof. intros m; split; [|reflexivity]. intros [_ H]; split; cbn; [discriminate|exact H]. Qed.

Lemma setter_ok_crashed err :
  server_setter_ok (fun m =>
    ManagedServer.set_last_error err (ManagedServer.set_state CRASHED m)).
Proof. intros m; split; [|reflexivity]. intros [_ H]; split; cbn; [discriminate|exact H]. Qed.

Lemma setter_ok_stopping : server_setter_ok (ManagedServer.set_state STOPPING).
Proof. intros m; split; [|reflexivity]. intros [_ H]; split; cbn; [discriminate|exact H]. Qed.

Lemma setter_ok_stopped :
  server_setter_ok (fun m =>
    ManagedServer.set_started_at None (ManagedServer.set_state STOPPED m)).
Proof. intros m; split; [|reflexivity]. intros [_ H]; split; cbn; [discriminate|exact H]. Qed.

Lemma setter_ok_compose f g :
  server_setter_ok f -> server_setter_ok g -> server_setter_ok (fun m => g (f m)).
Proof.
  intros Hf Hg m. destruct (Hf m) as [H1 H2], (Hg (f m)) as [H3 H4]. split; auto. congruence.
Qed.

Lemma record_ok_new sid t cfg : record_ok (ManagedServer.new sid t cfg STARTING).
Proof. split; cbn; [discriminate|reflexivity]. Qed.

(** * Known objects *)


Lemma InvK_also_id K KC l sid w :
  InvK (also K l sid) KC w <-> InvK K KC w /\ has_id w l sid.
Proof.
  unfold InvK, also. split.
  - intros (HI & HK & HKC). split; [split; [exact HI|split; [|exact HKC]]|].
    + intros l' s' Hk. apply HK. left; exact Hk.
    + apply HK. right; auto.
  - intros ((HI & HK & HKC) & H). split; [exact HI|split; [|exact HKC]].
    intros l' s' [Hk|[-> ->]]; auto.
Qed.

Lemma InvK_also_ctx K KC l t w :
  InvK K (also KC l t) w <-> InvK K KC w /\ ctx_of w l t.
Proof.
  unfold InvK, also. split.
  - intros (HI & HK & HKC). split; [split; [exact HI|split; [exact HK|]]|].
    + intros l' s' Hk. apply HKC. left; exact Hk.
    + apply HKC. right; auto.
  - intros ((HI & HK & HKC) & H). split; [exact HI|split; [exact HK|]].
    intros l' s' [Hk|[-> ->]]; auto.
Qed.


(** What holds of every set of known objects holds along with any fact
    that extensions keep. *)
Lemma hoare_extends {A} (m : M A) (Q : A -> World -> Prop) K KC (F : World -> Prop) :
  (forall K' KC', hoare (InvK K' KC') m (fun a w => InvK K' KC' w /\ Q a w) (InvK K' KC')) ->
  (forall w w', extends w w' -> F w -> F w') ->
  hoare (fun w => InvK K KC w /\ F w) m
        (fun a w => (InvK K KC w /\ F w) /\ Q a w)
        (fun w => InvK K KC w /\ F w).
Proof.
  intros Hm HF env w [HI HFw].
  set (K' := fun l s => K l s \/ has_id w l s).
  set (KC' := fun l t => KC l t \/ ctx_of w l t).
  assert (HI' : InvK K' KC' w).
  { destruct HI as (HI & HK & HKC). split; [exact HI|]. split.
    - intros l s [Hk|Hk]; auto.
    - intros l s [Hk|Hk]; auto. }
  specialize (Hm K' KC' env w HI').
  assert (Hback : forall w', InvK K' KC' w' -> InvK K KC w' /\ F w').
  { intros w' (HI2 & HK2 & HKC2). split.
    - split; [exact HI2|]. split; intros l s Hk; [apply HK2|apply HKC2]; left; exact Hk.
    - apply (HF w); auto. split; intros l s Hk; [apply HK2|apply HKC2]; right; exact Hk. }
  destruct (res (m env w)); auto.
  destruct Hm as [Hm HQ]. split; auto.
Qed.

Lemma preserves_extends {A} (m : M A) K KC (F : World -> Prop) :
  (forall K' KC', preserves (InvK K' KC') m) ->
  (forall w w', extends w w' -> F w -> F w') ->
  preserves (fun w => InvK K KC w /\ F w) m.
Proof.
  intros Hm HF.
  eapply hoare_conseq.
  - apply (hoare_extends m (fun _ _ => True) K KC F).
    + intros K' KC'. eapply hoare_conseq; [apply Hm| | |].
      * intros w H; exact H.
      * intros a w H; split; [exact H|exact I].
      * intros w H; exact H.
    + exact HF.
  - auto.
  - cbn. tauto.
  - auto.
Qed.

(** * orchestrator.py *)

Ltac ro := apply readonly_hoare_weak; [ readonly_tac | try (intros ? ?; tauto) ].

Create HintDb setters.
#[global] Hint Resolve setter_ok_id setter_ok_starting_to_running
  setter_ok_crashed setter_ok_stopping setter_ok_stopped : setters.

Create HintDb invk.

(** One step of a proof that a program keeps [InvK]: a read-only part, a
    part known to keep it, or the structure of the program. *)
Ltac inv_step :=
  first
    [ progress cbv beta zeta
    | solve [ apply readonly_hoare_weak; [ readonly_tac | intros ? ?; assumption ] ]
    | solve [ apply InvK_update_server; auto with setters nocore ]
    | solve [ apply InvK_new_client ]
    | solve [ eauto 2 with invk nocore ]
    | eapply hoare_bind; [ | intros ?; cbv beta ]
    | match goal with
      | |- hoare _ (try_except _ _) _ ?E =>
          eapply hoare_try with (E' := E);
          [ | intros ? ? ?; cbv beta | intros ? ?; assumption ]
      end
    | apply hoare_for_each; intros ? ?
    | match goal with
      | H : Some _ = Some _ |- _ => injection H as <-
      | H : None = Some _ |- _ => discriminate H
      | H : (if ?b then _ else _) = Some _ |- _ => destruct b
      | |- hoare _ (match ?x with _ => _ end) _ _ => destruct x
      | |- hoare _ (let _ := _ in _) _ _ => cbv zeta
      end ].

Ltac inv_tac := repeat inv_step.

Lemma running_record_val sid env w l :
  res (Orchestrator.running_record sid env w) = Ret (Some l) ->
  Dict.get sid (managed_servers w) = Some l.
Proof.
  unfold Orchestrator.running_record, bind, gets, deref_server, ret; cbn.
  destruct (Dict.get sid (managed_servers w)) as [l'|]; cbn; [|discriminate].
  destruct (servers_store w !! l') as [m|]; cbn; [|discriminate].
  destruct (ManagedServer.is_running m); cbn; congruence.
Qed.


Lemma InvK_start_server_enter K KC sid :
  hoare (InvK K KC) (Orchestrator.start_server_enter sid)
    (fun r w => InvK K KC w /\ has_id w (entered_loc r) sid)
    (InvK K KC).
Proof.
  unfold Orchestrator.start_server_enter.
  eapply hoare_bind; [ro|]. intros parts; cbv zeta.
  eapply hoare_bind; [ro|]. intros [cfg|]; [|apply hoare_raise; auto].
  eapply hoare_bind.
  { apply (readonly_hoare_val _ _ (fun r w => forall l, r = Some l -> Dict.get sid (managed_servers w) = Some l)).
    - readonly_tac.
    - intros env w a Ha l ->. eapply running_record_val; eauto. }
  intros [existing|]; cbv beta.
  - eapply hoare_bind; [ro|]. intros ?. apply hoare_ret.
    intros w [HI Hl]. split; auto. cbn.
    destruct HI as ((_ & Ht & _) & _). apply Ht. apply dict_get_In. auto.
  - eapply hoare_pre with (P := InvK K KC); [|tauto].
    eapply hoare_bind; [ro|]. intros ?.
    eapply hoare_bind; [apply InvK_new_server, record_ok_new|]. intros managed; cbv beta.
    assert (Hback : forall w, InvK (also K managed sid) KC w -> InvK K KC w).
    { intros w H. apply InvK_also_id in H. tauto. }
    eapply hoare_bind.
    { eapply hoare_weaken_E; [|exact Hback].
      eapply hoare_pre; [apply (InvK_set_managed (also K managed sid) KC sid managed)|].
      intros w [HI Hm]. split.
      - apply InvK_also_id. split; auto. eexists; split; eauto.
      - eexists; split; eauto. }
    intros ?.
    eapply hoare_bind.
    { eapply hoare_weaken_E; [|exact Hback]. apply readonly_hoare. readonly_tac. }
    intros ?.
    eapply hoare_bind.
    { eapply hoare_weaken_E; [|exact Hback]. apply InvK_new_client. }
    intros client. apply hoare_ret. intros w H. apply InvK_also_id in H. exact H.
Qed.

Lemma InvK_start_server_resume K KC sid managed client awaited :
  readonly awaited ->
  hoare (InvK K KC)
    (Orchestrator.start_server_resume sid managed client awaited)
    (fun l w => InvK K KC w /\ l = managed)
    (InvK K KC).
Proof.
  intros Hro. unfold Orchestrator.start_server_resume.
  eapply hoare_try with (E' := InvK K KC).
  - eapply hoare_bind; [apply readonly_hoare; exact Hro|]. intros ?.
    eapply hoare_bind; [ro|]. intros env.
    eapply hoare_bind; [inv_step|]. intros ?.
    eapply hoare_bind; [ro|]. intros ?.
    eapply hoare_bind; [ro|]. intros ?.
    apply hoare_ret. auto.
  - intros e k Hk. destruct (_ || _); [|discriminate]. injection Hk as <-.
    eapply hoare_bind; [inv_step|]. intros ?.
    eapply hoare_bind; [ro|]. intros ?.
    eapply hoare_bind; [ro|]. intros ?.
    apply hoare_raise. auto.
  - auto.
Qed.

Lemma InvK_start_server K KC sid :
  hoare (InvK K KC) (Orchestrator.start_server sid)
    (fun l w => InvK K KC w /\ has_id w l sid)
    (InvK K KC).
Proof.
  unfold Orchestrator.start_server.
  eapply hoare_bind; [apply InvK_start_server_enter|].
  intros [existing|[managed client]]; cbn [entered_loc].
  - apply hoare_ret. auto.
  - eapply hoare_conseq;
      [apply (InvK_start_server_resume (also K managed sid) KC sid managed client)| | |].
    + readonly_tac.
    + intros w H. apply InvK_also_id. exact H.
    + intros l w [H ->]. apply InvK_also_id in H. exact H.
    + intros w H. apply InvK_also_id in H. tauto.
Qed.

Lemma preserves_start_server K KC sid :
  preserves (InvK K KC) (Orchestrator.start_server sid).
Proof.
  eapply hoare_conseq;
    [apply InvK_start_server|intros ? H; exact H|intros ? ? [H _]; exact H|intros ? H; exact H].
Qed.
#[global] Hint Resolve preserves_start_server : invk.

Lemma InvK_start_tenant_servers K KC t :
  hoare (InvK K KC) (Orchestrator.start_tenant_servers t)
    (fun started w =>
       InvK K KC w
       /\ Forall (fun l => exists n, has_id w l (t ++ ":" ++ n)) started)
    (InvK K KC).
Proof.
  unfold Orchestrator.start_tenant_servers.
  eapply hoare_bind; [ro|]. intros [tenant|]; [|apply hoare_raise; auto].
  eapply hoare_bind; [ro|]. intros ?.
  eapply hoare_bind.
  { eapply hoare_pre with
      (P := fun w => InvK K KC w
                /\ Forall (fun l => exists n, has_id w l (t ++ ":" ++ n)) []);
      [|intros w H; split; [exact H|constructor]].
    apply (hoare_for_fold
             (fun acc w => InvK K KC w
                /\ Forall (fun l => exists n, has_id w l (t ++ ":" ++ n)) acc)).
    intros acc cfg _. cbv zeta.
    eapply hoare_try with
      (E' := fun w => InvK K KC w
                /\ Forall (fun l => exists n, has_id w l (t ++ ":" ++ n)) acc).
    - eapply hoare_bind.
      + apply (hoare_extends _
                 (fun l w => has_id w l
                    (Orchestrator._generate_server_id t (ServerConfig.name cfg)))
                 K KC
                 (fun w => Forall (fun l => exists n, has_id w l (t ++ ":" ++ n)) acc)).
        * intros K' KC'. apply InvK_start_server.
        * intros w w' [Hext _] HF. eapply Forall_impl; [exact HF|].
          intros l [n Hn]. exists n. auto.
      + intros managed. apply hoare_ret. intros w [[HI HF] Hid].
        split; auto. apply Forall_app. split; auto.
        constructor; [|constructor]. eexists. exact Hid.
    - intros e k [= <-].
      eapply hoare_bind; [ro|]. intros ?. apply hoare_ret. auto.
    - tauto. }
  intros started. cbv beta.
  eapply hoare_bind; [ro|]. intros ?. apply hoare_ret. auto.
Qed.

Lemma preserves_start_tenant_servers K KC t :
  preserves (InvK K KC) (Orchestrator.start_tenant_servers t).
Proof.
  eapply hoare_conseq;
    [apply InvK_start_tenant_servers|intros ? H; exact H
    |intros ? ? [H _]; exact H|intros ? H; exact H].
Qed.
#[global] Hint Resolve preserves_start_tenant_servers : invk.

Lemma preserves_stop_server_enter K KC sid :
  preserves (InvK K KC) (Orchestrator.stop_server_enter sid).
Proof. unfold Orchestrator.stop_server_enter. inv_tac. Qed.
#[global] Hint Resolve preserves_stop_server_enter : invk.


Lemma InvK_clear_client K KC l :
  hoare (InvK K KC) (update_server l (ManagedServer.set_client None))
    (fun _ => client_cleared K KC l) (InvK K KC).
Proof.
  intros env w HI. unfold update_server.
  destruct (servers_store w !! l) as [m|] eqn:El; cbn; [|exact HI].
  exists w, m. auto.
Qed.

Lemma InvK_after_clear_client K KC l f :
  server_setter_ok f ->
  (forall m, ManagedServer.state (f m) = STOPPED \/ ManagedServer.state (f m) = CRASHED) ->
  (forall m, ManagedServer.restart_count (f m) = ManagedServer.restart_count m) ->
  hoare (fun w => InvK K KC w \/ client_cleared K KC l w)
    (update_server l f) (fun _ => InvK K KC) (InvK K KC).
Proof.
  intros Hf Hst Hrc env w [HI|(w0 & m & HI & El & ->)].
  - exact (InvK_update_server K KC l f Hf env w HI).
  - assert (Hok : server_setter_ok (fun m => f (ManagedServer.set_client None m))).
    { intros m'. destruct (Hf (ManagedServer.set_client None m')) as [_ Hid]. split.
      - intros [_ Hrc0]. split.
        + intros Hrun. destruct (Hst (ManagedServer.set_client None m')); congruence.
        + rewrite Hrc. exact Hrc0.
      - rewrite Hid. reflexivity. }
    pose proof (InvK_update_server K KC l _ Hok env w0 HI) as H.
    unfold update_server in *. cbn.
    rewrite list_lookup_insert_eq by (eapply lookup_lt_Some; eauto).
    rewrite El in H. cbn in *. rewrite list_insert_insert_eq. exact H.
Qed.

Lemma preserves_stop_server_resume K KC sid managed client awaited :
  readonly awaited ->
  preserves (InvK K KC)
    (Orchestrator.stop_server_resume sid managed client awaited).
Proof.
  intros Hro. unfold Orchestrator.stop_server_resume.
  set (Mid := fun w => InvK K KC w \/ client_cleared K KC managed w).
  assert (Hleft : forall w, InvK K KC w -> Mid w) by (intros w H; left; exact H).
  eapply hoare_try with (E' := InvK K KC).
  - eapply hoare_bind with (Q1 := fun _ => Mid).
    + destruct client as [c|].
      * eapply hoare_bind with (Q1 := fun _ => InvK K KC).
        -- apply readonly_hoare; exact Hro.
        -- intros ?.
           eapply hoare_conseq;
             [apply InvK_clear_client|intros ? H; exact H
             |intros ? ? H; right; exact H|intros ? H; exact H].
      * apply hoare_ret. exact Hleft.
    + intros ?.
      eapply hoare_bind with (Q1 := fun _ => InvK K KC).
      * apply InvK_after_clear_client; [apply setter_ok_stopped| |];
          intros m; cbn; auto.
      * intros ?. inv_tac.
  - intros e k [= <-]. inv_tac.
  - intros w H; exact H.
Qed.
#[global] Hint Resolve preserves_stop_server_resume : invk.

Lemma preserves_stop_server K KC sid :
  preserves (InvK K KC) (Orchestrator.stop_server sid).
Proof.
  unfold Orchestrator.stop_server.
  eapply hoare_bind; [apply preserves_stop_server_enter|].
  intros [[managed client]|]; [|inv_tac].
  apply preserves_stop_server_resume. destruct client; readonly_tac.
Qed.
#[global] Hint Resolve preserves_stop_server : invk.

Lemma preserves_stop_tenant_servers K KC t :
  preserves (InvK K KC) (Orchestrator.stop_tenant_servers t).
Proof.
  unfold Orchestrator.stop_tenant_servers.
  eapply hoare_bind; [ro|]. intros ?.
  eapply hoare_bind; [ro|]. intros items.
  eapply hoare_bind; [ro|]. intros ids.
  inv_tac.
Qed.
#[global] Hint Resolve preserves_stop_tenant_servers : invk.

Lemma preserves_stop_all K KC :
  preserves (InvK K KC) Orchestrator.stop_all.
Proof. unfold Orchestrator.stop_all. inv_tac. Qed.
#[global] Hint Resolve preserves_stop_all : invk.

Lemma preserves_handle_server_failure K KC sid err :
  preserves (InvK K KC) (Orchestrator._handle_server_failure sid err).
Proof. unfold Orchestrator._handle_server_failure. inv_tac. Qed.
#[global] Hint Resolve preserves_handle_server_failure : invk.

Lemma preserves_check_servers K KC :
  preserves (InvK K KC) Orchestrator._check_servers.
Proof. unfold Orchestrator._check_servers. inv_tac. Qed.
#[global] Hint Resolve preserves_check_servers : invk.

Lemma preserves_add_observer K KC o :
  preserves (InvK K KC) (Orchestrator.add_observer o).
Proof.
  unfold Orchestrator.add_observer.
  eapply hoare_bind; [apply InvK_frame; reflexivity|]. intros ?. inv_tac.
Qed.
#[global] Hint Resolve preserves_add_observer : invk.

(** * router.py *)

Lemma generate_prefixed_name_val sid n env w p :
  res (DynamicToolRouter._generate_prefixed_name sid n env w) = Ret p ->
  exists s, short_name sid = Some s /\ p = s ++ "." ++ n.
Proof.
  unfold DynamicToolRouter._generate_prefixed_name, Orchestrator._parse_server_id,
    short_name, bind, ret, raise.
  destruct (split_once ":" sid) as [[t s]|]; cbn; [|discriminate].
  intros [= <-]. eauto.
Qed.

Lemma preserves_discover_tools K KC sid :
  preserves (InvK K KC) (DynamicToolRouter.discover_tools sid).
Proof.
  unfold DynamicToolRouter.discover_tools.
  eapply hoare_bind; [ro|]. intros ?.
  eapply hoare_bind; [ro|]. intros [client|]; [|inv_tac].
  eapply hoare_bind; [ro|]. intros env.
  destruct (negb _); [inv_tac|].
  eapply hoare_try with (E' := InvK K KC); [|intros e k [= <-]; inv_tac|intros ? ?; assumption].
  eapply hoare_bind; [ro|]. intros listed.
  eapply hoare_bind; [|intros ?; inv_tac].
  apply (hoare_for_fold (fun _ => InvK K KC)).
  intros acc tool _. cbv zeta.
  eapply hoare_bind.
  { apply (readonly_hoare_val _ _
      (fun p _ => exists s, short_name sid = Some s /\ p = s ++ "." ++ ToolInfo.name tool)).
    - readonly_tac.
    - intros env' w p Hp. eapply generate_prefixed_name_val; eauto. }
  intros p. cbv beta. apply hoare_pure. intros (s & Hs & ->).
  eapply hoare_bind.
  { apply InvK_set_tool. exists s. split; [exact Hs|reflexivity]. }
  intros ?. inv_tac.
Qed.
#[global] Hint Resolve preserves_discover_tools : invk.

Lemma preserves_del_tool K KC tool_id :
  preserves (InvK K KC) (DynamicToolRouter.del_tool tool_id).
Proof. apply InvK_del_tool. Qed.
#[global] Hint Resolve preserves_del_tool : invk.

Lemma preserves_clear_tools K KC sid :
  preserves (InvK K KC) (DynamicToolRouter.clear_tools sid).
Proof.
  unfold DynamicToolRouter.clear_tools.
  destruct sid as [[|c s]|].
  - eapply hoare_bind; [apply InvK_clear_all_tools|]. intros ?. inv_tac.
  - inv_tac.
  - eapply hoare_bind; [apply InvK_clear_all_tools|]. intros ?. inv_tac.
Qed.
#[global] Hint Resolve preserves_clear_tools : invk.

Lemma preserves_refresh_tools K KC sid :
  preserves (InvK K KC) (DynamicToolRouter.refresh_tools sid).
Proof. unfold DynamicToolRouter.refresh_tools. inv_tac. Qed.
#[global] Hint Resolve preserves_refresh_tools : invk.

(** * multitenant.py *)

Lemma context_setter_ok_activity now :
  context_setter_ok (TenantContext.set_last_activity now).
Proof. intros c; split; [|reflexivity]. intros H; exact H. Qed.

Lemma context_setter_ok_tools names :
  context_setter_ok (TenantContext.set_tools names).
Proof. intros c; split; [|reflexivity]. intros H; exact H. Qed.

Lemma context_setter_ok_clear :
  context_setter_ok (TenantContext.set_servers Dict.empty).
Proof. intros c; split; [|reflexivity]. intros _ sid l []. Qed.

#[global] Hint Resolve context_setter_ok_activity context_setter_ok_tools
  context_setter_ok_clear : setters.

Ltac inv_step' :=
  first
    [ inv_step
    | solve [ apply InvK_update_context; auto with setters nocore ] ].

Ltac inv_tac' := repeat inv_step'.

Lemma preserves_update_activity K KC l :
  preserves (InvK K KC) (TenantContextMethods.update_activity l).
Proof. unfold TenantContextMethods.update_activity. inv_tac'. Qed.
#[global] Hint Resolve preserves_update_activity : invk.

Lemma preserves_set_quota K KC t q n :
  preserves (InvK K KC) (MultitenantManager.set_quota t q n).
Proof.
  unfold MultitenantManager.set_quota.
  eapply hoare_bind; [apply InvK_frame; reflexivity|]. intros ?. inv_tac.
Qed.
#[global] Hint Resolve preserves_set_quota : invk.

Lemma InvK_get_or_create_tenant K KC t :
  hoare (InvK K KC) (MultitenantManager.get_or_create_tenant t)
    (fun l w => InvK K KC w /\ ctx_of w l t)
    (InvK K KC).
Proof.
  unfold MultitenantManager.get_or_create_tenant.
  eapply hoare_bind; [apply hoare_gets|]. intros [context|]; cbv beta.
  - eapply hoare_pre with (P := InvK K (also KC context t)).
    + eapply hoare_bind.
      * eapply hoare_weaken_E; [apply preserves_update_activity|].
        intros w H. apply InvK_also_ctx in H. tauto.
      * intros ?. apply hoare_ret. intros w H. apply InvK_also_ctx in H. exact H.
    + intros w [HI Hget]. apply InvK_also_ctx. split; [exact HI|].
      destruct HI as ((_ & _ & _ & Hn & _) & _). apply Hn. apply dict_get_In. auto.
  - eapply hoare_pre with (P := InvK K KC); [|tauto].
    eapply hoare_bind; [ro|]. intros [config|]; [|inv_tac].
    eapply hoare_bind; [ro|]. intros env.
    eapply hoare_bind.
    { apply InvK_new_context. intros sid l []. }
    intros context. cbv beta.
    assert (Hback : forall w, InvK K (also KC context t) w -> InvK K KC w).
    { intros w H. apply InvK_also_ctx in H. tauto. }
    eapply hoare_bind.
    { eapply hoare_weaken_E; [|exact Hback].
      eapply hoare_pre; [apply (InvK_set_tenant K (also KC context t) t context)|].
      intros w [HI Hc].
      assert (ctx_of w context t) by (eexists; split; eauto).
      split; auto. apply InvK_also_ctx. split; auto. }
    intros ?.
    eapply hoare_bind.
    { eapply hoare_weaken_E; [|exact Hback]. apply readonly_hoare. readonly_tac. }
    intros ?. apply hoare_ret. intros w H. apply InvK_also_ctx in H. exact H.
Qed.

Lemma preserves_get_or_create_tenant K KC t :
  preserves (InvK K KC) (MultitenantManager.get_or_create_tenant t).
Proof.
  eapply hoare_conseq;
    [apply InvK_get_or_create_tenant|intros ? H; exact H
    |intros ? ? [H _]; exact H|intros ? H; exact H].
Qed.
#[global] Hint Resolve preserves_get_or_create_tenant : invk.

(** Filing a server of the tenant in the tenant's context. *)
Lemma InvK_track_server K KC context t sid server (F : World -> Prop) :
  (forall w cs, F w -> F (set_contexts_store cs w)) ->
  KC context t ->
  (exists n, sid = t ++ ":" ++ n) ->
  preserves (fun w => InvK K KC w /\ F w)
    (update_context context (fun c =>
       TenantContext.set_servers
         (Dict.set sid server (TenantContext.servers c)) c)).
Proof.
  intros HF Hk [n ->] env w [HI HFw]. unfold update_context.
  destruct (contexts_store w !! context) as [c|] eqn:El; cbn; [|split; assumption].
  split; [|apply HF; exact HFw].
  destruct HI as ((Hs & Ht & Hc & Hn & Hcat) & HK & HKC).
  destruct (HKC _ _ Hk) as (c' & Hc' & Htid).
  assert (c' = c) by congruence. subst c'.
  split_invk.
  - unfold contexts_ok in *; cbn. apply Forall_insert; auto.
    intros k l Hin. cbn in Hin. apply dict_In_set in Hin as [[-> ->]|Hin].
    + cbn. exists n. congruence.
    + cbn. eapply Forall_lookup_1 in Hc; eauto.
  - intros t' l' Hin. apply ctx_of_update; auto.
  - intros l' t' Hk'. apply ctx_of_update; auto.
Qed.

Lemma preserves_mt_start_tenant_servers K KC t :
  preserves (InvK K KC) (MultitenantManager.start_tenant_servers t).
Proof.
  unfold MultitenantManager.start_tenant_servers.
  eapply hoare_bind; [ro|]. intros ?.
  eapply hoare_bind; [apply InvK_get_or_create_tenant|]. intros context. cbv beta.
  set (KC' := also KC context t).
  assert (Hback : forall w, InvK K KC' w -> InvK K KC w).
  { intros w H. apply InvK_also_ctx in H. tauto. }
  eapply hoare_conseq with (P := InvK K KC') (Q := fun _ => InvK K KC') (E := InvK K KC');
    [|intros w H; apply InvK_also_ctx; exact H|intros ? w H; apply Hback, H|exact Hback].
  eapply hoare_bind; [ro|]. intros ?.
  eapply hoare_bind; [apply InvK_start_tenant_servers|]. intros started. cbv beta.
  set (F := fun w => Forall (fun l => exists n, has_id w l (t ++ ":" ++ n)) started).
  assert (HFext : forall w w', extends w w' -> F w -> F w').
  { intros w w' [Hext _] HF. eapply Forall_impl; [exact HF|].
    intros l [n Hn]. exists n. auto. }
  assert (HFctx : forall w cs, F w -> F (set_contexts_store cs w)).
  { intros w cs HF. exact HF. }
  eapply hoare_conseq with (P := fun w => InvK K KC' w /\ F w)
    (Q := fun _ w => InvK K KC' w /\ F w) (E := fun w => InvK K KC' w /\ F w);
    [|intros w H; exact H|intros ? w [H _]; exact H|intros w [H _]; exact H].
  eapply hoare_bind.
  { apply hoare_for_each. intros server Hin.
    eapply hoare_bind.
    { apply (readonly_hoare_val _ _
        (fun m w => servers_store w !! server = Some m)).
      - readonly_tac.
      - intros env w m. unfold deref_server.
        destruct (servers_store w !! server); cbn; congruence. }
    intros m. cbv beta.
    intros env w [[HI HF] Hm].
    assert (Hid : exists n, ManagedServer.server_id m = t ++ ":" ++ n).
    { unfold F in HF. rewrite Forall_forall in HF.
      destruct (HF server) as (n & m' & Hm' & Hn); [apply list_elem_of_In; exact Hin|].
      exists n. congruence. }
    apply (InvK_track_server K KC' context t _ server F HFctx); auto.
    right. auto. }
  intros ?.
  eapply hoare_bind.
  { apply hoare_for_each. intros server Hin.
    eapply hoare_bind; [ro|]. intros m.
    eapply hoare_try with (E' := fun w => InvK K KC' w /\ F w);
      [|intros e k [= <-]; ro|intros ? ?; assumption].
    eapply hoare_bind; [|intros ?; ro].
    apply preserves_extends; [|exact HFext].
    intros K' KC''. apply preserves_discover_tools. }
  intros ?.
  eapply hoare_bind; [ro|]. intros names.
  eapply hoare_bind.
  { apply preserves_extends; [|exact HFext].
    intros K' KC''. apply InvK_update_context. auto with setters. }
  intros ?.
  eapply hoare_bind.
  { apply preserves_extends; [|exact HFext].
    intros K' KC''. apply preserves_update_activity. }
  intros ?.
  eapply hoare_bind; [ro|]. intros ?. ro.
Qed.
#[global] Hint Resolve preserves_mt_start_tenant_servers : invk.

Lemma preserves_mt_stop_tenant_servers K KC t :
  preserves (InvK K KC) (MultitenantManager.stop_tenant_servers t).
Proof. unfold MultitenantManager.stop_tenant_servers. inv_tac'. Qed.
#[global] Hint Resolve preserves_mt_stop_tenant_servers : invk.

Lemma hoare_for_items_live {V B} (I : World -> Prop) (d : World -> Dict.t V)
  size rest (acc : B) body E :
  (forall acc item, hoare I (body acc item) (fun _ => I) E) ->
  (forall w, I w -> E w) ->
  hoare I (for_items_live d size rest acc body) (fun _ => I) E.
Proof.
  intros Hbody HE. revert acc. induction rest as [|item rest IH]; intros acc; cbn.
  - eapply hoare_bind; [apply readonly_hoare_weak; [readonly_tac|exact HE]|].
    intros current. destruct (negb _).
    + apply hoare_raise. exact HE.
    + apply hoare_ret. auto.
  - eapply hoare_bind; [apply readonly_hoare_weak; [readonly_tac|exact HE]|].
    intros current. destruct (negb _).
    + apply hoare_raise. exact HE.
    + eapply hoare_bind; [apply Hbody|]. intros acc'. apply IH.
Qed.

Lemma preserves_del_tenant K KC t :
  preserves (InvK K KC) (MultitenantManager.del_tenant t).
Proof. apply InvK_del_tenant. Qed.
#[global] Hint Resolve preserves_del_tenant : invk.

Lemma preserves_cleanup_inactive_tenants K KC n :
  preserves (InvK K KC) (MultitenantManager.cleanup_inactive_tenants n).
Proof.
  unfold MultitenantManager.cleanup_inactive_tenants, for_items.
  eapply hoare_bind; [ro|]. intros env. cbv zeta.
  eapply hoare_bind; [ro|]. intros items.
  apply hoare_for_items_live; [|auto].
  intros acc item. inv_tac'.
Qed.
#[global] Hint Resolve preserves_cleanup_inactive_tenants : invk.

Lemma preserves_reload K KC r : preserves (InvK K KC) (reload r).
Proof. apply InvK_frame; reflexivity. Qed.
#[global] Hint Resolve preserves_reload : invk.

Lemma preserves_exec K KC op : preserves (InvK K KC) (exec op).
Proof. destruct op; cbn [exec]; unfold ignore; inv_tac. Qed.

Lemma preserves_run {A} (I : World -> Prop) (m : M A) env w :
  preserves I m -> I w -> I (st (m env w)).
Proof.
  intros H Hw. specialize (H env w Hw). destruct (res (m env w)); exact H.
Qed.

Lemma Inv_InvK w : Inv w <-> InvK nothing_known nothing_known w.
Proof.
  unfold InvK, nothing_known. split; [|tauto].
  intros H; split; [exact H|split; intros ? ? []].
Qed.

Lemma Inv_initial r : Inv (initial_world r).
Proof.
  unfold Inv, initial_world, store_ok, table_ok, contexts_ok, tenants_ok, catalog_ok; cbn.
  repeat split; try constructor; intros ? ? [].
Qed.

Theorem Inv_reachable w ts : reachable w ts -> Inv w.
Proof.
  induction 1 as [r|w ts env op _ IH|w ts env sid managed client _ IH Hres
                 |w ts1 ts2 env sid managed client _ IH
                 |w ts env sid managed client _ IH Hres
                 |w ts1 ts2 env sid managed client _ IH];
    [apply Inv_initial|apply Inv_InvK; apply Inv_InvK in IH..].
  - apply preserves_run; [apply preserves_exec|exact IH].
  - pose proof (InvK_start_server_enter _ _ sid env w IH) as H.
    rewrite Hres in H. tauto.
  - pose proof (InvK_start_server_resume _ _ sid managed client _
                  (readonly_connect_and_initialize client) env w IH) as H.
    destruct (res _); tauto.
  - apply preserves_run; [apply preserves_stop_server_enter|exact IH].
  - apply preserves_run; [|exact IH].
    apply preserves_stop_server_resume. readonly_tac.
Qed.


Lemma is_running_true m :
  ManagedServer.is_running m = true <-> ManagedServer.state m = RUNNING.
Proof.
  unfold ManagedServer.is_running. destruct (ManagedServer.state m); cbn; intuition congruence.
Qed.

Lemma managed_record_valid w sid l :
  Inv w -> Dict.get sid (managed_servers w) = Some l ->
  exists m, servers_store w !! l = Some m /\ managed_record w sid = Some m
            /\ record_ok m /\ ManagedServer.server_id m = sid.
Proof.
  intros (Hs & Ht & _) Hget.
  destruct (Ht sid l (dict_get_In _ _ _ Hget)) as (m & Hm & Hid).
  exists m. unfold managed_record. rewrite Hget. repeat split; auto.
  - eapply Forall_lookup_1 in Hs; eauto. apply Hs.
  - eapply Forall_lookup_1 in Hs; eauto. apply Hs.
Qed.

(** C2.  In every reachable state, whatever coroutines are suspended in
    [start_server] or [stop_server], [get_server_client] returns a client
    handle if and only if the worker's record is in state [RUNNING]: for a
    running worker it returns the client of its record, and for any other
    worker (unmanaged, stopped, starting, stopping or crashed) it returns
    [None]; it changes nothing. *)
Theorem C2_live_handle_iff_running w ts env server_id :
  reachable w ts ->
  ((exists c, res (Orchestrator.get_server_client server_id env w) = Ret (Some c))
   <-> worker_state w server_id = Some RUNNING)
  /\ (worker_state w server_id = Some RUNNING ->
      exists m c,
        managed_record w server_id = Some m
        /\ ManagedServer.client m = Some c
        /\ Orchestrator.get_server_client server_id env w = mkOut (Ret (Some c)) w [])
  /\ (worker_state w server_id <> Some RUNNING ->
      Orchestrator.get_server_client server_id env w = mkOut (Ret None) w []).
Proof.
  intros Hreach. apply Inv_reachable in Hreach.
  unfold worker_state, Orchestrator.get_server_client, bind, gets, deref_server, ret.
  destruct (Dict.get server_id (managed_servers w)) as [l|] eqn:Hget.
  - destruct (managed_record_valid _ _ _ Hreach Hget) as (m & Hm & Hrec & [Hrun _] & _).
    rewrite Hrec, Hm. cbn.
    destruct (ManagedServer.is_running m) eqn:Er.
    + apply is_running_true in Er.
      destruct (ManagedServer.client m) as [c|] eqn:Ec; [|tauto].
      cbn. split; [|split].
      * split; [intros _; congruence|eauto].
      * intros _. exists m, c. auto.
      * congruence.
    + assert (ManagedServer.state m <> RUNNING).
      { intros H. apply is_running_true in H. congruence. }
      cbn. split; [|split].
      * split; [intros [c [=]]|congruence].
      * congruence.
      * reflexivity.
  - unfold managed_record. rewrite Hget. cbn. split; [|split].
    + split; [intros [c [=]]|discriminate].
    + discriminate.
    + reflexivity.
Qed.

(** C10.  In every reachable state the record of every managed worker has
    restart counter 0, and the status snapshot of that worker reports
    [restart_count] 0: no operation assigns the counter, and every record
    is constructed with 0. *)
Theorem C10_restart_count_zero w ts env server_id m :
  reachable w ts ->
  managed_record w server_id = Some m ->
  ManagedServer.restart_count m = 0
  /\ exists s,
       Orchestrator.get_server_status server_id env w = mkOut (Ret (Some s)) w []
       /\ Orchestrator.status_restart_count s = 0.
Proof.
  intros Hreach Hrec. apply Inv_reachable in Hreach.
  unfold managed_record in Hrec.
  destruct (Dict.get server_id (managed_servers w)) as [l|] eqn:Hget; [|discriminate].
  destruct (managed_record_valid _ _ _ Hreach Hget) as (m' & Hm & _ & [_ Hrc] & _).
  assert (m' = m) by congruence. subst m'.
  split; [exact Hrc|].
  unfold Orchestrator.get_server_status, bind, gets, deref_server, ret.
  rewrite Hget, Hm. cbn. eexists. split; [reflexivity|]. exact Hrc.
Qed.

(** Every record ever constructed, managed or replaced, has counted no
    restart. *)
Lemma restart_count_zero_everywhere w ts l m :
  reachable w ts -> servers_store w !! l = Some m ->
  ManagedServer.restart_count m = 0.
Proof.
  intros Hreach Hm. apply Inv_reachable in Hreach. destruct Hreach as (Hs & _).
  eapply Forall_lookup_1 in Hs; eauto. apply Hs.
Qed.

Lemma colon_prefix_inj t1 n1 t2 n2 :
  free_of ":" t1 = true -> free_of ":" t2 = true ->
  t1 ++ ":" ++ n1 = t2 ++ ":" ++ n2 -> t1 = t2.
Proof.
  revert t2. induction t1 as [|c t1 IH]; intros [|c2 t2]; cbn; intros H1 H2 Heq.
  - reflexivity.
  - injection Heq as <- _. cbn in H2. discriminate.
  - injection Heq as -> _. cbn in H1. discriminate.
  - injection Heq as <- Heq.
    apply andb_prop in H1 as [_ H1]. apply andb_prop in H2 as [_ H2].
    f_equal. eauto.
Qed.

(** C9, amended.  In every reachable state the contexts of two distinct
    tenants are distinct objects, and, when neither tenant id contains a
    colon, no composite worker id is tracked by both.  (Their lists of
    dotted tool names may overlap: see [C9_counterexample].) *)
Theorem C9_tenant_isolation w ts t1 t2 l1 l2 :
  reachable w ts ->
  t1 <> t2 ->
  Dict.get t1 (tenants w) = Some l1 ->
  Dict.get t2 (tenants w) = Some l2 ->
  l1 <> l2
  /\ exists c1 c2,
       contexts_store w !! l1 = Some c1
       /\ contexts_store w !! l2 = Some c2
       /\ (free_of ":" t1 = true -> free_of ":" t2 = true ->
           forall server_id,
             In server_id (Dict.keys (TenantContext.servers c1)) ->
             ~ In server_id (Dict.keys (TenantContext.servers c2))).
Proof.
  intros Hreach Hne H1 H2. apply Inv_reachable in Hreach.
  destruct Hreach as (_ & _ & Hc & Hn & _).
  destruct (Hn _ _ (dict_get_In _ _ _ H1)) as (c1 & Hc1 & Ht1).
  destruct (Hn _ _ (dict_get_In _ _ _ H2)) as (c2 & Hc2 & Ht2).
  split.
  - intros ->. congruence.
  - exists c1, c2. split; [exact Hc1|]. split; [exact Hc2|].
    intros Hf1 Hf2 sid Hin1 Hin2.
    unfold Dict.keys in *. apply in_map_iff in Hin1 as [[k1 v1] [<- Hin1]].
    apply in_map_iff in Hin2 as [[k2 v2] [Hk Hin2]]. cbn in *. subst k2.
    unfold contexts_ok in Hc.
    pose proof (Forall_lookup_1 _ _ _ _ Hc Hc1 _ _ Hin1) as [n1 Hn1].
    pose proof (Forall_lookup_1 _ _ _ _ Hc Hc2 _ _ Hin2) as [n2 Hn2].
    apply Hne. subst t1 t2.
    apply (colon_prefix_inj _ n1 _ n2 Hf1 Hf2). congruence.
Qed.


Lemma is_stopped_true m :
  ManagedServer.is_stopped m = true <->
  ManagedServer.state m = STOPPED \/ ManagedServer.state m = CRASHED.
Proof.
  unfold ManagedServer.is_stopped.
  destruct (ManagedServer.state m); cbn; intuition congruence.
Qed.

(** C7.  [stop_server] on a worker that is unmanaged, or whose record is
    [STOPPED] or [CRASHED], returns normally, leaves the whole state as it
    is, and does nothing but log one warning: no listener is notified and
    no client is called. *)
Theorem C7_stop_is_noop env w server_id :
  Dict.get server_id (managed_servers w) = None
  \/ (exists m, managed_record w server_id = Some m
        /\ (ManagedServer.state m = STOPPED \/ ManagedServer.state m = CRASHED)) ->
  exists msg,
    Orchestrator.stop_server server_id env w = mkOut (Ret tt) w [Log WARNING msg].
Proof.
  unfold managed_record, Orchestrator.stop_server, Orchestrator.stop_server_enter.
  intros [H | (m & H & Hs)].
  - eexists. unfold bind, gets, log, emit, ret. rewrite H. cbn. reflexivity.
  - destruct (Dict.get server_id (managed_servers w)) as [l|] eqn:E; [|discriminate].
    apply is_stopped_true in Hs.
    eexists. unfold bind, gets, deref_server, log, emit, ret.
    rewrite E, H, Hs. cbn. reflexivity.
Qed.

(** C6, amended.  For a worker id that the registry still resolves to a
    configuration and whose record is [RUNNING], [start_server] returns
    that very record, leaves the whole state as it is, and does nothing
    but log one warning: no connect, no initialize, no notification. *)
Theorem C6_start_running_is_noop env w server_id tenant_id server_name cfg l m :
  split_once ":" server_id = Some (tenant_id, server_name) ->
  Registry.get_server_config (registry w) tenant_id server_name = Some cfg ->
  Dict.get server_id (managed_servers w) = Some l ->
  servers_store w !! l = Some m ->
  ManagedServer.state m = RUNNING ->
  exists msg,
    Orchestrator.start_server server_id env w = mkOut (Ret l) w [Log WARNING msg].
Proof.
  intros Hsplit Hcfg Hget Hm Hrun.
  unfold Orchestrator.start_server, Orchestrator.start_server_enter,
    Orchestrator._parse_server_id, Orchestrator.running_record,
    bind, gets, deref_server, log, emit, ret.
  rewrite Hsplit. cbn. rewrite Hcfg. cbn. rewrite Hget. cbn. rewrite Hm. cbn.
  apply is_running_true in Hrun. rewrite Hrun. cbn. eexists. reflexivity.
Qed.

(** C3, amended.  [check_quota(t, "max_servers")] raises
    [QuotaExceededError] if and only if a context exists for [t] and the
    number of servers it tracks is at least the effective limit (the
    tenant's own limit when set, otherwise 10); when no context exists for
    [t] it returns [True], whatever the limit. *)
Theorem C3_check_quota_raises_iff env w tenant_id :
  ((exists msg,
      res (MultitenantManager.check_quota tenant_id "max_servers" env w)
      = Raise (Exn QuotaExceededError msg))
   <-> exists c,
         tenant_context w tenant_id = Some c
         /\ effective_max_servers w tenant_id
            <= Z.of_nat (Dict.len (TenantContext.servers c)))
  /\ (Dict.get tenant_id (tenants w) = None ->
      MultitenantManager.check_quota tenant_id "max_servers" env w
      = mkOut (Ret true) w []).
Proof.
  unfold MultitenantManager.check_quota, MultitenantManager.get_quota,
    tenant_context, effective_max_servers, bind, gets, deref_context, ret, raise.
  destruct (Dict.get tenant_id (tenants w)) as [l|]; cbn.
  2:{ split; [|reflexivity]. split; [intros [msg [=]]|intros (c & [=] & _)]. }
  split; [|discriminate].
  assert (Hdef : MultitenantManager.default_quotas !! "max_servers" = Some 10)
    by reflexivity.
  destruct (quotas w !! tenant_id) as [per|]; cbn.
  - destruct (per !! "max_servers") as [n|]; cbn.
    + destruct (contexts_store w !! l) as [c|]; cbn.
      * destruct (n <=? Z.of_nat (Dict.len (TenantContext.servers c))) eqn:E; cbn.
        -- apply Z.leb_le in E. split; eauto.
        -- apply Z.leb_gt in E. split; [intros [msg [=]]|].
           intros (c' & [= <-] & H). lia.
      * split; [intros [msg [=]]|intros (c & [=] & _)].
    + rewrite Hdef. cbn.
      destruct (contexts_store w !! l) as [c|]; cbn.
      * destruct (10 <=? Z.of_nat (Dict.len (TenantContext.servers c))) eqn:E; cbn.
        -- apply Z.leb_le in E. split; eauto.
        -- apply Z.leb_gt in E. split; [intros [msg [=]]|].
           intros (c' & [= <-] & H). lia.
      * split; [intros [msg [=]]|intros (c & [=] & _)].
  - rewrite Hdef. cbn.
    destruct (contexts_store w !! l) as [c|]; cbn.
    + destruct (10 <=? Z.of_nat (Dict.len (TenantContext.servers c))) eqn:E; cbn.
      * apply Z.leb_le in E. split; eauto.
      * apply Z.leb_gt in E. split; [intros [msg [=]]|].
        intros (c' & [= <-] & H). lia.
    + split; [intros [msg [=]]|intros (c & [=] & _)].
Qed.

Lemma first_with_prefixed_name_Some d regs reg :
  DynamicToolRouter.first_with_prefixed_name d regs = Some reg ->
  In reg regs /\ ToolRegistration.prefixed_name reg = d.
Proof.
  induction regs as [|r regs IH]; cbn; [discriminate|].
  destruct (String.eqb (ToolRegistration.prefixed_name r) d) eqn:E.
  - intros [= <-]. apply String.eqb_eq in E. auto.
  - intros H. destruct (IH H). auto.
Qed.

Lemma first_with_prefixed_name_None d regs :
  DynamicToolRouter.first_with_prefixed_name d regs = None <->
  forall reg, In reg regs -> ToolRegistration.prefixed_name reg <> d.
Proof.
  induction regs as [|r regs IH]; cbn.
  - split; [intros _ reg []|reflexivity].
  - destruct (String.eqb (ToolRegistration.prefixed_name r) d) eqn:E.
    + apply String.eqb_eq in E. split; [discriminate|].
      intros H. exfalso. apply (H r); auto.
    + apply String.eqb_neq in E. rewrite IH. split.
      * intros H reg [<-|Hin]; auto.
      * intros H reg Hin. apply H. auto.
Qed.

Lemma get_server_client_not_running env w server_id :
  not_running w server_id ->
  Orchestrator.get_server_client server_id env w = mkOut (Ret None) w [].
Proof.
  unfold not_running, managed_record, Orchestrator.get_server_client,
    bind, gets, deref_server, ret.
  intros [H|(m & H & Hs)].
  - rewrite H. reflexivity.
  - destruct (Dict.get server_id (managed_servers w)) as [l|]; [|discriminate].
    cbn. rewrite H. cbn.
    destruct (ManagedServer.is_running m) eqn:E; [|reflexivity].
    apply is_running_true in E. contradiction.
Qed.

Lemma get_server_client_Some env w server_id c :
  res (Orchestrator.get_server_client server_id env w) = Ret (Some c) ->
  Orchestrator.get_server_client server_id env w = mkOut (Ret (Some c)) w [].
Proof.
  unfold Orchestrator.get_server_client, bind, gets, deref_server, ret.
  destruct (Dict.get server_id (managed_servers w)) as [l|]; cbn; [|discriminate].
  destruct (servers_store w !! l) as [m|]; cbn; [|discriminate].
  destruct (ManagedServer.is_running m); cbn; [|discriminate].
  intros [= ->]. reflexivity.
Qed.

(** The outcome of [call_tool], case by case. *)
Lemma call_tool_res env w d a timeout :
  res (DynamicToolRouter.call_tool d a timeout env w) =
  match DynamicToolRouter.first_with_prefixed_name d (Dict.values (tools w)) with
  | None => Raise (Exn ToolNotFoundError ("Herramienta no encontrada: " ++ d))
  | Some reg =>
      match res (Orchestrator.get_server_client
                   (ToolRegistration.server_id reg) env w) with
      | Ret (Some c) =>
          match call_tool env c (ToolRegistration.original_name reg) a timeout with
          | inr r => Ret r
          | inl e =>
              if isinstance e MCPToolCallError then Raise e
              else Raise (Exn RouterError ("Error ejecutando herramienta: " ++ str e))
          end
      | Ret None =>
          Raise (Exn ServerNotAvailableError
                   ("Servidor no disponible: " ++ ToolRegistration.server_id reg))
      | Raise e => Raise e
      | Stuck => Stuck
      end
  end.
Proof.
  unfold DynamicToolRouter.call_tool.
  generalize Orchestrator.get_server_client. intros gsc.
  unfold bind, log, emit, gets, try_except,
    DynamicToolRouter.await_call_tool, ret, raise.
  cbn.
  destruct (DynamicToolRouter.first_with_prefixed_name d (Dict.values (tools w)))
    as [reg|]; [|reflexivity].
  destruct (gsc (ToolRegistration.server_id reg) env w)
    as [[[c|]|e|] w1 t1]; cbn; try reflexivity.
  destruct (call_tool env c (ToolRegistration.original_name reg) a timeout) as [e|r];
    cbn; [|reflexivity].
  destruct (isinstance e MCPToolCallError); reflexivity.
Qed.

Lemma isinstance_class e c :
  isinstance e MCPToolCallError = true -> exn_cls e = c -> c = MCPToolCallError.
Proof.
  unfold isinstance. destruct e as [cls m]; cbn. intros H <-.
  destruct cls; cbn in H; congruence.
Qed.

(** C5.  [call_tool d] raises [ToolNotFoundError] if and only if no
    catalog entry has dotted name [d].  Otherwise, with [reg] the entry the
    lookup finds (the first one in catalog order): if the worker owning
    [reg] is not running the call raises [ServerNotAvailableError]; if the
    worker's client raises an [MCPToolCallError], that same exception
    propagates; and if it raises any other exception, the call raises a
    [RouterError]. *)
Theorem C5_call_tool_failures env w d a timeout :
  let regs := Dict.values (tools w) in
  let out := DynamicToolRouter.call_tool d a timeout env w in
  ((exists msg, res out = Raise (Exn ToolNotFoundError msg))
   <-> forall reg, In reg regs -> ToolRegistration.prefixed_name reg <> d)
  /\ forall reg,
       DynamicToolRouter.first_with_prefixed_name d regs = Some reg ->
       (not_running w (ToolRegistration.server_id reg) ->
        exists msg, res out = Raise (Exn ServerNotAvailableError msg))
       /\ forall c e,
            res (Orchestrator.get_server_client
                   (ToolRegistration.server_id reg) env w) = Ret (Some c) ->
            call_tool env c (ToolRegistration.original_name reg) a timeout = inl e ->
            (isinstance e MCPToolCallError = true -> res out = Raise e)
            /\ (isinstance e MCPToolCallError = false ->
                exists msg, res out = Raise (Exn RouterError msg)).
Proof.
  cbv zeta. rewrite call_tool_res.
  destruct (DynamicToolRouter.first_with_prefixed_name d (Dict.values (tools w)))
    as [reg|] eqn:Efirst.
  - split.
    + split.
      * intros [msg Hres]. exfalso.
        destruct (res (Orchestrator.get_server_client _ env w)) as [[c|]|e|] eqn:Ec;
          try discriminate.
        -- destruct (call_tool env c _ a timeout) as [e|r]; [|discriminate].
           destruct (isinstance e MCPToolCallError) eqn:Ei; [|discriminate].
           injection Hres as ->.
           pose proof (isinstance_class _ _ Ei eq_refl). discriminate.
        -- revert Ec.
           unfold Orchestrator.get_server_client, bind, gets, deref_server, ret.
           destruct (Dict.get _ _); cbn; [|discriminate].
           destruct (_ !! _); cbn; [|discriminate].
           destruct (ManagedServer.is_running _); discriminate.
      * intros H. exfalso.
        apply first_with_prefixed_name_Some in Efirst as [Hin Hd].
        exact (H reg Hin Hd).
    + intros reg' [= <-]. split.
      * intros Hnr. rewrite (get_server_client_not_running env w _ Hnr).
        cbn. eauto.
      * intros c e Hc Hcall. rewrite Hc, Hcall.
        split; intros Hi; rewrite Hi; eauto.
  - split.
    + split; [intros _|intros _; eauto].
      apply first_with_prefixed_name_None. exact Efirst.
    + discriminate.
Qed.

Lemma set_tools_set_tools d d' w : set_tools d (set_tools d' w) = set_tools d w.
Proof. reflexivity. Qed.

Lemma set_tools_same w : set_tools (tools w) w = w.
Proof. destruct w; reflexivity. Qed.

Lemma bind_Ret {A B} (m : M A) (k : A -> M B) env w a w1 t1 :
  m env w = mkOut (Ret a) w1 t1 ->
  bind m k env w
  = mkOut (res (k a env w1)) (st (k a env w1)) (t1 ++ eff (k a env w1)).
Proof. intros H. unfold bind. rewrite H. destruct (k a env w1); reflexivity. Qed.

Lemma register_one_run env w server_id tenant_id short acc tool :
  split_once ":" server_id = Some (tenant_id, short) ->
  register_one server_id acc tool env w
  = mkOut (Ret (acc ++ [registration_of server_id short tool])%list)
          (set_tools
             (Dict.set
                (DynamicToolRouter._generate_tool_id server_id (ToolInfo.name tool))
                (registration_of server_id short tool) (tools w)) w)
          [Log DEBUG ("Herramienta registrada: " ++ short ++ "." ++ ToolInfo.name tool)].
Proof.
  intros Hsplit.
  unfold register_one, DynamicToolRouter._generate_prefixed_name,
    Orchestrator._parse_server_id, bind, modify, log, emit, ret.
  rewrite Hsplit. reflexivity.
Qed.

Lemma discover_loop env w server_id tenant_id short listed acc :
  split_once ":" server_id = Some (tenant_id, short) ->
  res (for_fold listed acc (register_one server_id) env w)
  = Ret (acc ++ List.map (registration_of server_id short) listed)%list
  /\ st (for_fold listed acc (register_one server_id) env w)
     = set_tools (register_all server_id short listed (tools w)) w.
Proof.
  intros Hsplit. revert w acc.
  induction listed as [|tool listed IH]; intros w acc.
  - cbn. rewrite app_nil_r. split; [reflexivity|]. symmetry. apply set_tools_same.
  - cbn [for_fold].
    rewrite (bind_Ret _ _ _ _ _ _ _ (register_one_run env w _ _ _ acc tool Hsplit)).
    cbn [res st].
    destruct (IH (set_tools
             (Dict.set
                (DynamicToolRouter._generate_tool_id server_id (ToolInfo.name tool))
                (registration_of server_id short tool) (tools w)) w)
             (acc ++ [registration_of server_id short tool])%list) as [-> ->].
    split.
    + rewrite <- app_assoc. reflexivity.
    + reflexivity.
Qed.

Lemma Out_eta {A} (o : Out A) : o = mkOut (res o) (st o) (eff o).
Proof. destruct o; reflexivity. Qed.

Lemma try_except_Ret {A} (m : M A) h env w a w1 t1 :
  m env w = mkOut (Ret a) w1 t1 -> try_except m h env w = mkOut (Ret a) w1 t1.
Proof. intros H. unfold try_except. rewrite H. reflexivity. Qed.

(** A run of [discover_tools] on an initialized client that lists
    [listed]. *)
Lemma discover_tools_run env w server_id tenant_id short client listed :
  split_once ":" server_id = Some (tenant_id, short) ->
  Orchestrator.get_server_client server_id env w = mkOut (Ret (Some client)) w [] ->
  is_initialized env client = true ->
  list_tools env client = inr listed ->
  exists t,
    DynamicToolRouter.discover_tools server_id env w
    = mkOut (Ret (List.map (registration_of server_id short) listed))
            (set_tools (register_all server_id short listed (tools w)) w) t.
Proof.
  intros Hsplit Hclient Hinit Hlist.
  destruct (discover_loop env w _ _ _ listed [] Hsplit) as [Hres Hst].
  pose proof (Out_eta (for_fold listed [] (register_one server_id) env w)) as Hloop.
  rewrite Hres, Hst in Hloop. cbn [app] in Hloop.
  unfold DynamicToolRouter.discover_tools.
  rewrite (bind_Ret _ _ _ _ tt w [Log INFO ("Descubriendo herramientas del servidor: " ++ server_id)])
    by reflexivity.
  cbn [res st eff].
  rewrite (bind_Ret _ _ _ _ _ _ _ Hclient). cbn [res st eff].
  rewrite (bind_Ret _ _ _ _ env w []) by reflexivity. cbn [res st eff].
  rewrite Hinit. cbn [negb].
  change (fun discovered tool => _) with (register_one server_id).
  erewrite try_except_Ret; [eexists; reflexivity|].
  rewrite (bind_Ret _ _ _ _ listed w [ClientCall client ListTools])
    by (unfold DynamicToolRouter.await_list_tools; rewrite Hlist; reflexivity).
  cbn [res st eff].
  rewrite (bind_Ret _ _ _ _ _ _ _ Hloop). cbn [res st eff].
  reflexivity.
Qed.

(** What a successful [discover_tools] has done. *)
Lemma discover_tools_Ret env w server_id tenant_id short discovered client listed :
  split_once ":" server_id = Some (tenant_id, short) ->
  res (DynamicToolRouter.discover_tools server_id env w) = Ret discovered ->
  res (Orchestrator.get_server_client server_id env w) = Ret (Some client) ->
  list_tools env client = inr listed ->
  discovered = List.map (registration_of server_id short) listed
  /\ st (DynamicToolRouter.discover_tools server_id env w)
     = set_tools (register_all server_id short listed (tools w)) w.
Proof.
  intros Hsplit Hret Hclient Hlist.
  apply get_server_client_Some in Hclient.
  destruct (is_initialized env client) eqn:Hinit.
  - destruct (discover_tools_run env w _ _ _ _ _ Hsplit Hclient Hinit Hlist) as [t Hrun].
    rewrite Hrun in Hret |- *. cbn in *. split; congruence.
  - exfalso. revert Hret. unfold DynamicToolRouter.discover_tools.
    rewrite (bind_Ret _ _ _ _ tt w [Log INFO ("Descubriendo herramientas del servidor: " ++ server_id)])
      by reflexivity.
    cbn [res st eff].
    rewrite (bind_Ret _ _ _ _ _ _ _ Hclient). cbn [res st eff].
    rewrite (bind_Ret _ _ _ _ env w []) by reflexivity. cbn [res st eff].
    rewrite Hinit. cbn. discriminate.
Qed.

Lemma register_all_get_or server_id short listed catalog k :
  Dict.get k (register_all server_id short listed catalog) = Dict.get k catalog
  \/ exists tool,
       In tool listed
       /\ DynamicToolRouter._generate_tool_id server_id (ToolInfo.name tool) = k
       /\ Dict.get k (register_all server_id short listed catalog)
          = Some (registration_of server_id short tool).
Proof.
  revert catalog. induction listed as [|x listed IH]; intros catalog; cbn.
  - left; reflexivity.
  - destruct (IH (Dict.set
                    (DynamicToolRouter._generate_tool_id server_id (ToolInfo.name x))
                    (registration_of server_id short x) catalog))
      as [Heq|(tool & Hin & Hid & Hget)].
    + destruct (string_dec k
                  (DynamicToolRouter._generate_tool_id server_id (ToolInfo.name x)))
        as [->|Hne].
      * right. exists x. split; [left; reflexivity|]. split; [reflexivity|].
        unfold register_all in Heq. rewrite Heq. apply dict_get_set_eq.
      * left. unfold register_all in Heq. rewrite Heq.
        apply dict_get_set_ne. exact Hne.
    + right. exists tool. split; [right; exact Hin|]. split; [exact Hid|exact Hget].
Qed.

Lemma string_app_inv_head (s a b : string) : s ++ a = s ++ b -> a = b.
Proof. induction s as [|c s IH]; cbn; [auto|]. intros [= H]. auto. Qed.

Lemma register_all_get server_id short listed catalog tool :
  In tool listed ->
  exists tool',
    In tool' listed
    /\ ToolInfo.name tool' = ToolInfo.name tool
    /\ Dict.get (DynamicToolRouter._generate_tool_id server_id (ToolInfo.name tool))
         (register_all server_id short listed catalog)
       = Some (registration_of server_id short tool').
Proof.
  assert (Hinj : forall a b,
             DynamicToolRouter._generate_tool_id server_id a
             = DynamicToolRouter._generate_tool_id server_id b -> a = b).
  { unfold DynamicToolRouter._generate_tool_id. intros a b H.
    apply string_app_inv_head in H. apply (string_app_inv_head ":") in H. exact H. }
  revert catalog. induction listed as [|x listed IH]; intros catalog [].
  - subst x. cbn.
    destruct (register_all_get_or server_id short listed
                (Dict.set
                   (DynamicToolRouter._generate_tool_id server_id (ToolInfo.name tool))
                   (registration_of server_id short tool) catalog)
                (DynamicToolRouter._generate_tool_id server_id (ToolInfo.name tool)))
      as [Heq|(tool' & Hin & Hid & Hget)].
    + exists tool. split; [left; reflexivity|]. split; [reflexivity|].
      unfold register_all in Heq. rewrite Heq. apply dict_get_set_eq.
    + exists tool'. split; [right; exact Hin|]. split; [apply Hinj; exact Hid|exact Hget].
  - destruct (IH (Dict.set
                    (DynamicToolRouter._generate_tool_id server_id (ToolInfo.name x))
                    (registration_of server_id short x) catalog) H)
      as (tool' & Hin & Hname & Hget).
    exists tool'. split; [right; exact Hin|]. split; [exact Hname|exact Hget].
Qed.

Lemma register_all_ok server_id tenant_id short listed catalog :
  split_once ":" server_id = Some (tenant_id, short) ->
  Forall registration_ok (Dict.values catalog) ->
  Forall registration_ok (Dict.values (register_all server_id short listed catalog)).
Proof.
  intros Hsplit. revert catalog.
  induction listed as [|x listed IH]; intros catalog Hok; cbn; [exact Hok|].
  apply IH. apply Forall_forall. intros r Hr.
  unfold Dict.values in Hr. apply list_elem_of_In, in_map_iff in Hr as [[k r'] [<- Hin]].
  apply dict_In_set in Hin as [[-> ->]|Hin].
  - exists short. split; [|reflexivity].
    unfold registration_of; cbn [snd ToolRegistration.server_id].
    unfold short_name. rewrite Hsplit. reflexivity.
  - rewrite Forall_forall in Hok. apply Hok. apply list_elem_of_In, in_map_iff.
    exists (k, r'). auto.
Qed.

Lemma sep_prefix_inj c t1 n1 t2 n2 :
  free_of c t1 = true -> free_of c t2 = true ->
  t1 ++ String c n1 = t2 ++ String c n2 -> t1 = t2 /\ n1 = n2.
Proof.
  revert t2. induction t1 as [|a t1 IH]; intros [|a2 t2]; cbn; intros H1 H2 Heq.
  - injection Heq as ->. auto.
  - injection Heq as <- _. rewrite Ascii.eqb_refl in H2. discriminate.
  - injection Heq as -> _. rewrite Ascii.eqb_refl in H1. discriminate.
  - injection Heq as <- Heq.
    apply andb_prop in H1 as [_ H1]. apply andb_prop in H2 as [_ H2].
    destruct (IH _ H1 H2 Heq) as [-> ->]. auto.
Qed.

Lemma get_tool_run tool_name env w :
  DynamicToolRouter.get_tool tool_name env w
  = mkOut (Ret (DynamicToolRouter.first_with_prefixed_name tool_name
                  (Dict.values (tools w)))) w [].
Proof. reflexivity. Qed.

(** C1, amended.  After a successful [discover_tools] of a worker with
    short name [S], for every operation [O] the worker lists: the catalog
    holds, under the worker's id and [O], an entry with dotted name
    ["S.O"], original name [O] and that worker as owner; and [get_tool
    "S.O"] returns the first catalog entry, in insertion order, whose
    dotted name is ["S.O"].  That entry has original name [O] and an owner
    of short name [S] when the catalog was well formed and no worker short
    name in it contains a dot. *)
Theorem C1_discover_registers_dotted_names
  env w server_id tenant_id S discovered client listed tool :
  split_once ":" server_id = Some (tenant_id, S) ->
  res (DynamicToolRouter.discover_tools server_id env w) = Ret discovered ->
  res (Orchestrator.get_server_client server_id env w) = Ret (Some client) ->
  list_tools env client = inr listed ->
  In tool listed ->
  let O := ToolInfo.name tool in
  let w' := st (DynamicToolRouter.discover_tools server_id env w) in
  (exists reg,
      Dict.get (DynamicToolRouter._generate_tool_id server_id O) (tools w') = Some reg
      /\ ToolRegistration.prefixed_name reg = S ++ "." ++ O
      /\ ToolRegistration.original_name reg = O
      /\ ToolRegistration.server_id reg = server_id)
  /\ exists reg,
       DynamicToolRouter.get_tool (S ++ "." ++ O) env w' = mkOut (Ret (Some reg)) w' []
       /\ DynamicToolRouter.first_with_prefixed_name (S ++ "." ++ O)
            (Dict.values (tools w')) = Some reg
       /\ ToolRegistration.prefixed_name reg = S ++ "." ++ O
       /\ (catalog_ok w ->
           (forall r s, In r (Dict.values (tools w')) ->
                        short_name (ToolRegistration.server_id r) = Some s ->
                        free_of "." s = true) ->
           ToolRegistration.original_name reg = O
           /\ short_name (ToolRegistration.server_id reg) = Some S).
Proof.
  intros Hsplit Hret Hclient Hlist Hin. cbv zeta.
  destruct (discover_tools_Ret _ _ _ _ _ _ _ _ Hsplit Hret Hclient Hlist) as [_ ->].
  cbn [tools set_tools].
  destruct (register_all_get server_id S listed (tools w) tool Hin)
    as (tool' & Hin' & Hname & Hget).
  split.
  - exists (registration_of server_id S tool'). split; [exact Hget|].
    cbn. rewrite Hname. auto.
  - assert (Hex : In (registration_of server_id S tool')
                     (Dict.values (register_all server_id S listed (tools w)))).
    { apply dict_get_In in Hget. unfold Dict.values. apply in_map_iff.
      eexists (_, _). split; [|exact Hget]. reflexivity. }
    destruct (DynamicToolRouter.first_with_prefixed_name (S ++ "." ++ ToolInfo.name tool)
                (Dict.values (register_all server_id S listed (tools w))))
      as [reg|] eqn:Efirst.
    2:{ exfalso. rewrite first_with_prefixed_name_None in Efirst.
        apply (Efirst _ Hex). cbn. rewrite Hname. reflexivity. }
    exists reg.
    destruct (first_with_prefixed_name_Some _ _ _ Efirst) as [Hreg Hpre].
    split; [|split; [reflexivity|split; [exact Hpre|]]].
    { rewrite get_tool_run. cbn [tools set_tools]. rewrite Efirst. reflexivity. }
    intros Hcat Hfree.
    pose proof (register_all_ok _ _ _ listed _ Hsplit Hcat) as Hok.
    rewrite Forall_forall in Hok.
    destruct (Hok reg) as (s & Hs & Hp); [apply list_elem_of_In; exact Hreg|].
    assert (HfS : free_of "." S = true).
    { apply (Hfree (registration_of server_id S tool') S Hex).
      unfold registration_of; cbn [ToolRegistration.server_id].
      unfold short_name. rewrite Hsplit. reflexivity. }
    pose proof (Hfree reg s Hreg Hs) as Hfs.
    rewrite Hp in Hpre.
    destruct (sep_prefix_inj "." s _ S _ Hfs HfS Hpre) as [-> Ho].
    auto.
Qed.


(** C1 as stated fails: worker ["t:a"] exposes ["b.c"] and worker ["t:a.b"]
    exposes ["c"].  After [discover_tools "t:a.b"], resolving ["a.b.c"]
    returns the registration of ["b.c"] on ["t:a"]. *)
Lemma C1_counterexample :
  let out := DynamicToolRouter.discover_tools "t:a.b" dotted_env dotted_world in
  split_once ":" "t:a.b" = Some ("t", "a.b")
  /\ Orchestrator.get_server_client "t:a.b" dotted_env dotted_world
     = mkOut (Ret (Some 1%nat)) dotted_world []
  /\ list_tools dotted_env 1%nat = inr [example_tool "c"]
  /\ (exists discovered, res out = Ret discovered)
  /\ exists reg,
       res (DynamicToolRouter.get_tool ("a.b" ++ "." ++ "c") dotted_env (st out))
       = Ret (Some reg)
       /\ ToolRegistration.original_name reg = "b.c"
       /\ short_name (ToolRegistration.server_id reg) = Some "a"
       /\ ToolRegistration.original_name reg <> "c"
       /\ short_name (ToolRegistration.server_id reg) <> Some "a.b".
Proof.
  cbv zeta. split; [reflexivity|]. split; [vm_compute; reflexivity|].
  split; [reflexivity|]. split; [eexists; vm_compute; reflexivity|].
  eexists. split; [vm_compute; reflexivity|].
  split; [reflexivity|]. split; [reflexivity|]. split; discriminate.
Qed.

Lemma twin_world_reachable : reachable twin_world [].
Proof.
  unfold twin_world.
  do 2 apply reach_exec. apply reach_init.
Qed.

(** C9 as stated fails: tenants ["t1"] and ["t2"] each declare a worker
    ["echo"] exposing ["add"]; once both are started, the dotted name
    ["echo.add"] is in the tool list of both contexts. *)
Lemma C9_counterexample :
  reachable twin_world []
  /\ "t1" <> "t2"
  /\ exists c1 c2,
       tenant_context twin_world "t1" = Some c1
       /\ tenant_context twin_world "t2" = Some c2
       /\ In "echo.add" (TenantContext.tools c1)
       /\ In "echo.add" (TenantContext.tools c2).
Proof.
  split; [apply twin_world_reachable|]. split; [discriminate|].
  eexists. eexists. split; [vm_compute; reflexivity|].
  split; [vm_compute; reflexivity|]. split; left; reflexivity.
Qed.

Lemma echo_world_reachable : reachable echo_world [].
Proof.
  unfold echo_world. apply reach_exec, reach_init.
Qed.

Lemma orphan_world_reachable : reachable orphan_world [].
Proof.
  unfold orphan_world. apply reach_exec, echo_world_reachable.
Qed.

(** C6 as stated fails: once a reload has removed a running worker from
    the registry, [start_server] on it raises [ValueError] instead of
    returning its record. *)
Lemma C6_counterexample :
  reachable orphan_world []
  /\ worker_state orphan_world "default:echo" = Some RUNNING
  /\ res (Orchestrator.start_server "default:echo" echo_env orphan_world)
     = Raise (Exn ValueError "Servidor no encontrado en registry: default:echo")
  /\ forall l,
       res (Orchestrator.start_server "default:echo" echo_env orphan_world) <> Ret l.
Proof.
  split; [apply orphan_world_reachable|]. split; [vm_compute; reflexivity|].
  assert (H : res (Orchestrator.start_server "default:echo" echo_env orphan_world)
              = Raise (Exn ValueError "Servidor no encontrado en registry: default:echo"))
    by (vm_compute; reflexivity).
  split; [exact H|]. intros l. rewrite H. discriminate.
Qed.

(** C3 as stated fails: with a limit of 0 and no context for the tenant,
    the tracked count 0 is at least the limit, and [check_quota] returns
    [True]. *)
Lemma C3_counterexample :
  reachable zero_quota_world []
  /\ tenant_context zero_quota_world "t1" = None
  /\ effective_max_servers zero_quota_world "t1" = 0
  /\ effective_max_servers zero_quota_world "t1" <= 0
  /\ MultitenantManager.check_quota "t1" "max_servers" echo_env zero_quota_world
     = mkOut (Ret true) zero_quota_world [].
Proof.
  split.
  { unfold zero_quota_world. apply reach_exec, reach_init. }
  split; [reflexivity|]. split; [vm_compute; reflexivity|].
  split; [vm_compute; discriminate|]. vm_compute; reflexivity.
Qed.

(** C4, at the failing input.  One context, with no server and idle for
    5 seconds, and a threshold of 1 second: [cleanup_inactive_tenants]
    evicts the context and then raises [RuntimeError], the dictionary
    having changed size under the loop; it returns no list. *)
Theorem C4_cleanup_raises_on_eviction :
  let env := quiet_env 5000000 (fun _ => []) in
  let out := MultitenantManager.cleanup_inactive_tenants 1 env idle_world in
  reachable idle_world []
  /\ (exists l c,
        tenants idle_world = [("default", l)]
        /\ contexts_store idle_world !! l = Some c
        /\ TenantContext.servers c = []
        /\ 1 * 1000000 < now env - TenantContext.last_activity c)
  /\ res out = Raise (Exn RuntimeError "dictionary changed size during iteration")
  /\ tenants (st out) = [].
Proof.
  cbv zeta. split.
  { unfold idle_world. apply reach_exec, reach_init. }
  split.
  { eexists. eexists. split; [vm_compute; reflexivity|].
    split; [vm_compute; reflexivity|]. split; [reflexivity|]. vm_compute. reflexivity. }
  split; vm_compute; reflexivity.
Qed.

(** C8, at the failing input.  With a first listener that has no
    [__name__] and raises, and a second listener after it,
    [_notify_observers] raises [AttributeError] from its own handler: the
    failure reaches the engine and the second listener is never called. *)
Theorem C8_nameless_listener_breaks_notification env r event data :
  let w := set_observers [partial_listener; named_listener] (initial_world r) in
  Orchestrator._notify_observers event data env w
  = mkOut (Raise (Exn AttributeError "object has no attribute '__name__'")) w
          [Notified partial_listener event data].
Proof. reflexivity. Qed.



(** C1, amended, on the worker ["default:echo"] exposing ["add"]. *)
Lemma C1_witness :
  split_once ":" "default:echo" = Some ("default", "echo")
  /\ res (DynamicToolRouter.discover_tools "default:echo" echo_env echo_world)
     = Ret [registration_of "default:echo" "echo" (example_tool "add")]
  /\ res (Orchestrator.get_server_client "default:echo" echo_env echo_world)
     = Ret (Some 0%nat)
  /\ list_tools echo_env 0%nat = inr [example_tool "add"]
  /\ In (example_tool "add") [example_tool "add"]
  /\ exists reg,
       Dict.get "default:echo:add"
         (tools (st (DynamicToolRouter.discover_tools "default:echo"
                       echo_env echo_world))) = Some reg
       /\ ToolRegistration.prefixed_name reg = "echo.add"
       /\ ToolRegistration.original_name reg = "add"
       /\ ToolRegistration.server_id reg = "default:echo".
Proof.
  assert (H1 : split_once ":" "default:echo" = Some ("default", "echo"))
    by reflexivity.
  assert (H2 : res (DynamicToolRouter.discover_tools "default:echo" echo_env echo_world)
               = Ret [registration_of "default:echo" "echo" (example_tool "add")])
    by (vm_compute; reflexivity).
  assert (H3 : res (Orchestrator.get_server_client "default:echo" echo_env echo_world)
               = Ret (Some 0%nat)) by (vm_compute; reflexivity).
  assert (H4 : list_tools echo_env 0%nat = inr [example_tool "add"]) by reflexivity.
  assert (H5 : In (example_tool "add") [example_tool "add"]) by (left; reflexivity).
  repeat (split; [assumption|]).
  exact (proj1 (C1_discover_registers_dotted_names echo_env echo_world
                  "default:echo" "default" "echo" _ 0%nat _ _ H1 H2 H3 H4 H5)).
Defined.

(** C2 after ["default:echo"] was started. *)
Lemma C2_witness :
  reachable echo_world []
  /\ ((exists c,
         res (Orchestrator.get_server_client "default:echo" echo_env echo_world)
         = Ret (Some c))
      <-> worker_state echo_world "default:echo" = Some RUNNING).
Proof.
  split; [exact echo_world_reachable|].
  exact (proj1 (C2_live_handle_iff_running echo_world [] echo_env "default:echo"
                  echo_world_reachable)).
Defined.

(** C3, amended, on a tenant without context. *)
Lemma C3_witness :
  Dict.get "t1" (tenants zero_quota_world) = None
  /\ MultitenantManager.check_quota "t1" "max_servers" echo_env zero_quota_world
     = mkOut (Ret true) zero_quota_world [].
Proof.
  assert (H : Dict.get "t1" (tenants zero_quota_world) = None) by reflexivity.
  split; [exact H|].
  exact (proj2 (C3_check_quota_raises_iff echo_env zero_quota_world "t1") H).
Defined.

(** C5 on calls of ["echo.add"] and ["echo.sub"] with ["echo.add"] in the
    catalog: an unknown name, the worker stopped, and a client that raises
    an [MCPToolCallError] or another exception. *)
Lemma C5_witness :
  (exists msg,
     res (DynamicToolRouter.call_tool "echo.sub" "{}" None echo_env discovered_world)
     = Raise (Exn ToolNotFoundError msg))
  /\ (exists msg,
        res (DynamicToolRouter.call_tool "echo.add" "{}" None echo_env halted_world)
        = Raise (Exn ServerNotAvailableError msg))
  /\ res (DynamicToolRouter.call_tool "echo.add" "{}" None
            (failing_env (Exn MCPToolCallError "tool failed")) discovered_world)
     = Raise (Exn MCPToolCallError "tool failed")
  /\ (exists msg,
        res (DynamicToolRouter.call_tool "echo.add" "{}" None
               (failing_env (Exn OtherException "boom")) discovered_world)
        = Raise (Exn RouterError msg)).
Proof.
  split; [|split; [|split]].
  - apply (proj2 (proj1 (C5_call_tool_failures echo_env discovered_world
                           "echo.sub" "{}" None))).
    intros reg H. vm_compute in H. destruct H as [<-|[]]. vm_compute. discriminate.
  - refine (proj1 (proj2 (C5_call_tool_failures echo_env halted_world
                            "echo.add" "{}" None) _ eq_refl) _).
    right. eexists. split; [reflexivity|]. vm_compute. discriminate.
  - exact (proj1 (proj2 (proj2 (C5_call_tool_failures
                                  (failing_env (Exn MCPToolCallError "tool failed"))
                                  discovered_world "echo.add" "{}" None) _ eq_refl)
                    0%nat (Exn MCPToolCallError "tool failed") eq_refl eq_refl)
             eq_refl).
  - exact (proj2 (proj2 (proj2 (C5_call_tool_failures
                                  (failing_env (Exn OtherException "boom"))
                                  discovered_world "echo.add" "{}" None) _ eq_refl)
                    0%nat (Exn OtherException "boom") eq_refl eq_refl)
             eq_refl).
Defined.

(** C6, amended, on the running worker ["default:echo"]. *)
Lemma C6_witness :
  split_once ":" "default:echo" = Some ("default", "echo")
  /\ Registry.get_server_config (registry echo_world) "default" "echo"
     = Some (example_server "echo")
  /\ Dict.get "default:echo" (managed_servers echo_world) = Some 0%nat
  /\ (exists m, servers_store echo_world !! 0%nat = Some m
                /\ ManagedServer.state m = RUNNING)
  /\ exists msg,
       Orchestrator.start_server "default:echo" echo_env echo_world
       = mkOut (Ret 0%nat) echo_world [Log WARNING msg].
Proof.
  assert (H1 : split_once ":" "default:echo" = Some ("default", "echo"))
    by reflexivity.
  assert (H2 : Registry.get_server_config (registry echo_world) "default" "echo"
               = Some (example_server "echo")) by reflexivity.
  assert (H3 : Dict.get "default:echo" (managed_servers echo_world) = Some 0%nat)
    by reflexivity.
  assert (H4 : servers_store echo_world !! 0%nat
               = Some (ManagedServer.mk "default:echo" "default"
                         (example_server "echo") RUNNING None (Some 0%nat)
                         None (Some 0) None 0))
    by (vm_compute; reflexivity).
  split; [exact H1|]. split; [exact H2|]. split; [exact H3|].
  split; [eexists; split; [exact H4|reflexivity]|].
  exact (C6_start_running_is_noop echo_env echo_world "default:echo" "default"
           "echo" _ 0%nat _ H1 H2 H3 H4 eq_refl).
Defined.

(** C7 on an unmanaged worker id. *)
Lemma C7_witness :
  Dict.get "default:absent" (managed_servers echo_world) = None
  /\ exists msg,
       Orchestrator.stop_server "default:absent" echo_env echo_world
       = mkOut (Ret tt) echo_world [Log WARNING msg].
Proof.
  assert (H : Dict.get "default:absent" (managed_servers echo_world) = None)
    by reflexivity.
  split; [exact H|].
  exact (C7_stop_is_noop echo_env echo_world "default:absent" (or_introl H)).
Defined.

(** C9, amended, on the tenants ["t1"] and ["t2"]. *)
Lemma C9_witness :
  reachable twin_world []
  /\ "t1" <> "t2"
  /\ Dict.get "t1" (tenants twin_world) = Some 0%nat
  /\ Dict.get "t2" (tenants twin_world) = Some 1%nat
  /\ 0%nat <> 1%nat.
Proof.
  assert (Hne : "t1" <> "t2") by discriminate.
  assert (H1 : Dict.get "t1" (tenants twin_world) = Some 0%nat)
    by (vm_compute; reflexivity).
  assert (H2 : Dict.get "t2" (tenants twin_world) = Some 1%nat)
    by (vm_compute; reflexivity).
  split; [exact twin_world_reachable|]. split; [exact Hne|].
  split; [exact H1|]. split; [exact H2|].
  exact (proj1 (C9_tenant_isolation twin_world [] "t1" "t2" 0%nat 1%nat
                  twin_world_reachable Hne H1 H2)).
Defined.

(** C10 after ["default:echo"] was started. *)
Lemma C10_witness :
  reachable echo_world []
  /\ (exists m, managed_record echo_world "default:echo" = Some m)
  /\ exists s,
       Orchestrator.get_server_status "default:echo" echo_env echo_world
       = mkOut (Ret (Some s)) echo_world []
       /\ Orchestrator.status_restart_count s = 0.
Proof.
  assert (H : managed_record echo_world "default:echo"
              = Some (ManagedServer.mk "default:echo" "default"
                        (example_server "echo") RUNNING None (Some 0%nat)
                        None (Some 0) None 0))
    by (vm_compute; reflexivity).
  split; [exact echo_world_reachable|]. split; [eexists; exact H|].
  exact (proj2 (C10_restart_count_zero echo_world [] echo_env "default:echo" _
                  echo_world_reachable H)).
Defined.

(* ===================================================================== *)
(** * Further properties of the code                                     *)
(* ===================================================================== *)

(** * Runs of composite programs *)

Lemma bind_run {A B} (m : M A) (k : A -> M B) env w :
  bind m k env w
  = match res (m env w) with
    | Ret a =>
        mkOut (res (k a env (st (m env w)))) (st (k a env (st (m env w))))
              (eff (m env w) ++ eff (k a env (st (m env w))))
    | Raise e => mkOut (Raise e) (st (m env w)) (eff (m env w))
    | Stuck => mkOut Stuck (st (m env w)) (eff (m env w))
    end.
Proof.
  unfold bind. destruct (m env w) as [[a|e|] w1 t1]; cbn; [|reflexivity..].
  destruct (k a env w1); reflexivity.
Qed.

Lemma bind_Raise {A B} (m : M A) (k : A -> M B) env w e w1 t1 :
  m env w = mkOut (Raise e) w1 t1 -> bind m k env w = mkOut (Raise e) w1 t1.
Proof. intros H. unfold bind. rewrite H. reflexivity. Qed.

Lemma try_except_run {A} (m : M A) h env w :
  try_except m h env w
  = match res (m env w) with
    | Raise e =>
        match h e with
        | Some k =>
            mkOut (res (k env (st (m env w)))) (st (k env (st (m env w))))
                  (eff (m env w) ++ eff (k env (st (m env w))))
        | None => mkOut (Raise e) (st (m env w)) (eff (m env w))
        end
    | r => mkOut r (st (m env w)) (eff (m env w))
    end.
Proof.
  unfold try_except. destruct (m env w) as [[a|e|] w1 t1]; cbn; [reflexivity| |reflexivity].
  destruct (h e) as [k|]; [|reflexivity]. destruct (k env w1); reflexivity.
Qed.

(** * Composite ids *)

Lemma split_once_free sep s a b :
  split_once sep s = Some (a, b) -> s = a ++ String sep b /\ free_of sep a = true.
Proof.
  revert a b. induction s as [|c s IH]; intros a b; cbn; [discriminate|].
  destruct (Ascii.eqb c sep) eqn:E.
  - apply Ascii.eqb_eq in E. subst c. intros [= <- <-]. auto.
  - destruct (split_once sep s) as [[a' b']|]; [|discriminate].
    intros [= <- <-]. destruct (IH a' b' eq_refl) as [-> Hf].
    cbn [free_of]. rewrite E. auto.
Qed.

Lemma split_once_app sep a b :
  free_of sep a = true -> split_once sep (a ++ String sep b) = Some (a, b).
Proof.
  induction a as [|c a IH].
  - intros _. change ("" ++ String sep b) with (String sep b).
    cbn [split_once]. rewrite Ascii.eqb_refl. reflexivity.
  - intros H. cbn [free_of] in H. apply andb_prop in H as [Hc Hf].
    apply negb_true_iff in Hc.
    change (String c a ++ String sep b) with (String c (a ++ String sep b)).
    cbn [split_once]. rewrite Hc, (IH Hf). reflexivity.
Qed.

Lemma split_once_Some sep s a b :
  split_once sep s = Some (a, b) <->
  s = a ++ String sep b /\ free_of sep a = true.
Proof.
  split; [apply split_once_free|]. intros [-> Hf]. apply split_once_app, Hf.
Qed.

Lemma split_once_None sep s :
  split_once sep s = None <-> free_of sep s = true.
Proof.
  induction s as [|c s IH]; cbn; [tauto|].
  destruct (Ascii.eqb c sep) eqn:E; cbn.
  - split; discriminate.
  - destruct (split_once sep s) as [[a b]|].
    + split; [discriminate|]. intros H. apply IH in H. discriminate.
    + split; [intros _; apply IH; reflexivity|reflexivity].
Qed.

(** X1.  Decoding an encoded id: [_parse_server_id] applied to
    [_generate_server_id tenant_id server_name] returns the pair
    [(tenant_id, server_name)], with no effect, exactly when [tenant_id]
    contains no colon; a tenant id with a colon is split at its own first
    colon instead. *)
Theorem X1_parse_generate_round_trip env w tenant_id server_name :
  Orchestrator._parse_server_id
    (Orchestrator._generate_server_id tenant_id server_name) env w
  = mkOut (Ret (tenant_id, server_name)) w []
  <-> free_of ":" tenant_id = true.
Proof.
  unfold Orchestrator._parse_server_id, Orchestrator._generate_server_id.
  split.
  - destruct (split_once ":" (tenant_id ++ ":" ++ server_name)) as [[a b]|] eqn:E;
      cbn; [|discriminate].
    intros [= -> ->]. apply split_once_Some in E. tauto.
  - intros Hf.
    assert (E : split_once ":" (tenant_id ++ ":" ++ server_name)
                = Some (tenant_id, server_name))
      by (apply split_once_Some; auto).
    rewrite E. reflexivity.
Qed.

(** X2.  [_parse_server_id] changes nothing and has two outcomes: on an id
    without colon it raises [ValueError]; on any other id it returns a pair
    whose first part has no colon and from which [_generate_server_id] gives
    the id back. *)
Theorem X2_parse_server_id_outcomes env w server_id :
  let out := Orchestrator._parse_server_id server_id env w in
  st out = w /\ eff out = []
  /\ (free_of ":" server_id = true <->
      res out = Raise (Exn ValueError ("Formato de ID invalido: " ++ server_id)))
  /\ (free_of ":" server_id = false <->
      exists tenant_id server_name,
        res out = Ret (tenant_id, server_name)
        /\ Orchestrator._generate_server_id tenant_id server_name = server_id
        /\ free_of ":" tenant_id = true).
Proof.
  cbv zeta. unfold Orchestrator._parse_server_id, Orchestrator._generate_server_id.
  destruct (split_once ":" server_id) as [[a b]|] eqn:E; cbn.
  - pose proof E as E'. apply split_once_Some in E' as [-> Hf].
    assert (Hn : free_of ":" (a ++ String ":" b) = false).
    { destruct (free_of ":" (a ++ String ":" b)) eqn:F; [|reflexivity].
      apply split_once_None in F. congruence. }
    repeat split; try congruence; try discriminate.
    + intros _. exists a, b. auto.
  - pose proof E as F. apply split_once_None in F.
    repeat split; try congruence.
    + intros (t & n & [=] & _).
Qed.

(** * Listeners *)

Lemma listener_calls_app t1 t2 :
  listener_calls (t1 ++ t2) = (listener_calls t1 ++ listener_calls t2)%list.
Proof.
  induction t1 as [|[| |] t1 IH]; cbn; auto. rewrite IH. reflexivity.
Qed.

(** One listener of the loop of [_notify_observers]. *)
Lemma notify_one_named observer event data env w :
  named observer ->
  exists t,
    try_except (Orchestrator.call_observer observer event data)
      (fun e => Some (
         name <- Orchestrator.getattr_name observer ;;
         log ERROR ("Error en observador " ++ name ++ ": " ++ str e))) env w
    = mkOut (Ret tt) w t
    /\ listener_calls t = [(observer, event, data)].
Proof.
  unfold named, try_except, Orchestrator.call_observer, Orchestrator.getattr_name.
  intros Hn. destruct (__name__ observer) as [n|]; [|contradiction].
  destruct (__call__ observer event data) as [e|]; cbn; eauto.
Qed.

Lemma notify_loop_named observers event data env w :
  Forall named observers ->
  exists t,
    for_each observers (fun observer =>
      try_except (Orchestrator.call_observer observer event data)
        (fun e => Some (
           name <- Orchestrator.getattr_name observer ;;
           log ERROR ("Error en observador " ++ name ++ ": " ++ str e)))) env w
    = mkOut (Ret tt) w t
    /\ listener_calls t = map (fun o => (o, event, data)) observers.
Proof.
  induction 1 as [|o observers Ho _ IH]; cbn [for_each].
  - exists []. auto.
  - destruct (notify_one_named o event data env w Ho) as (t1 & E1 & H1).
    destruct IH as (t2 & E2 & H2).
    exists (t1 ++ t2)%list. rewrite (bind_Ret _ _ _ _ _ _ _ E1), E2.
    split; [reflexivity|].
    rewrite listener_calls_app, H1, H2. reflexivity.
Qed.

Lemma notify_named event data env w :
  Forall named (_observers w) ->
  exists t,
    Orchestrator._notify_observers event data env w = mkOut (Ret tt) w t
    /\ listener_calls t = map (fun o => (o, event, data)) (_observers w).
Proof.
  intros H. unfold Orchestrator._notify_observers.
  destruct (notify_loop_named (_observers w) event data env w H) as (t & E & Ht).
  exists t. split; [|exact Ht].
  rewrite (bind_Ret _ _ env w (_observers w) w [] eq_refl), E. reflexivity.
Qed.

(** X3.  When every registered listener has a [__name__],
    [_notify_observers] returns normally whatever the listeners do, leaves
    the state as it is, and has called every listener exactly once, in
    registration order, with the event and its data. *)
Theorem X3_notify_named_listeners env w event data :
  Forall named (_observers w) ->
  let out := Orchestrator._notify_observers event data env w in
  res out = Ret tt /\ st out = w
  /\ listener_calls (eff out) = map (fun o => (o, event, data)) (_observers w).
Proof.
  intros H. destruct (notify_named event data env w H) as (t & E & Ht).
  cbv zeta. rewrite E. auto.
Qed.

(** X4.  [add_observer] puts the callable last in the list of listeners
    before it reads its [__name__]: a callable without [__name__] makes it
    raise [AttributeError] and is registered all the same.  A named callable
    registered after named listeners is called by the next notification
    after all of them. *)
Theorem X4_add_observer_registers_last env env' w callback event data :
  let out := Orchestrator.add_observer callback env w in
  _observers (st out) = (_observers w ++ [callback])%list
  /\ (__name__ callback = None ->
      res out = Raise (Exn AttributeError "object has no attribute '__name__'"))
  /\ (named callback -> res out = Ret tt)
  /\ (Forall named (_observers w) -> named callback ->
      listener_calls
        (eff (Orchestrator._notify_observers event data env' (st out)))
      = (map (fun o => (o, event, data)) (_observers w)
         ++ [(callback, event, data)])%list).
Proof.
  cbv zeta.
  assert (Hst : _observers (st (Orchestrator.add_observer callback env w))
                = (_observers w ++ [callback])%list).
  { unfold Orchestrator.add_observer, Orchestrator.getattr_name, named.
    destruct (__name__ callback); reflexivity. }
  split; [exact Hst|]. split; [|split].
  - unfold Orchestrator.add_observer, Orchestrator.getattr_name.
    intros ->. reflexivity.
  - unfold Orchestrator.add_observer, Orchestrator.getattr_name, named.
    destruct (__name__ callback); [reflexivity|contradiction].
  - intros Hall Hcb.
    destruct (notify_named event data env'
                (st (Orchestrator.add_observer callback env w))) as (t & E & Ht).
    { rewrite Hst. apply Forall_app. split; [exact Hall|]. constructor; [exact Hcb|constructor]. }
    rewrite E. cbn [eff]. rewrite Ht, Hst, map_app. reflexivity.
Qed.

Lemma X3_witness :
  Forall named [named_listener]
  /\ listener_calls
       (eff (Orchestrator._notify_observers "server_started"
               (mkEventData "default:echo" None) echo_env
               (set_observers [named_listener] echo_world)))
     = [(named_listener, "server_started", mkEventData "default:echo" None)].
Proof.
  assert (H : Forall named (_observers (set_observers [named_listener] echo_world))).
  { constructor; [discriminate|constructor]. }
  split; [exact H|].
  exact (proj2 (proj2 (X3_notify_named_listeners echo_env
           (set_observers [named_listener] echo_world) "server_started"
           (mkEventData "default:echo" None) H))).
Defined.

(** * Quotas *)

Lemma get_quota_run tenant_id quota_type env w :
  MultitenantManager.get_quota tenant_id quota_type env w
  = mkOut (Ret (match quotas w !! tenant_id ≫= (.!! quota_type) with
                | Some n => Finite n
                | None =>
                    match MultitenantManager.default_quotas !! quota_type with
                    | Some n => Finite n
                    | None => Infinity
                    end
                end)) w [].
Proof.
  unfold MultitenantManager.get_quota, bind, gets, ret. cbn.
  destruct (quotas w !! tenant_id) as [per|]; cbn; [|reflexivity].
  destruct (per !! quota_type); reflexivity.
Qed.

(** X5.  A quota that [set_quota] stores is the one [get_quota] returns
    afterwards, in place of the default or of an earlier value; the limit of
    every other tenant and of every other quota type is what it was, and
    apart from the table of quotas the state is unchanged. *)
Theorem X5_set_quota_get_quota env env' w tenant_id quota_type limit :
  let out := MultitenantManager.set_quota tenant_id quota_type limit env w in
  res out = Ret tt
  /\ st out = set_quotas (quotas (st out)) w
  /\ res (MultitenantManager.get_quota tenant_id quota_type env' (st out))
     = Ret (Finite limit)
  /\ forall tenant_id' quota_type',
       (tenant_id', quota_type') <> (tenant_id, quota_type) ->
       res (MultitenantManager.get_quota tenant_id' quota_type' env' (st out))
       = res (MultitenantManager.get_quota tenant_id' quota_type' env' w).
Proof.
  cbv zeta. split; [reflexivity|]. split; [reflexivity|].
  rewrite !get_quota_run. cbn [res st].
  unfold MultitenantManager.set_quota, bind, modify, log, emit. cbn [st quotas set_quotas].
  split.
  - rewrite lookup_insert_eq. cbn. rewrite lookup_insert_eq. reflexivity.
  - intros t' q' Hne. rewrite !get_quota_run. cbn [res st quotas set_quotas]. f_equal.
    destruct (decide (t' = tenant_id)) as [->|Ht].
    + rewrite lookup_insert_eq. cbn.
      assert (q' <> quota_type) by congruence.
      rewrite lookup_insert_ne by auto.
      destruct (quotas w !! tenant_id); cbn; [reflexivity|].
      rewrite lookup_empty. reflexivity.
    + rewrite lookup_insert_ne by auto. reflexivity.
Qed.

(** One server of the loop of [check_quota]. *)
Lemma check_tools_one tenant_id lim (item : string * nat) env w :
  (regs <- DynamicToolRouter.get_tools_by_server item.1 ;;
   if gt_limit (Z.of_nat (List.length regs)) lim then
     raise (Exn QuotaExceededError
              ("Tenant " ++ tenant_id ++ ": servidor " ++ item.1
               ++ " ha excedido su cuota de herramientas"))
   else ret tt) env w
  = if gt_limit (tool_count w item.1) lim then
      mkOut (Raise (Exn QuotaExceededError
                      ("Tenant " ++ tenant_id ++ ": servidor " ++ item.1
                       ++ " ha excedido su cuota de herramientas"))) w []
    else mkOut (Ret tt) w [].
Proof.
  unfold DynamicToolRouter.get_tools_by_server, bind, gets, ret, raise, tool_count.
  cbn. destruct (gt_limit _ lim); reflexivity.
Qed.

(** The loop of [check_quota] over the servers of a context. *)
Lemma check_tools_loop tenant_id lim items env w :
  let body := fun item : string * nat =>
    regs <- DynamicToolRouter.get_tools_by_server item.1 ;;
    if gt_limit (Z.of_nat (List.length regs)) lim then
      raise (Exn QuotaExceededError
               ("Tenant " ++ tenant_id ++ ": servidor " ++ item.1
                ++ " ha excedido su cuota de herramientas"))
    else ret tt in
  st (for_each items body env w) = w
  /\ ((exists msg, res (for_each items body env w)
                   = Raise (Exn QuotaExceededError msg))
      <-> exists server_id l, In (server_id, l) items
                              /\ gt_limit (tool_count w server_id) lim = true)
  /\ (res (for_each items body env w) = Ret tt
      <-> forall server_id l, In (server_id, l) items ->
                              gt_limit (tool_count w server_id) lim = false).
Proof.
  intros body. induction items as [|[sid l] items IH]; cbn [for_each].
  - cbn. split; [reflexivity|]. split.
    + split; [intros [msg [=]]|intros (? & ? & [] & _)].
    + split; [intros _ ? ? []|reflexivity].
  - pose proof (check_tools_one tenant_id lim (sid, l) env w) as Hone.
    fold (body (sid, l)) in Hone. cbn [fst] in Hone.
    destruct (gt_limit (tool_count w sid) lim) eqn:E.
    + unfold bind. rewrite Hone. cbn.
      split; [reflexivity|]. split.
      * split; [intros _; exists sid, l; auto|eauto].
      * split; [discriminate|]. intros H. rewrite (H sid l) in E by auto. discriminate.
    + rewrite (bind_Ret _ _ _ _ _ _ _ Hone). cbn [res st].
      destruct IH as (Hst & Hraise & Hret).
      split; [exact Hst|]. split.
      * rewrite Hraise. split.
        -- intros (s & l' & Hin & Hgt). exists s, l'. split; [right; exact Hin|exact Hgt].
        -- intros (s & l' & [[= <- <-]|Hin] & Hgt); [congruence|eauto].
      * rewrite Hret. split.
        -- intros H s l' [[= <- <-]|Hin]; eauto.
        -- intros H s l' Hin. eapply H. right. exact Hin.
Qed.

(** X6.  A limit on the tools of a server: [check_quota] with
    ["max_tools_per_server"], for a tenant that has a context, changes
    nothing and raises [QuotaExceededError] exactly when some server the
    context tracks has more catalog entries than the limit [get_quota]
    returns (a server with exactly as many passes); otherwise it returns
    [True]. *)
Theorem X6_check_quota_tools_per_server env w tenant_id c lim :
  tenant_context w tenant_id = Some c ->
  res (MultitenantManager.get_quota tenant_id "max_tools_per_server" env w)
    = Ret lim ->
  let out :=
    MultitenantManager.check_quota tenant_id "max_tools_per_server" env w in
  st out = w
  /\ ((exists msg, res out = Raise (Exn QuotaExceededError msg))
      <-> exists server_id l,
            In (server_id, l) (TenantContext.servers c)
            /\ gt_limit (tool_count w server_id) lim = true)
  /\ (res out = Ret true
      <-> forall server_id l,
            In (server_id, l) (TenantContext.servers c) ->
            gt_limit (tool_count w server_id) lim = false).
Proof.
  unfold tenant_context. intros Hc Hlim. cbv zeta.
  destruct (Dict.get tenant_id (tenants w)) as [l|] eqn:Eget; [|discriminate].
  rewrite get_quota_run in Hlim. cbn [res] in Hlim. injection Hlim as Hlim.
  unfold MultitenantManager.check_quota.
  rewrite (bind_Ret _ _ env w (Some l) w []) by (unfold gets; rewrite Eget; reflexivity).
  cbn [res st eff].
  rewrite (bind_Ret _ _ env w lim w []) by (rewrite get_quota_run, Hlim; reflexivity).
  cbn [res st eff].
  change ("max_tools_per_server" =? "max_servers")%string with false.
  change ("max_tools_per_server" =? "max_tools_per_server")%string with true.
  cbv iota.
  pose proof (check_tools_loop tenant_id lim (Dict.items (TenantContext.servers c)) env w)
    as (Hst & Hraise & Hret).
  assert (Hderef : deref_context l env w = mkOut (Ret c) w []).
  { unfold deref_context. rewrite Hc. reflexivity. }
  rewrite bind_run, (bind_Ret _ _ _ _ _ _ _ Hderef). cbn [res st eff].
  unfold Dict.items in *.
  destruct (res (for_each _ _ env w)) as [[]|e|]; cbn [res st]; rewrite Hst.
  - split; [reflexivity|]. split.
    + rewrite <- Hraise. split; intros [msg [=]].
    + rewrite <- Hret. tauto.
  - split; [reflexivity|]. split.
    + rewrite <- Hraise. split; intros [msg [= ->]]; eauto.
    + rewrite <- Hret. split; discriminate.
  - split; [reflexivity|]. split.
    + rewrite <- Hraise. split; intros [msg [=]].
    + rewrite <- Hret. split; discriminate.
Qed.

(** X7.  Quota types that are never enforced: for every quota type other
    than ["max_servers"] and ["max_tools_per_server"], and so for the
    default quota ["max_concurrent_requests"], [check_quota] returns [True]
    whatever the tenant holds and whatever limit is set, without effect. *)
Theorem X7_check_quota_other_types env w tenant_id quota_type :
  quota_type <> "max_servers" ->
  quota_type <> "max_tools_per_server" ->
  MultitenantManager.check_quota tenant_id quota_type env w
  = mkOut (Ret true) w [].
Proof.
  intros H1 H2. apply String.eqb_neq in H1, H2.
  unfold MultitenantManager.check_quota.
  unfold bind at 1. unfold gets at 1. cbv beta iota.
  destruct (Dict.get tenant_id (tenants w)); [|reflexivity].
  rewrite (bind_Ret _ _ env w _ w [] (get_quota_run tenant_id quota_type env w)).
  rewrite H1, H2. reflexivity.
Qed.

Lemma X7_witness :
  MultitenantManager.check_quota "t1" "max_concurrent_requests" echo_env
    zero_quota_world
  = mkOut (Ret true) zero_quota_world [].
Proof.
  apply X7_check_quota_other_types; discriminate.
Defined.

(** * Tenant contexts *)

Lemma update_activity_run l c env w :
  contexts_store w !! l = Some c ->
  TenantContextMethods.update_activity l env w
  = mkOut (Ret tt)
      (set_contexts_store
         (<[l := TenantContext.set_last_activity (now env) c]> (contexts_store w)) w)
      [].
Proof.
  intros H. unfold TenantContextMethods.update_activity, bind, ask, update_context.
  rewrite H. reflexivity.
Qed.

(** A context that exists: [get_or_create_tenant] returns it and stamps
    its last activity. *)
Lemma get_or_create_existing tenant_id l c env w :
  Dict.get tenant_id (tenants w) = Some l ->
  contexts_store w !! l = Some c ->
  MultitenantManager.get_or_create_tenant tenant_id env w
  = mkOut (Ret l)
      (set_contexts_store
         (<[l := TenantContext.set_last_activity (now env) c]> (contexts_store w)) w)
      [].
Proof.
  intros Hget Hc. unfold MultitenantManager.get_or_create_tenant.
  rewrite (bind_Ret _ _ env w (Some l) w []) by (unfold gets; rewrite Hget; reflexivity).
  rewrite (bind_Ret _ _ _ _ _ _ _ (update_activity_run l c env w Hc)).
  reflexivity.
Qed.

(** No context yet: [get_or_create_tenant] builds one from the registry's
    configuration. *)
Lemma get_or_create_new tenant_id config env w :
  Dict.get tenant_id (tenants w) = None ->
  Registry.get_tenant (registry w) tenant_id = Some config ->
  MultitenantManager.get_or_create_tenant tenant_id env w
  = mkOut (Ret (List.length (contexts_store w)))
      (set_tenants
         (Dict.set tenant_id (List.length (contexts_store w)) (tenants w))
         (set_contexts_store
            (contexts_store w
             ++ [TenantContext.mk tenant_id config Dict.empty [] "{}"
                   (now env) (now env)]) w))
      [Log INFO ("Contexto de tenant creado: " ++ tenant_id)].
Proof.
  intros Hget Hreg. unfold MultitenantManager.get_or_create_tenant.
  rewrite (bind_Ret _ _ env w None w []) by (unfold gets; rewrite Hget; reflexivity).
  cbn [res st eff].
  rewrite (bind_Ret _ _ env w (Some config) w []) by (unfold gets; rewrite Hreg; reflexivity).
  reflexivity.
Qed.

(** X8.  Getting or creating a context.  In a consistent state
    [get_or_create_tenant] raises [TenantNotFoundError] exactly when the
    tenant has no context and the registry does not know it (a tenant that
    has a context keeps it when a reload removes its configuration);
    otherwise it returns the context, which [get_tenant] then finds, and a
    second call returns the same object and creates none. *)
Theorem X8_get_or_create_tenant_idempotent env env' w tenant_id :
  Inv w ->
  let out := MultitenantManager.get_or_create_tenant tenant_id env w in
  ((exists msg, res out = Raise (Exn TenantNotFoundError msg))
   <-> Dict.get tenant_id (tenants w) = None
       /\ Registry.get_tenant (registry w) tenant_id = None)
  /\ ((exists l, res out = Ret l)
      <-> Dict.get tenant_id (tenants w) <> None
          \/ Registry.get_tenant (registry w) tenant_id <> None)
  /\ forall l, res out = Ret l ->
       MultitenantManager.get_tenant tenant_id env' (st out)
         = mkOut (Ret (Some l)) (st out) []
       /\ res (MultitenantManager.get_or_create_tenant tenant_id env' (st out))
          = Ret l
       /\ List.length
            (contexts_store
               (st (MultitenantManager.get_or_create_tenant tenant_id env' (st out))))
          = List.length (contexts_store (st out)).
Proof.
  intros (_ & _ & _ & Hn & _). cbv zeta.
  destruct (Dict.get tenant_id (tenants w)) as [l0|] eqn:Hget.
  - destruct (Hn _ _ (dict_get_In _ _ _ Hget)) as (c & Hc & _).
    rewrite (get_or_create_existing _ _ _ env w Hget Hc). cbn [res st].
    split; [split; [intros [msg [=]]|intros [[=] _]]|].
    split; [split; [intros _; left; discriminate|intros _; eauto]|].
    intros l [= <-].
    set (w1 := set_contexts_store _ w).
    assert (Hget1 : Dict.get tenant_id (tenants w1) = Some l0) by exact Hget.
    assert (Hc1 : contexts_store w1 !! l0
                  = Some (TenantContext.set_last_activity (now env) c)).
    { unfold w1. cbn. apply list_lookup_insert_eq. eapply lookup_lt_Some; eauto. }
    split; [unfold MultitenantManager.get_tenant, gets; rewrite Hget1; reflexivity|].
    rewrite (get_or_create_existing _ _ _ env' w1 Hget1 Hc1). cbn [res st].
    split; [reflexivity|]. cbn. rewrite !length_insert. reflexivity.
  - destruct (Registry.get_tenant (registry w) tenant_id) as [config|] eqn:Hreg.
    + rewrite (get_or_create_new _ _ env w Hget Hreg). cbn [res st].
      split; [split; [intros [msg [=]]|intros [_ [=]]]|].
      split; [split; [intros _; right; discriminate|intros _; eauto]|].
      intros l [= <-].
      set (c := TenantContext.mk _ _ _ _ _ _ _).
      set (w1 := set_tenants _ _).
      assert (Hget1 : Dict.get tenant_id (tenants w1)
                      = Some (List.length (contexts_store w)))
        by (unfold w1; cbn; apply dict_get_set_eq).
      assert (Hc1 : contexts_store w1 !! List.length (contexts_store w) = Some c).
      { unfold w1. cbn. rewrite lookup_app_r by lia. by rewrite Nat.sub_diag. }
      split; [unfold MultitenantManager.get_tenant, gets; rewrite Hget1; reflexivity|].
      rewrite (get_or_create_existing _ _ _ env' w1 Hget1 Hc1). cbn [res st].
      split; [reflexivity|]. cbn. rewrite !length_insert. reflexivity.
    + unfold MultitenantManager.get_or_create_tenant.
      rewrite (bind_Ret _ _ env w None w []) by (unfold gets; rewrite Hget; reflexivity).
      cbn [res st eff].
      rewrite (bind_Ret _ _ env w None w []) by (unfold gets; rewrite Hreg; reflexivity).
      cbn. split; [split; [auto|eauto]|].
      split; [split; [intros [l [=]]|intros [H|H]; congruence]|].
      intros l [=].
Qed.

(** * Starting a server *)

(** [_notify_observers] changes nothing and either returns or raises the
    [AttributeError] of its handler. *)
Lemma notify_one_out observer event data env w :
  let out :=
    try_except (Orchestrator.call_observer observer event data)
      (fun e => Some (
         name <- Orchestrator.getattr_name observer ;;
         log ERROR ("Error en observador " ++ name ++ ": " ++ str e))) env w in
  st out = w
  /\ (res out = Ret tt
      \/ res out = Raise (Exn AttributeError "object has no attribute '__name__'")).
Proof.
  cbv zeta. unfold try_except, Orchestrator.call_observer, Orchestrator.getattr_name.
  destruct (__call__ observer event data) as [e|]; cbn; [|auto].
  destruct (__name__ observer) as [n|]; cbn; auto.
Qed.

Lemma notify_loop_out observers event data env w :
  let out :=
    for_each observers (fun observer =>
      try_except (Orchestrator.call_observer observer event data)
        (fun e => Some (
           name <- Orchestrator.getattr_name observer ;;
           log ERROR ("Error en observador " ++ name ++ ": " ++ str e)))) env w in
  st out = w
  /\ (res out = Ret tt
      \/ res out = Raise (Exn AttributeError "object has no attribute '__name__'")).
Proof.
  cbv zeta. induction observers as [|o observers IH]; cbn [for_each].
  - cbn. auto.
  - rewrite bind_run.
    destruct (notify_one_out o event data env w) as [Hst [Hres|Hres]];
      rewrite Hres; cbn [res st]; rewrite ?Hst; auto.
Qed.

Lemma notify_out event data env w :
  let out := Orchestrator._notify_observers event data env w in
  st out = w
  /\ (res out = Ret tt
      \/ res out = Raise (Exn AttributeError "object has no attribute '__name__'")).
Proof.
  cbv zeta. unfold Orchestrator._notify_observers.
  rewrite (bind_Ret _ _ env w (_observers w) w [] eq_refl). cbn [res st].
  apply notify_loop_out.
Qed.

Lemma running_record_some server_id l m env w :
  Dict.get server_id (managed_servers w) = Some l ->
  servers_store w !! l = Some m ->
  Orchestrator.running_record server_id env w
  = mkOut (Ret (if ManagedServer.is_running m then Some l else None)) w [].
Proof.
  intros H Hm. unfold Orchestrator.running_record, bind, gets, deref_server.
  rewrite H. cbn. rewrite Hm. reflexivity.
Qed.

Lemma get_server_client_run server_id l m env w :
  Dict.get server_id (managed_servers w) = Some l ->
  servers_store w !! l = Some m ->
  Orchestrator.get_server_client server_id env w
  = mkOut (Ret (if ManagedServer.is_running m then ManagedServer.client m else None))
          w [].
Proof.
  intros H Hm. unfold Orchestrator.get_server_client, bind, gets, deref_server.
  rewrite H. cbn. rewrite Hm. cbn. destruct (ManagedServer.is_running m); reflexivity.
Qed.

(** * Starting a server: after the awaits *)

(** [connect] and [initialize], one after the other. *)
Lemma connect_and_initialize_run client env w :
  exists t,
    Orchestrator.connect_and_initialize client env w
    = mkOut (match connect env client with
             | Some e => Raise e
             | None => match initialize env client with
                       | Some e => Raise e
                       | None => Ret tt
                       end
             end) w t.
Proof.
  unfold Orchestrator.connect_and_initialize, bind, await_client.
  destruct (connect env client); [eauto|].
  destruct (initialize env client); eauto.
Qed.

(** The rest of [start_server] when its awaits have returned. *)
Lemma start_server_resume_connected server_id managed client awaited env w ta :
  awaited env w = mkOut (Ret tt) w ta ->
  let out := Orchestrator.start_server_resume server_id managed client awaited env w in
  match servers_store w !! managed with
  | Some m =>
      st out
      = set_servers_store
          (<[managed := started_record (now env) client m]> (servers_store w)) w
      /\ (res out = Ret managed
          \/ res out = Raise (Exn AttributeError "object has no attribute '__name__'"))
  | None => res out = Stuck
  end.
Proof.
  intros Ha. cbv zeta. unfold Orchestrator.start_server_resume.
  rewrite try_except_run.
  rewrite (bind_Ret _ _ _ _ _ _ _ Ha). cbn [res st eff].
  rewrite (bind_Ret _ _ env w env w [] eq_refl). cbn [res st eff].
  destruct (servers_store w !! managed) as [m|] eqn:Hm.
  - match goal with
    | |- context [update_server managed ?f] =>
        rewrite (bind_Ret _ _ env w tt
                   (set_servers_store (<[managed := f m]> (servers_store w)) w) [])
          by (unfold update_server; rewrite Hm; reflexivity)
    end.
    cbn [res st eff].
    set (w1 := set_servers_store _ w).
    rewrite (bind_Ret _ _ env w1 tt w1
               [Log INFO ("Servidor iniciado exitosamente: " ++ server_id)] eq_refl).
    cbn [res st eff]. rewrite bind_run.
    destruct (notify_out "server_started" (mkEventData server_id None) env w1)
      as [Hst [Hres|Hres]]; rewrite Hres; cbn [res st eff ret]; rewrite ?Hst.
    + cbn. split; [reflexivity|left; reflexivity].
    + cbn. split; [reflexivity|right; reflexivity].
  - rewrite bind_run. unfold update_server at 1 2 3. rewrite Hm. reflexivity.
Qed.

(** The rest of [start_server] when one of its awaits has raised: it does
    not return. *)
Lemma start_server_resume_failed server_id managed client awaited env w ta e :
  awaited env w = mkOut (Raise e) w ta ->
  forall l,
    res (Orchestrator.start_server_resume server_id managed client awaited env w)
    <> Ret l.
Proof.
  intros Ha l. unfold Orchestrator.start_server_resume.
  rewrite try_except_run.
  rewrite (bind_Raise _ _ _ _ _ _ _ Ha). cbn [res st eff].
  destruct (_ || _); cbn [res]; [|discriminate].
  rewrite bind_run.
  destruct (res (update_server managed _ env w)); cbn [res]; [|discriminate..].
  rewrite bind_run. cbn [res st eff log emit].
  rewrite bind_run.
  match goal with
  | |- context [res (Orchestrator._notify_observers ?ev ?d env ?w2)] =>
      destruct (res (Orchestrator._notify_observers ev d env w2))
  end; cbn; discriminate.
Qed.

(** X9.  A start that returns.  The rest of [start_server] after its
    awaits, in whatever state [w] the other coroutines have left (the
    awaits themselves read and write nothing of the state): when it
    returns, [connect] and [initialize] have returned, the record it
    returns is the one the call created, that record is now [RUNNING] with
    the new client, the time of the start and no last error, and nothing
    else has changed.  [get_server_client] returns the new client if the id
    is still filed to this record; when another start of the same id has
    filed a record of its own meanwhile, the record under the id is as that
    start left it. *)
Theorem X9_start_server_returns_running env env' w server_id managed client l :
  res (Orchestrator.start_server_resume server_id managed client
         (Orchestrator.connect_and_initialize client) env w) = Ret l ->
  let w' :=
    st (Orchestrator.start_server_resume server_id managed client
          (Orchestrator.connect_and_initialize client) env w) in
  l = managed
  /\ connect env client = None
  /\ initialize env client = None
  /\ (exists m,
        servers_store w !! managed = Some m
        /\ w' = set_servers_store
                  (<[managed := started_record (now env) client m]>
                     (servers_store w)) w)
  /\ (Dict.get server_id (managed_servers w) = Some managed ->
      Orchestrator.get_server_client server_id env' w'
      = mkOut (Ret (Some client)) w' [])
  /\ (forall l',
        Dict.get server_id (managed_servers w) = Some l' -> l' <> managed ->
        managed_record w' server_id = managed_record w server_id).
Proof.
  intros Hres. cbv zeta.
  destruct (connect_and_initialize_run client env w) as (ta & Ha).
  destruct (connect env client) as [e|] eqn:Ec.
  { exfalso. exact (start_server_resume_failed _ _ _ _ _ _ _ _ Ha l Hres). }
  destruct (initialize env client) as [e|] eqn:Ei.
  { exfalso. exact (start_server_resume_failed _ _ _ _ _ _ _ _ Ha l Hres). }
  pose proof (start_server_resume_connected server_id managed client _ env w ta Ha)
    as Hrun.
  cbv zeta in Hrun.
  destruct (servers_store w !! managed) as [m|] eqn:Hm;
    [|rewrite Hrun in Hres; discriminate].
  destruct Hrun as [Hst [Hret|Hraise]]; [|rewrite Hraise in Hres; discriminate].
  rewrite Hret in Hres. injection Hres as <-.
  rewrite Hst.
  assert (Hlt : (managed < List.length (servers_store w))%nat)
    by (eapply lookup_lt_Some; eauto).
  split; [reflexivity|]. split; [reflexivity|]. split; [reflexivity|].
  split; [exists m; split; reflexivity|]. split.
  - intros Hget.
    rewrite (get_server_client_run server_id managed
               (started_record (now env) client m)).
    + reflexivity.
    + exact Hget.
    + cbn. apply list_lookup_insert_eq. exact Hlt.
  - intros l' Hget Hne. unfold managed_record. cbn. rewrite Hget.
    apply list_lookup_insert_ne. congruence.
Qed.

(** The rest of [start_server] when an await has raised and the listeners
    are named. *)
Lemma start_server_resume_raise server_id managed client awaited env w ta e m :
  awaited env w = mkOut (Raise e) w ta ->
  servers_store w !! managed = Some m ->
  Forall named (_observers w) ->
  exists t,
    Orchestrator.start_server_resume server_id managed client awaited env w
    = mkOut (Raise e)
        (if isinstance e MCPConnectionError || isinstance e MCPInitializationError
         then set_servers_store
                (<[managed := failed_record (str e) m]> (servers_store w)) w
         else w) t.
Proof.
  intros Ha Hm Hnamed. unfold Orchestrator.start_server_resume.
  rewrite try_except_run.
  rewrite (bind_Raise _ _ _ _ _ _ _ Ha). cbn [res st eff].
  destruct (_ || _); [|eauto].
  set (w1 := set_servers_store
               (<[managed := failed_record (str e) m]> (servers_store w)) w).
  rewrite (bind_Ret _ _ env w tt w1 [])
    by (unfold update_server; rewrite Hm; reflexivity).
  cbn [res st eff].
  rewrite (bind_Ret _ _ env w1 tt w1
             [Log ERROR ("Fallo al iniciar servidor " ++ server_id ++ ": " ++ str e)]
             eq_refl).
  cbn [res st eff].
  destruct (notify_named "server_failed" (mkEventData server_id (Some (str e))) env w1)
    as (tn & En & _); [exact Hnamed|].
  rewrite (bind_Ret _ _ _ _ _ _ _ En). cbn. eauto.
Qed.

(** X10.  Failure to connect.  The rest of [start_server] after its
    awaits, in whatever state [w] the other coroutines have left, with
    listeners that all have a [__name__]: when [connect], or after it
    [initialize], of the new client has raised [e], [start_server] raises
    [e].  If [e] is an [MCPConnectionError] or an [MCPInitializationError]
    the record the call created is set to [CRASHED] with [str e] as its
    last error, and nothing else changes; if [e] is of any other class
    nothing changes at all, the record staying as it was.
    [get_server_client] then returns [None] for the id if the id is still
    filed to this record (and, in the second case, the record is not
    [RUNNING]). *)
Theorem X10_start_server_connect_failure env env' w server_id managed client m e :
  servers_store w !! managed = Some m ->
  Forall named (_observers w) ->
  connect env client = Some e
  \/ (connect env client = None /\ initialize env client = Some e) ->
  let out :=
    Orchestrator.start_server_resume server_id managed client
      (Orchestrator.connect_and_initialize client) env w in
  let handled :=
    isinstance e MCPConnectionError || isinstance e MCPInitializationError in
  res out = Raise e
  /\ st out
     = (if handled
        then set_servers_store
               (<[managed := failed_record (str e) m]> (servers_store w)) w
        else w)
  /\ (Dict.get server_id (managed_servers w) = Some managed ->
      handled = true \/ ManagedServer.state m <> RUNNING ->
      Orchestrator.get_server_client server_id env' (st out)
      = mkOut (Ret None) (st out) []).
Proof.
  intros Hm Hnamed Hfail. cbv zeta.
  destruct (connect_and_initialize_run client env w) as (ta & Ha).
  assert (Ha' : Orchestrator.connect_and_initialize client env w
                = mkOut (Raise e) w ta).
  { rewrite Ha. destruct Hfail as [->|[-> ->]]; reflexivity. }
  destruct (start_server_resume_raise server_id managed client _ env w ta e m
              Ha' Hm Hnamed) as (t & E).
  rewrite E. cbn [res st]. split; [reflexivity|]. split; [reflexivity|].
  intros Hget Hcase.
  assert (Hlt : (managed < List.length (servers_store w))%nat)
    by (eapply lookup_lt_Some; eauto).
  destruct (isinstance e MCPConnectionError || isinstance e MCPInitializationError).
  - rewrite (get_server_client_run server_id managed (failed_record (str e) m)).
    + reflexivity.
    + exact Hget.
    + cbn. apply list_lookup_insert_eq. exact Hlt.
  - destruct Hcase as [Hc|Hc]; [discriminate|].
    rewrite (get_server_client_run server_id managed m _ _ Hget Hm).
    destruct (ManagedServer.is_running m) eqn:Hr; [|reflexivity].
    apply is_running_true in Hr. contradiction.
Qed.

(** * Stopping servers *)

Lemma stopped_record_stopped env m :
  ManagedServer.is_stopped (stopped_record env m) = true.
Proof.
  unfold stopped_record.
  destruct (ManagedServer.client m) as [c|]; [destruct (disconnect env c)|]; reflexivity.
Qed.

Lemma stopped_record_id env m :
  ManagedServer.server_id (stopped_record env m) = ManagedServer.server_id m.
Proof.
  unfold stopped_record.
  destruct (ManagedServer.client m) as [c|]; [destruct (disconnect env c)|]; reflexivity.
Qed.

(** [stop_server] on a managed record that is not stopped, with named
    listeners. *)
Lemma stop_server_run server_id l m env w :
  Dict.get server_id (managed_servers w) = Some l ->
  servers_store w !! l = Some m ->
  ManagedServer.is_stopped m = false ->
  Forall named (_observers w) ->
  exists t,
    Orchestrator.stop_server server_id env w
    = mkOut (Ret tt)
        (set_servers_store (<[l := stopped_record env m]> (servers_store w)) w) t.
Proof.
  intros Hget Hm Hns Hnamed.
  assert (Hlt : (l < List.length (servers_store w))%nat) by (eapply lookup_lt_Some; eauto).
  set (m1 := ManagedServer.set_state STOPPING m).
  set (w1 := set_servers_store (<[l := m1]> (servers_store w)) w).
  assert (Hm1 : servers_store w1 !! l = Some m1)
    by (unfold w1; cbn; apply list_lookup_insert_eq; exact Hlt).
  assert (Henter : exists t,
            Orchestrator.stop_server_enter server_id env w
            = mkOut (Ret (Some (l, ManagedServer.client m))) w1 t).
  { unfold Orchestrator.stop_server_enter.
    rewrite (bind_Ret _ _ env w (Some l) w []) by (unfold gets; rewrite Hget; reflexivity).
    cbn [res st eff].
    rewrite (bind_Ret _ _ env w m w []) by (unfold deref_server; rewrite Hm; reflexivity).
    cbn [res st eff]. rewrite Hns.
    rewrite (bind_Ret _ _ env w tt w [Log INFO ("Deteniendo servidor: " ++ server_id)] eq_refl).
    cbn [res st eff].
    rewrite (bind_Ret _ _ env w tt w1 [])
      by (unfold update_server; rewrite Hm; reflexivity).
    cbn [res st eff].
    destruct (notify_named "server_stopping" (mkEventData server_id None) env w1)
      as (t & E & _); [exact Hnamed|].
    rewrite (bind_Ret _ _ _ _ _ _ _ E). cbn [res st eff].
    rewrite (bind_Ret _ _ env w1 m1 w1 []) by (unfold deref_server; rewrite Hm1; reflexivity).
    cbn. eauto. }
  destruct Henter as (t0 & Henter).
  unfold Orchestrator.stop_server. rewrite (bind_Ret _ _ _ _ _ _ _ Henter).
  unfold Orchestrator.stop_server_resume. rewrite try_except_run.
  assert (Hfinish : forall (w2 : World) m2,
            servers_store w2 !! l = Some m2 ->
            Forall named (_observers w2) ->
            exists t,
              (update_server l (fun m =>
                 ManagedServer.set_started_at None (ManagedServer.set_state STOPPED m)) ;;
               log INFO ("Servidor detenido exitosamente: " ++ server_id) ;;
               Orchestrator._notify_observers "server_stopped"
                 (mkEventData server_id None)) env w2
              = mkOut (Ret tt)
                  (set_servers_store
                     (<[l := ManagedServer.set_started_at None
                               (ManagedServer.set_state STOPPED m2)]>
                        (servers_store w2)) w2) t).
  { intros w2 m2 Hm2 Hn2.
    rewrite (bind_Ret _ _ env w2 tt _ [])
      by (unfold update_server; rewrite Hm2; reflexivity).
    cbn [res st eff].
    set (w3 := set_servers_store _ w2).
    rewrite (bind_Ret _ _ env w3 tt w3
               [Log INFO ("Servidor detenido exitosamente: " ++ server_id)] eq_refl).
    cbn [res st eff].
    destruct (notify_named "server_stopped" (mkEventData server_id None) env w3)
      as (t & E & _); [exact Hn2|].
    rewrite E. cbn. eauto. }
  unfold stopped_record.
  destruct (ManagedServer.client m) as [c|] eqn:Ec.
  - destruct (disconnect env c) as [e|] eqn:Ed.
    + (* disconnect raises *)
      rewrite (bind_Raise _ _ env w1 e w1 [ClientCall c Disconnect]).
      2:{ apply bind_Raise. unfold await_client. rewrite Ed. reflexivity. }
      cbn [res st eff].
      rewrite (bind_Ret _ _ env w1 tt w1
                 [Log ERROR ("Error deteniendo servidor " ++ server_id ++ ": " ++ str e)]
                 eq_refl).
      cbn [res st eff]. unfold update_server. rewrite Hm1. cbn.
      eexists. f_equal. unfold w1. cbn. rewrite list_insert_insert_eq.
      destruct m; reflexivity.
    + set (m2 := ManagedServer.set_client None m1).
      set (w2 := set_servers_store (<[l := m2]> (servers_store w1)) w1).
      assert (Hm2 : servers_store w2 !! l = Some m2).
      { unfold w2. cbn [servers_store set_servers_store].
        apply list_lookup_insert_eq. unfold w1. cbn. rewrite length_insert. exact Hlt. }
      destruct (Hfinish w2 m2 Hm2 Hnamed) as (t & Ef).
      rewrite (bind_Ret _ _ env w1 tt w2 [ClientCall c Disconnect]).
      2:{ rewrite (bind_Ret _ _ env w1 tt w1 [ClientCall c Disconnect])
            by (unfold await_client; rewrite Ed; reflexivity).
          unfold update_server. rewrite Hm1. reflexivity. }
      rewrite Ef. cbn.
      eexists. f_equal. unfold w2, w1. cbn. rewrite !list_insert_insert_eq.
      destruct m; reflexivity.
  - destruct (Hfinish w1 m1 Hm1 Hnamed) as (t & Ef).
    rewrite (bind_Ret _ _ env w1 tt w1 [] eq_refl). rewrite Ef. cbn.
    eexists. f_equal. unfold w1. cbn. rewrite !list_insert_insert_eq.
    destruct m; reflexivity.
Qed.

Lemma stop_server_unmanaged server_id env w :
  Dict.get server_id (managed_servers w) = None ->
  Orchestrator.stop_server server_id env w
  = mkOut (Ret tt) w [Log WARNING ("Servidor no gestionado: " ++ server_id)].
Proof.
  intros H. unfold Orchestrator.stop_server, Orchestrator.stop_server_enter.
  unfold bind, gets. rewrite H. reflexivity.
Qed.

Lemma stop_server_stopped server_id l m env w :
  Dict.get server_id (managed_servers w) = Some l ->
  servers_store w !! l = Some m ->
  ManagedServer.is_stopped m = true ->
  Orchestrator.stop_server server_id env w
  = mkOut (Ret tt) w [Log WARNING ("Servidor ya detenido: " ++ server_id)].
Proof.
  intros H Hm Hs. unfold Orchestrator.stop_server, Orchestrator.stop_server_enter.
  unfold bind, gets, deref_server. rewrite H. cbn. rewrite Hm. cbn. rewrite Hs. reflexivity.
Qed.

(** [stop_server] with named listeners, in a consistent state. *)
Lemma stop_server_after server_id env w :
  Inv w -> Forall named (_observers w) ->
  exists t,
    Orchestrator.stop_server server_id env w
    = mkOut (Ret tt) (after_stop env server_id w) t.
Proof.
  intros HI Hnamed. unfold after_stop.
  destruct (Dict.get server_id (managed_servers w)) as [l|] eqn:Hget.
  - destruct (managed_record_valid w server_id l HI Hget) as (m & Hm & Hrec & _).
    rewrite Hm. destruct (ManagedServer.is_stopped m) eqn:Hs.
    + rewrite (stop_server_stopped _ _ _ env w Hget Hm Hs). eauto.
    + apply stop_server_run; auto.
  - rewrite (stop_server_unmanaged _ env w Hget). eauto.
Qed.

Lemma after_stop_frame env server_id w :
  managed_servers (after_stop env server_id w) = managed_servers w
  /\ _observers (after_stop env server_id w) = _observers w
  /\ List.length (servers_store (after_stop env server_id w))
     = List.length (servers_store w).
Proof.
  unfold after_stop.
  destruct (Dict.get server_id (managed_servers w)) as [l|]; [|auto].
  destruct (servers_store w !! l) as [m|]; [|auto].
  destruct (ManagedServer.is_stopped m); [auto|].
  cbn. rewrite length_insert. auto.
Qed.

(** The record of [server_id] after [stop_server]; the other records. *)
Lemma after_stop_record env server_id w :
  Inv w ->
  (forall m, managed_record w server_id = Some m ->
     managed_record (after_stop env server_id w) server_id
     = Some (if ManagedServer.is_stopped m then m else stopped_record env m))
  /\ (forall server_id', server_id' <> server_id ->
        managed_record (after_stop env server_id w) server_id'
        = managed_record w server_id').
Proof.
  intros HI. unfold after_stop.
  destruct (Dict.get server_id (managed_servers w)) as [l|] eqn:Hget.
  2:{ unfold managed_record at 1. rewrite Hget. split; [discriminate|reflexivity]. }
  destruct (managed_record_valid w server_id l HI Hget) as (m & Hm & Hrec & _ & Hid).
  rewrite Hrec, Hm.
  destruct (ManagedServer.is_stopped m) eqn:Hs.
  - split; [|reflexivity]. intros m' [= <-]. rewrite Hs. exact Hrec.
  - split.
    + intros m' [= <-]. rewrite Hs. unfold managed_record. cbn. rewrite Hget.
      apply list_lookup_insert_eq. eapply lookup_lt_Some; eauto.
    + intros sid' Hne. unfold managed_record. cbn.
      destruct (Dict.get sid' (managed_servers w)) as [l'|] eqn:Hget'; [|reflexivity].
      destruct (managed_record_valid w sid' l' HI Hget') as (m' & Hm' & _ & _ & Hid').
      apply list_lookup_insert_ne. intros ->. congruence.
Qed.

(** * Stopping a server: after the await *)

(** The end of [stop_server]: the record is marked, the listeners are
    told; if a listener makes the notification raise, the handler of
    [stop_server] marks the record [CRASHED]. *)
Lemma stop_server_finish server_id managed env w m :
  servers_store w !! managed = Some m ->
  let out :=
    try_except
      (update_server managed (fun m =>
         ManagedServer.set_started_at None (ManagedServer.set_state STOPPED m)) ;;
       log INFO ("Servidor detenido exitosamente: " ++ server_id) ;;
       Orchestrator._notify_observers "server_stopped" (mkEventData server_id None))
      (fun e => Some (
         log ERROR ("Error deteniendo servidor " ++ server_id ++ ": " ++ str e) ;;
         update_server managed (fun m =>
           ManagedServer.set_last_error (Some (str e))
             (ManagedServer.set_state CRASHED m)))) env w in
  res out = Ret tt
  /\ exists m',
       st out = set_servers_store (<[managed := m']> (servers_store w)) w
       /\ ManagedServer.is_stopped m' = true
       /\ (Forall named (_observers w) ->
           m' = ManagedServer.set_started_at None (ManagedServer.set_state STOPPED m)).
Proof.
  intros Hm. cbv zeta.
  assert (Hlt : (managed < List.length (servers_store w))%nat)
    by (eapply lookup_lt_Some; eauto).
  set (m1 := ManagedServer.set_started_at None (ManagedServer.set_state STOPPED m)).
  set (w1 := set_servers_store (<[managed := m1]> (servers_store w)) w).
  assert (Hm1 : servers_store w1 !! managed = Some m1)
    by (unfold w1; cbn; apply list_lookup_insert_eq; exact Hlt).
  rewrite try_except_run.
  rewrite (bind_Ret _ _ env w tt w1 [])
    by (unfold update_server; rewrite Hm; reflexivity).
  cbn [res st eff].
  rewrite (bind_Ret _ _ env w1 tt w1
             [Log INFO ("Servidor detenido exitosamente: " ++ server_id)] eq_refl).
  cbn [res st eff].
  destruct (notify_out "server_stopped" (mkEventData server_id None) env w1)
    as [Hst [Hres|Hres]]; rewrite Hres; cbn [res st eff]; rewrite Hst.
  - split; [reflexivity|]. exists m1. split; [reflexivity|].
    split; [reflexivity|]. reflexivity.
  - match goal with
    | |- context [bind (log ERROR ?msg) _ env w1] =>
        rewrite (bind_Ret _ _ env w1 tt w1 [Log ERROR msg] eq_refl)
    end.
    cbn [res st eff]. unfold update_server. rewrite Hm1. cbn [res st].
    split; [reflexivity|]. eexists. split.
    + unfold w1. cbn. rewrite list_insert_insert_eq. reflexivity.
    + split; [reflexivity|].
      intros Hnamed. exfalso.
      destruct (notify_named "server_stopped" (mkEventData server_id None) env w1)
        as (t & E & _); [exact Hnamed|].
      rewrite E in Hres. discriminate.
Qed.

(** X11.  Stopping a server.  The rest of [stop_server] after its await,
    in whatever state [w] the other coroutines have left, [client] being
    the client the record held when [stop_server] began: it returns normally
    whatever [disconnect] and the listeners do; it changes nothing but the
    record it began with, which ends [STOPPED] or [CRASHED]: [CRASHED] with
    the error when [disconnect] raised, and, with listeners that all have a
    [__name__], [STOPPED] without start time, and without client if it had
    one, otherwise.  [get_server_client] then returns [None] for the id if
    the id is still filed to this record. *)
Theorem X11_stop_server_after_disconnect env env' w server_id managed client m :
  servers_store w !! managed = Some m ->
  let out :=
    Orchestrator.stop_server_resume server_id managed client
      (match client with
       | Some c => await_client c Disconnect disconnect
       | None => ret tt
       end) env w in
  res out = Ret tt
  /\ (exists m',
        st out = set_servers_store (<[managed := m']> (servers_store w)) w
        /\ ManagedServer.is_stopped m' = true
        /\ (forall c e,
              client = Some c -> disconnect env c = Some e ->
              m' = failed_record (str e) m)
        /\ ((forall c, client = Some c -> disconnect env c = None) ->
            Forall named (_observers w) ->
            m' = halted_record client m))
  /\ (Dict.get server_id (managed_servers w) = Some managed ->
      Orchestrator.get_server_client server_id env' (st out)
      = mkOut (Ret None) (st out) []).
Proof.
  intros Hm. cbv zeta.
  assert (Hlt : (managed < List.length (servers_store w))%nat)
    by (eapply lookup_lt_Some; eauto).
  assert (Hmain :
    exists m' t,
      Orchestrator.stop_server_resume server_id managed client
        (match client with
         | Some c => await_client c Disconnect disconnect
         | None => ret tt
         end) env w
      = mkOut (Ret tt) (set_servers_store (<[managed := m']> (servers_store w)) w) t
      /\ ManagedServer.is_stopped m' = true
      /\ (forall c e,
            client = Some c -> disconnect env c = Some e ->
            m' = failed_record (str e) m)
      /\ ((forall c, client = Some c -> disconnect env c = None) ->
          Forall named (_observers w) ->
          m' = halted_record client m)).
  { unfold Orchestrator.stop_server_resume.
    destruct client as [c|].
    - destruct (disconnect env c) as [e|] eqn:Ed.
      + (* disconnect raises *)
        rewrite try_except_run.
        rewrite (bind_Raise _ _ env w e w [ClientCall c Disconnect]).
        2:{ apply bind_Raise. unfold await_client. rewrite Ed. reflexivity. }
        cbn [res st eff].
        rewrite (bind_Ret _ _ env w tt w
                   [Log ERROR ("Error deteniendo servidor " ++ server_id ++ ": "
                               ++ str e)] eq_refl).
        cbn [res st eff]. unfold update_server. rewrite Hm. cbn [res st eff].
        eexists _, _. split; [reflexivity|]. split; [reflexivity|]. split.
        * intros c' e' [= <-] He'. rewrite Ed in He'. injection He' as <-.
          reflexivity.
        * intros Hnone. specialize (Hnone c eq_refl). congruence.
      + set (m2 := ManagedServer.set_client None m).
        set (w2 := set_servers_store (<[managed := m2]> (servers_store w)) w).
        assert (Hm2 : servers_store w2 !! managed = Some m2)
          by (unfold w2; cbn; apply list_lookup_insert_eq; exact Hlt).
        destruct (stop_server_finish server_id managed env w2 m2 Hm2)
          as (Hres & m' & Hst & Hstop & Hnamed').
        cbv zeta in Hres, Hst.
        (* the two try blocks agree: the first part cannot raise *)
        assert (Hfirst :
          (await_client c Disconnect disconnect ;;
           update_server managed (ManagedServer.set_client None)) env w
          = mkOut (Ret tt) w2 [ClientCall c Disconnect]).
        { rewrite (bind_Ret _ _ env w tt w [ClientCall c Disconnect])
            by (unfold await_client; rewrite Ed; reflexivity).
          unfold update_server. rewrite Hm. reflexivity. }
        rewrite try_except_run in Hres, Hst |- *.
        rewrite (bind_Ret _ _ _ _ _ _ _ Hfirst). cbn [res st eff].
        match goal with
        | |- context
               [res (bind (update_server managed ?f) ?k env w2)] =>
            set (body := bind (update_server managed f) k env w2) in *
        end.
        destruct (res body) as [[]|e|] eqn:Hb; cbn [res st eff] in Hres, Hst |- *.
        * eexists m', _. rewrite Hst. unfold w2. cbn. rewrite list_insert_insert_eq.
          split; [reflexivity|]. split; [exact Hstop|]. split.
          -- intros c' e' [= <-] He'. congruence.
          -- intros _ Hn. apply Hnamed'. exact Hn.
        * match type of Hres with
          | context [res (?k env (st body))] =>
              destruct (k env (st body)) as [r4 w4 t4] eqn:Hk
          end.
          cbn [res st eff] in Hres, Hst |- *. subst r4.
          eexists m', _. rewrite Hst. unfold w2. cbn. rewrite list_insert_insert_eq.
          split; [reflexivity|]. split; [exact Hstop|]. split.
          -- intros c' e' [= <-] He'. congruence.
          -- intros _ Hn. apply Hnamed'. exact Hn.
        * discriminate.
    - destruct (stop_server_finish server_id managed env w m Hm)
        as (Hres & m' & Hst & Hstop & Hnamed').
      cbv zeta in Hres, Hst.
      rewrite try_except_run in Hres, Hst |- *.
      rewrite (bind_Ret _ _ env w tt w [] eq_refl). cbn [res st eff].
      match goal with
      | |- context [res (bind (update_server managed ?f) ?k env w)] =>
          set (body := bind (update_server managed f) k env w) in *
      end.
      destruct (res body) as [[]|e|] eqn:Hb; cbn [res st eff] in Hres, Hst |- *.
      * eexists m', _. rewrite Hst.
        split; [reflexivity|]. split; [exact Hstop|]. split.
        -- intros c' e' [=].
        -- intros _ Hn. apply Hnamed'. exact Hn.
      * match type of Hres with
        | context [res (?k env (st body))] =>
            destruct (k env (st body)) as [r4 w4 t4] eqn:Hk
        end.
        cbn [res st eff] in Hres, Hst |- *. subst r4.
        eexists m', _. rewrite Hst.
        split; [reflexivity|]. split; [exact Hstop|]. split.
        -- intros c' e' [=].
        -- intros _ Hn. apply Hnamed'. exact Hn.
      * discriminate. }
  destruct Hmain as (m' & t & E & Hstop & Hfail & Hok).
  rewrite E. cbn [res st]. split; [reflexivity|]. split.
  - exists m'. auto.
  - intros Hget.
    rewrite (get_server_client_run server_id managed m').
    + destruct (ManagedServer.is_running m') eqn:Hr; [|reflexivity].
      apply is_running_true in Hr. apply is_stopped_true in Hstop.
      destruct Hstop; congruence.
    + exact Hget.
    + cbn. apply list_lookup_insert_eq. exact Hlt.
Qed.

Lemma Inv_after_stop env server_id w :
  Inv w -> Forall named (_observers w) -> Inv (after_stop env server_id w).
Proof.
  intros HI Hnamed.
  destruct (stop_server_after server_id env w HI Hnamed) as (t & E).
  apply Inv_InvK in HI.
  pose proof (preserves_run _ _ env w (preserves_stop_server _ _ server_id) HI) as H.
  rewrite E in H. apply Inv_InvK. exact H.
Qed.

(** The loop of [stop_all] and of [stop_tenant_servers]. *)
Lemma stop_loop env server_ids :
  forall w, Inv w -> Forall named (_observers w) ->
  exists t w',
    for_each server_ids Orchestrator.stop_server env w = mkOut (Ret tt) w' t
    /\ Inv w'
    /\ _observers w' = _observers w
    /\ managed_servers w' = managed_servers w
    /\ (forall server_id m,
          managed_record w' server_id = Some m ->
          ManagedServer.is_stopped m = true
          \/ (~ In server_id server_ids /\ managed_record w server_id = Some m))
    /\ (forall server_id,
          ~ In server_id server_ids ->
          managed_record w' server_id = managed_record w server_id).
Proof.
  induction server_ids as [|sid server_ids IH]; intros w HI Hnamed; cbn [for_each].
  - exists [], w. cbn. split; [reflexivity|]. split; [exact HI|].
    split; [reflexivity|]. split; [reflexivity|]. split; [|reflexivity].
    intros server_id m Hm. right. split; [intros []|exact Hm].
  - destruct (stop_server_after sid env w HI Hnamed) as (t1 & E1).
    destruct (after_stop_frame env sid w) as (Htab & Hobs & _).
    destruct (after_stop_record env sid w HI) as (Hrec & Hother).
    destruct (IH (after_stop env sid w))
      as (t2 & w' & E2 & HI' & Hobs' & Htab' & Hall & Hrest).
    { apply Inv_after_stop; auto. }
    { rewrite Hobs. exact Hnamed. }
    exists (t1 ++ t2)%list, w'. rewrite (bind_Ret _ _ _ _ _ _ _ E1), E2. cbn [res st eff].
    split; [reflexivity|]. split; [exact HI'|].
    split; [congruence|]. split; [congruence|]. split.
    2:{ intros server_id Hnin. rewrite Hrest by (intros H; apply Hnin; right; exact H).
        apply Hother. intros ->. apply Hnin. left. reflexivity. }
    intros server_id m Hm.
    destruct (Hall server_id m Hm) as [Hs|[Hnin Hm1]]; [left; exact Hs|].
    destruct (decide (server_id = sid)) as [->|Hne].
    + left.
      destruct (managed_record w sid) as [m0|] eqn:Hm0.
      * rewrite (Hrec m0 eq_refl) in Hm1. injection Hm1 as <-.
        destruct (ManagedServer.is_stopped m0) eqn:Hs; [exact Hs|].
        apply stopped_record_stopped.
      * exfalso. unfold managed_record in Hm0, Hm1. rewrite Htab in Hm1.
        destruct (Dict.get sid (managed_servers w)) as [l|] eqn:Hget; [|discriminate].
        destruct (managed_record_valid w sid l HI Hget) as (m' & Hm' & _).
        congruence.
    + right. split.
      * intros [<-|Hin]; [congruence|contradiction].
      * rewrite <- (Hother server_id Hne). exact Hm1.
Qed.

(** * Stopping servers that are already stopped *)

Lemma dict_keys_get {V} k (d : Dict.t V) :
  In k (Dict.keys d) -> exists v, Dict.get k d = Some v.
Proof.
  induction d as [|[k' v'] d IH]; cbn; [intros []|].
  intros H. destruct (String.eqb k k') eqn:E; [eauto|].
  destruct H as [->|H]; [rewrite String.eqb_refl in E; discriminate|auto].
Qed.

(** The loop of [stop_all] over servers that are stopped. *)
Lemma stop_loop_stopped env w server_ids :
  table_valid w -> all_stopped w ->
  (forall server_id, In server_id server_ids ->
                     In server_id (Dict.keys (managed_servers w))) ->
  exists t,
    for_each server_ids Orchestrator.stop_server env w = mkOut (Ret tt) w t
    /\ Forall log_line t.
Proof.
  intros (_ & Hvalid) Hall.
  induction server_ids as [|sid server_ids IH]; intros Hin; cbn [for_each].
  - exists []. split; [reflexivity|constructor].
  - destruct IH as (t & E & Ht); [intros s Hs; apply Hin; right; exact Hs|].
    destruct (dict_keys_get sid (managed_servers w) (Hin sid (or_introl eq_refl)))
      as (l & Hget).
    pose proof (Hvalid sid l (dict_get_In _ _ _ Hget)) as Hlt.
    apply lookup_lt_is_Some in Hlt. destruct Hlt as (m & Hm).
    assert (Hs : ManagedServer.is_stopped m = true).
    { apply (Hall sid). unfold managed_record. rewrite Hget. exact Hm. }
    rewrite (bind_Ret _ _ _ _ _ _ _ (stop_server_stopped sid l m env w Hget Hm Hs)).
    rewrite E. cbn [res st eff].
    eexists. split; [reflexivity|]. constructor; [exact I|exact Ht].
Qed.

(** X12.  Stopping everything when everything is stopped.  When the table
    of managed servers is a dictionary of records that are all [STOPPED] or
    [CRASHED], [stop_all] returns normally and changes nothing; it only
    writes to the log: no client is called and no listener notified, so it
    awaits nothing that suspends it. *)
Theorem X12_stop_all_already_stopped env w :
  table_valid w -> all_stopped w ->
  let out := Orchestrator.stop_all env w in
  res out = Ret tt /\ st out = w /\ Forall log_line (eff out).
Proof.
  intros Hvalid Hall. cbv zeta.
  destruct (stop_loop_stopped env w (Dict.keys (managed_servers w)) Hvalid Hall)
    as (t & E & Ht); [auto|].
  unfold Orchestrator.stop_all.
  rewrite (bind_Ret _ _ env w tt w [Log INFO "Deteniendo todos los servidores"] eq_refl).
  cbn [res st eff].
  rewrite (bind_Ret _ _ env w (Dict.keys (managed_servers w)) w [] eq_refl).
  cbn [res st eff].
  rewrite (bind_Ret _ _ _ _ _ _ _ E). cbn.
  split; [reflexivity|]. split; [reflexivity|].
  constructor; [exact I|]. apply Forall_app. split; [exact Ht|].
  repeat constructor.
Qed.

Lemma dict_In_get {V} k (v : V) d :
  NoDup (Dict.keys d) -> In (k, v) d -> Dict.get k d = Some v.
Proof.
  induction d as [|[k' v'] d IH]; cbn; [intros _ []|].
  intros Hnd [[= -> ->]|Hin].
  - rewrite String.eqb_refl. reflexivity.
  - apply NoDup_cons in Hnd as [Hnin Hnd].
    destruct (String.eqb k k') eqn:E.
    + apply String.eqb_eq in E. subst k'. exfalso. apply Hnin.
      apply list_elem_of_In, in_map_iff. exists (k, v). auto.
    + auto.
Qed.

(** The ids [stop_tenant_servers] collects. *)
Lemma stop_tenant_ids tenant_id env w items acc :
  (forall server_id l, In (server_id, l) items ->
                       exists m, servers_store w !! l = Some m) ->
  exists ids,
    for_fold items acc
      (fun server_ids (item : string * nat) =>
         managed <- deref_server item.2 ;;
         ret (if String.eqb (ManagedServer.tenant_id managed) tenant_id
                 && ManagedServer.is_running managed
              then (server_ids ++ [item.1])%list else server_ids)) env w
    = mkOut (Ret (acc ++ ids)%list) w []
    /\ forall server_id,
         In server_id ids <->
         exists l m, In (server_id, l) items /\ servers_store w !! l = Some m
                     /\ ManagedServer.tenant_id m = tenant_id
                     /\ ManagedServer.state m = RUNNING.
Proof.
  revert acc. induction items as [|[sid l] items IH]; intros acc Hvalid; cbn [for_fold].
  - exists []. rewrite app_nil_r. split; [reflexivity|].
    intros server_id. split; [intros []|intros (? & ? & [] & _)].
  - destruct (Hvalid sid l (or_introl eq_refl)) as (m & Hm).
    rewrite (bind_Ret _ _ env w
               (if String.eqb (ManagedServer.tenant_id m) tenant_id
                   && ManagedServer.is_running m
                then (acc ++ [sid])%list else acc) w []).
    2:{ cbn [snd fst]. unfold bind, deref_server. rewrite Hm. reflexivity. }
    cbn [res st eff].
    destruct (IH (if String.eqb (ManagedServer.tenant_id m) tenant_id
                     && ManagedServer.is_running m
                  then (acc ++ [sid])%list else acc)) as (ids & E & Hids).
    { intros s l' Hin. apply (Hvalid s l'). right. exact Hin. }
    rewrite E.
    destruct (String.eqb (ManagedServer.tenant_id m) tenant_id
              && ManagedServer.is_running m) eqn:Ec.
    + exists (sid :: ids). rewrite <- app_assoc. split; [reflexivity|].
      apply andb_prop in Ec as [Et Er]. apply String.eqb_eq in Et.
      apply is_running_true in Er.
      intros server_id. split.
      * intros [<-|Hin].
        -- exists l, m. split; [left; reflexivity|]. auto.
        -- apply Hids in Hin as (l' & m' & Hin & H'). exists l', m'.
           split; [right; exact Hin|exact H'].
      * intros (l' & m' & [[= <- <-]|Hin] & H'); [left; reflexivity|].
        right. apply Hids. exists l', m'. auto.
    + exists ids. split; [reflexivity|].
      intros server_id. rewrite Hids. split.
      * intros (l' & m' & Hin & H'). exists l', m'. split; [right; exact Hin|exact H'].
      * intros (l' & m' & [[= <- <-]|Hin] & Hm' & Ht & Hr);
          [|exists l', m'; auto].
        exfalso. assert (m' = m) by congruence. subst m'.
        apply String.eqb_eq in Ht. apply is_running_true in Hr.
        rewrite Ht, Hr in Ec. discriminate.
Qed.

(** X13.  Stopping the servers of a tenant that has none running.  When
    the table of managed servers is a dictionary of records none of which
    is a [RUNNING] record of the tenant, the orchestrator's
    [stop_tenant_servers] stops nothing: it returns normally, changes
    nothing and writes one line to the log, without an await. *)
Theorem X13_stop_tenant_servers_none_running env w tenant_id :
  table_valid w ->
  (forall server_id l m,
     In (server_id, l) (managed_servers w) ->
     servers_store w !! l = Some m ->
     ManagedServer.tenant_id m = tenant_id ->
     ManagedServer.state m <> RUNNING) ->
  Orchestrator.stop_tenant_servers tenant_id env w
  = mkOut (Ret tt) w [Log INFO ("Deteniendo servidores del tenant: " ++ tenant_id)].
Proof.
  intros (_ & Hvalid) Hnone.
  destruct (stop_tenant_ids tenant_id env w (Dict.items (managed_servers w)) [])
    as (ids & E & Hids).
  { intros server_id l Hin. apply lookup_lt_is_Some. apply (Hvalid server_id l Hin). }
  assert (ids = []) as ->.
  { destruct ids as [|sid ids]; [reflexivity|]. exfalso.
    destruct (proj1 (Hids sid) (or_introl eq_refl)) as (l & m & Hin & Hm & Ht & Hr).
    exact (Hnone sid l m Hin Hm Ht Hr). }
  unfold Orchestrator.stop_tenant_servers.
  rewrite (bind_Ret _ _ env w tt w
             [Log INFO ("Deteniendo servidores del tenant: " ++ tenant_id)] eq_refl).
  cbn [res st eff].
  rewrite (bind_Ret _ _ env w (Dict.items (managed_servers w)) w [] eq_refl).
  cbn [res st eff].
  rewrite (bind_Ret _ _ _ _ _ _ _ E). reflexivity.
Qed.

(** * The monitoring round *)

Lemma checked_refl env w : checked env w w.
Proof. repeat split; auto. Qed.

Lemma checked_trans env w1 w2 w3 :
  checked env w1 w2 -> checked env w2 w3 -> checked env w1 w3.
Proof.
  intros (Ht1 & Hl1 & H1) (Ht2 & Hl2 & H2).
  split; [congruence|]. split; [congruence|].
  intros l m' Hm'. destruct (H2 l m' Hm') as [Hm2|(m & Hm2 & Hr & Hc & ->)].
  - apply H1, Hm2.
  - destruct (H1 l m Hm2) as [Hm1|(m0 & _ & _ & _ & ->)].
    + right. exists m. auto.
    + discriminate Hr.
Qed.

Lemma checked_valid env w w' : checked env w w' -> table_valid w -> table_valid w'.
Proof.
  intros (Ht & Hl & _) [Hnd Hv]. unfold table_valid. rewrite Ht, Hl. auto.
Qed.

(** One server of the round. *)
Lemma check_one env server_id l w :
  table_valid w ->
  In (server_id, l) (managed_servers w) ->
  exists t w',
    (managed <- deref_server l ;;
     if negb (ManagedServer.is_running managed) then ret tt
     else
       try_except
         (env <- ask ;;
          if match ManagedServer.client managed with
             | None => true
             | Some c => negb (is_connected env c)
             end
          then
            log WARNING ("Servidor desconectado: " ++ server_id) ;;
            Orchestrator._handle_server_failure server_id "Conexion perdida"
          else ret tt)
         (fun e => Some (
            log ERROR ("Error verificando servidor " ++ server_id ++ ": " ++ str e))))
      env w
    = mkOut (Ret tt) w' t
    /\ checked env w w'
    /\ forall m', servers_store w' !! l = Some m' ->
                  ManagedServer.state m' = RUNNING -> connected env m'.
Proof.
  intros [Hnd Hv] Hin.
  destruct (lookup_lt_is_Some_2 _ _ (Hv _ _ Hin)) as [m Hm].
  rewrite (bind_Ret _ _ env w m w []) by (unfold deref_server; rewrite Hm; reflexivity).
  cbn [res st eff].
  destruct (ManagedServer.is_running m) eqn:Hr; cbn [negb].
  2:{ exists [], w. split; [reflexivity|]. split; [apply checked_refl|].
      intros m' Hm' Hst. assert (m' = m) by congruence. subst m'.
      apply is_running_true in Hst. congruence. }
  apply is_running_true in Hr.
  rewrite try_except_run.
  rewrite (bind_Ret _ _ env w env w [] eq_refl). cbn [res st eff].
  destruct (match ManagedServer.client m with
            | Some c => negb (is_connected env c)
            | None => true
            end) eqn:Hcond.
  - (* disconnected *)
    assert (Hnc : ~ connected env m).
    { intros (c & Hc & Hcon). rewrite Hc, Hcon in Hcond. discriminate. }
    rewrite (bind_Ret _ _ env w tt w
               [Log WARNING ("Servidor desconectado: " ++ server_id)] eq_refl).
    cbn [res st eff].
    unfold Orchestrator._handle_server_failure.
    rewrite (bind_Ret _ _ env w (Some l) w [])
      by (unfold gets; rewrite (dict_In_get _ _ _ Hnd Hin); reflexivity).
    cbn [res st eff].
    set (w1 := set_servers_store
                 (<[l := failed_record "Conexion perdida" m]> (servers_store w)) w).
    rewrite (bind_Ret _ _ env w tt w1 [])
      by (unfold update_server; rewrite Hm; reflexivity).
    cbn [res st eff].
    assert (Hchk : checked env w w1).
    { split; [reflexivity|]. split; [unfold w1; cbn; apply length_insert|].
      intros l' m' Hm'. unfold w1 in Hm'. cbn in Hm'.
      destruct (decide (l' = l)) as [->|Hne].
      - rewrite list_lookup_insert_eq in Hm' by (eapply lookup_lt_Some; eauto).
        injection Hm' as <-. right. exists m. auto.
      - rewrite list_lookup_insert_ne in Hm' by auto. left. exact Hm'. }
    assert (Hpost : forall m', servers_store w1 !! l = Some m' ->
                      ManagedServer.state m' = RUNNING -> connected env m').
    { intros m' Hm' Hst. unfold w1 in Hm'. cbn in Hm'.
      rewrite list_lookup_insert_eq in Hm' by (eapply lookup_lt_Some; eauto).
      injection Hm' as <-. discriminate Hst. }
    destruct (notify_out "server_failed"
                (mkEventData server_id (Some "Conexion perdida")) env w1)
      as [Hst [Hres|Hres]]; rewrite Hres, ?Hst; cbn [res st eff log emit];
      eexists _, w1; (split; [reflexivity|]); split; assumption.
  - exists [], w. cbn. split; [reflexivity|]. split; [apply checked_refl|].
    intros m' Hm' _. assert (m' = m) by congruence. subst m'.
    destruct (ManagedServer.client m) as [c|] eqn:Ec; [|discriminate].
    exists c. split; [exact Ec|]. apply negb_false_iff in Hcond. exact Hcond.
Qed.

(** After a step of the round, a record that was disconnected and running
    no longer is. *)
Lemma checked_keeps env w w' l :
  checked env w w' ->
  (forall m, servers_store w !! l = Some m ->
             ManagedServer.state m = RUNNING -> connected env m) ->
  forall m', servers_store w' !! l = Some m' ->
             ManagedServer.state m' = RUNNING -> connected env m'.
Proof.
  intros (_ & _ & H) Hok m' Hm' Hst.
  destruct (H l m' Hm') as [Hm|(m & _ & _ & _ & ->)]; [eauto|discriminate].
Qed.

Lemma check_loop env items :
  forall w, table_valid w ->
  (forall server_id l, In (server_id, l) items -> In (server_id, l) (managed_servers w)) ->
  exists t w',
    for_each items (fun item : string * nat =>
      let server_id := item.1 in
      managed <- deref_server item.2 ;;
      if negb (ManagedServer.is_running managed) then ret tt
      else
        try_except
          (env <- ask ;;
           if match ManagedServer.client managed with
              | None => true
              | Some c => negb (is_connected env c)
              end
           then
             log WARNING ("Servidor desconectado: " ++ server_id) ;;
             Orchestrator._handle_server_failure server_id "Conexion perdida"
           else ret tt)
          (fun e => Some (
             log ERROR ("Error verificando servidor " ++ server_id ++ ": " ++ str e))))
      env w
    = mkOut (Ret tt) w' t
    /\ checked env w w'
    /\ forall server_id l m',
         In (server_id, l) items -> servers_store w' !! l = Some m' ->
         ManagedServer.state m' = RUNNING -> connected env m'.
Proof.
  induction items as [|[sid l] items IH]; intros w Hv Hsub; cbn [for_each].
  - exists [], w. split; [reflexivity|]. split; [apply checked_refl|]. intros ? ? ? [].
  - destruct (check_one env sid l w Hv (Hsub _ _ (or_introl eq_refl)))
      as (t1 & w1 & E1 & Hc1 & Hp1).
    destruct (IH w1) as (t2 & w2 & E2 & Hc2 & Hp2).
    { eapply checked_valid; eauto. }
    { intros s l' Hin. destruct Hc1 as (-> & _). apply Hsub. right. exact Hin. }
    exists (t1 ++ t2)%list, w2. cbv zeta. cbn [fst snd].
    rewrite (bind_Ret _ _ _ _ _ _ _ E1). cbn [res st eff].
    cbv zeta in E2. rewrite E2. cbn [res st eff].
    split; [reflexivity|]. split; [eapply checked_trans; eauto|].
    intros s l' m' [[= <- <-]|Hin] Hm' Hst.
    + eapply (checked_keeps env w1 w2 l Hc2 Hp1); eauto.
    + eapply Hp2; eauto.
Qed.

(** X14.  The monitoring round never raises.  On a table that is a
    dictionary of valid records, [_check_servers] returns normally whatever
    the listeners do (a listener that raises, with or without [__name__], is
    contained by the round's own handler); the table is unchanged; a record
    is changed only if it was [RUNNING] without a connected client, and then
    to [CRASHED] with last error ["Conexion perdida"]; every managed record
    still [RUNNING] afterwards has a connected client. *)
Theorem X14_check_servers_never_raises env w :
  table_valid w ->
  let out := Orchestrator._check_servers env w in
  res out = Ret tt
  /\ checked env w (st out)
  /\ forall server_id m,
       managed_record (st out) server_id = Some m ->
       ManagedServer.state m = RUNNING -> connected env m.
Proof.
  intros Hv. cbv zeta. unfold Orchestrator._check_servers.
  rewrite (bind_Ret _ _ env w (Dict.items (managed_servers w)) w [] eq_refl).
  cbn [res st eff].
  destruct (check_loop env (Dict.items (managed_servers w)) w Hv) as (t & w' & E & Hc & Hp).
  { auto. }
  cbv zeta in E. rewrite E. cbn [res st].
  split; [reflexivity|]. split; [exact Hc|].
  intros server_id m Hm Hst. unfold managed_record in Hm.
  destruct (Dict.get server_id (managed_servers w')) as [l|] eqn:Hget; [|discriminate].
  destruct Hc as (Ht & _). rewrite Ht in Hget.
  eapply Hp; eauto. apply dict_get_In. exact Hget.
Qed.

(** * Dictionaries stay dictionaries *)

Lemma dict_keys_set_In {V} k k' (v : V) d :
  In k (Dict.keys (Dict.set k' v d)) -> k = k' \/ In k (Dict.keys d).
Proof.
  unfold Dict.keys. intros H. apply in_map_iff in H as ([k0 v0] & <- & Hin).
  apply dict_In_set in Hin as [[-> ->]|Hin]; [auto|].
  right. apply in_map_iff. exists (k0, v0). auto.
Qed.

Lemma NoDup_dict_set {V} k (v : V) d :
  NoDup (Dict.keys d) -> NoDup (Dict.keys (Dict.set k v d)).
Proof.
  induction d as [|[k' v'] d IH]; cbn.
  - intros _. apply NoDup_singleton.
  - intros H. apply NoDup_cons in H as [Hnin Hnd].
    destruct (String.eqb k k') eqn:E; cbn.
    + apply String.eqb_eq in E. subst k'. apply NoDup_cons. auto.
    + apply NoDup_cons. split; [|auto].
      intros Hin. apply list_elem_of_In, dict_keys_set_In in Hin as [->|Hin].
      * rewrite String.eqb_refl in E. discriminate.
      * apply Hnin, list_elem_of_In, Hin.
Qed.

Lemma NoDup_dict_del {V} k (d : Dict.t V) :
  NoDup (Dict.keys d) -> NoDup (Dict.keys (Dict.del k d)).
Proof.
  induction d as [|[k' v'] d IH]; cbn; [auto|].
  intros H. apply NoDup_cons in H as [Hnin Hnd].
  destruct (String.eqb k k'); cbn; [exact Hnd|].
  apply NoDup_cons. split; [|auto].
  intros Hin. apply Hnin. apply list_elem_of_In. apply list_elem_of_In in Hin.
  unfold Dict.keys in *. apply in_map_iff in Hin as ([k0 v0] & <- & Hin).
  apply dict_In_del in Hin. apply in_map_iff. exists (k0, v0). auto.
Qed.

Lemma dicts_ok_update_server l f : preserves dicts_ok (update_server l f).
Proof.
  intros env w H. unfold update_server.
  destruct (servers_store w !! l); cbn; exact H.
Qed.

Lemma dicts_ok_new_server m :
  hoare dicts_ok (new_server m) (fun _ => dicts_ok) dicts_ok.
Proof. intros env w H. exact H. Qed.

Lemma dicts_ok_new_client : preserves dicts_ok new_client.
Proof. intros env w H. exact H. Qed.

Lemma dicts_ok_update_context l f :
  (forall c, NoDup (Dict.keys (TenantContext.servers c)) ->
             NoDup (Dict.keys (TenantContext.servers (f c)))) ->
  preserves dicts_ok (update_context l f).
Proof.
  intros Hf env w H. unfold update_context.
  destruct (contexts_store w !! l) as [c|] eqn:E; cbn; [|exact H].
  destruct H as (H1 & H2 & H3 & H4). refine (conj H1 (conj H2 (conj H3 _))). cbn.
  apply Forall_insert; [exact H4|]. apply Hf.
  exact (Forall_lookup_1 _ _ _ _ H4 E).
Qed.

Lemma dicts_ok_new_context c :
  NoDup (Dict.keys (TenantContext.servers c)) ->
  hoare dicts_ok (new_context c) (fun _ => dicts_ok) dicts_ok.
Proof.
  intros Hc env w (H1 & H2 & H3 & H4). refine (conj H1 (conj H2 (conj H3 _))). cbn.
  apply Forall_app. split; [exact H4|]. constructor; [exact Hc|constructor].
Qed.

Lemma dicts_ok_modify f :
  (forall w, dicts_ok w -> dicts_ok (f w)) -> preserves dicts_ok (modify f).
Proof. intros H. apply hoare_modify. exact H. Qed.

Create HintDb wfdb.

(** One step of a proof that a program keeps [dicts_ok]. *)
Ltac wf_step :=
  first
    [ progress cbv beta zeta
    | solve [ apply readonly_hoare_weak; [ readonly_tac | intros ? ?; assumption ] ]
    | solve [ apply dicts_ok_update_server ]
    | solve [ apply dicts_ok_new_server ]
    | solve [ apply dicts_ok_new_client ]
    | solve [ apply dicts_ok_update_context; intros ? ?; cbn;
              first [ assumption | apply NoDup_nil_2 | apply NoDup_dict_set; assumption ] ]
    | solve [ apply dicts_ok_new_context; apply NoDup_nil_2 ]
    | solve [ apply dicts_ok_modify; intros ? (? & ? & ? & ?);
              repeat split; cbn;
              first [ assumption | apply NoDup_nil_2
                    | apply NoDup_dict_set; assumption
                    | apply NoDup_dict_del; assumption ] ]
    | solve [ eauto 2 with wfdb nocore ]
    | eapply hoare_bind; [ | intros ?; cbv beta ]
    | match goal with
      | |- hoare _ (try_except _ _) _ ?E =>
          eapply hoare_try with (E' := E);
          [ | intros ? ? ?; cbv beta | intros ? ?; assumption ]
      end
    | apply hoare_for_each; intros ? ?
    | apply (hoare_for_fold (fun _ => dicts_ok)); intros ? ? ?
    | match goal with
      | H : Some _ = Some _ |- _ => injection H as <-
      | H : None = Some _ |- _ => discriminate H
      | H : (if ?b then _ else _) = Some _ |- _ => destruct b
      | |- hoare _ (match ?x with _ => _ end) _ _ => destruct x
      | |- hoare _ (let _ := _ in _) _ _ => cbv zeta
      | |- hoare _ (raise _) _ _ => apply hoare_raise; intros ? ?; assumption
      | |- hoare _ (ret _) _ _ => apply hoare_ret; intros ? ?; assumption
      end ].

Ltac wf_tac := repeat wf_step.

Lemma dicts_ok_add_observer o : preserves dicts_ok (Orchestrator.add_observer o).
Proof. unfold Orchestrator.add_observer. wf_tac. Qed.
#[global] Hint Resolve dicts_ok_add_observer : wfdb.

Lemma dicts_ok_start_server_enter sid :
  preserves dicts_ok (Orchestrator.start_server_enter sid).
Proof. unfold Orchestrator.start_server_enter. wf_tac. Qed.
#[global] Hint Resolve dicts_ok_start_server_enter : wfdb.

Lemma dicts_ok_start_server_resume sid managed client awaited :
  readonly awaited ->
  preserves dicts_ok (Orchestrator.start_server_resume sid managed client awaited).
Proof.
  intros Hro. unfold Orchestrator.start_server_resume.
  eapply hoare_try with (E' := dicts_ok); [| |auto].
  - eapply hoare_bind; [apply readonly_hoare; exact Hro|]. intros ?. wf_tac.
  - intros e k Hk. wf_tac.
Qed.

Lemma dicts_ok_start_server sid : preserves dicts_ok (Orchestrator.start_server sid).
Proof.
  unfold Orchestrator.start_server.
  eapply hoare_bind; [apply dicts_ok_start_server_enter|].
  intros [existing|[managed client]]; [wf_tac|].
  apply dicts_ok_start_server_resume. readonly_tac.
Qed.
#[global] Hint Resolve dicts_ok_start_server : wfdb.

Lemma dicts_ok_start_tenant_servers t :
  preserves dicts_ok (Orchestrator.start_tenant_servers t).
Proof. unfold Orchestrator.start_tenant_servers. wf_tac. Qed.
#[global] Hint Resolve dicts_ok_start_tenant_servers : wfdb.

Lemma dicts_ok_stop_server_enter sid :
  preserves dicts_ok (Orchestrator.stop_server_enter sid).
Proof. unfold Orchestrator.stop_server_enter. wf_tac. Qed.
#[global] Hint Resolve dicts_ok_stop_server_enter : wfdb.

Lemma dicts_ok_stop_server_resume sid managed client awaited :
  readonly awaited ->
  preserves dicts_ok (Orchestrator.stop_server_resume sid managed client awaited).
Proof.
  intros Hro. unfold Orchestrator.stop_server_resume.
  eapply hoare_try with (E' := dicts_ok); [| |auto].
  - eapply hoare_bind.
    + destruct client.
      * eapply hoare_bind; [apply readonly_hoare; exact Hro|]. intros ?. wf_tac.
      * wf_tac.
    + intros ?. wf_tac.
  - intros e k Hk. wf_tac.
Qed.

Lemma dicts_ok_stop_server sid : preserves dicts_ok (Orchestrator.stop_server sid).
Proof.
  unfold Orchestrator.stop_server.
  eapply hoare_bind; [apply dicts_ok_stop_server_enter|].
  intros [[managed client]|]; [|wf_tac].
  apply dicts_ok_stop_server_resume. destruct client; readonly_tac.
Qed.
#[global] Hint Resolve dicts_ok_stop_server : wfdb.

Lemma dicts_ok_stop_tenant_servers t :
  preserves dicts_ok (Orchestrator.stop_tenant_servers t).
Proof. unfold Orchestrator.stop_tenant_servers. wf_tac. Qed.
#[global] Hint Resolve dicts_ok_stop_tenant_servers : wfdb.

Lemma dicts_ok_stop_all : preserves dicts_ok Orchestrator.stop_all.
Proof. unfold Orchestrator.stop_all. wf_tac. Qed.
#[global] Hint Resolve dicts_ok_stop_all : wfdb.

Lemma dicts_ok_handle_server_failure sid err :
  preserves dicts_ok (Orchestrator._handle_server_failure sid err).
Proof. unfold Orchestrator._handle_server_failure. wf_tac. Qed.
#[global] Hint Resolve dicts_ok_handle_server_failure : wfdb.

Lemma dicts_ok_check_servers : preserves dicts_ok Orchestrator._check_servers.
Proof. unfold Orchestrator._check_servers. wf_tac. Qed.
#[global] Hint Resolve dicts_ok_check_servers : wfdb.

Lemma dicts_ok_discover_tools sid :
  preserves dicts_ok (DynamicToolRouter.discover_tools sid).
Proof. unfold DynamicToolRouter.discover_tools. wf_tac. Qed.
#[global] Hint Resolve dicts_ok_discover_tools : wfdb.

Lemma dicts_ok_del_tool k : preserves dicts_ok (DynamicToolRouter.del_tool k).
Proof. unfold DynamicToolRouter.del_tool. wf_tac. Qed.
#[global] Hint Resolve dicts_ok_del_tool : wfdb.

Lemma dicts_ok_clear_tools sid : preserves dicts_ok (DynamicToolRouter.clear_tools sid).
Proof. unfold DynamicToolRouter.clear_tools. wf_tac. Qed.
#[global] Hint Resolve dicts_ok_clear_tools : wfdb.

Lemma dicts_ok_refresh_tools sid :
  preserves dicts_ok (DynamicToolRouter.refresh_tools sid).
Proof. unfold DynamicToolRouter.refresh_tools. wf_tac. Qed.
#[global] Hint Resolve dicts_ok_refresh_tools : wfdb.

Lemma dicts_ok_update_activity l :
  preserves dicts_ok (TenantContextMethods.update_activity l).
Proof. unfold TenantContextMethods.update_activity. wf_tac. Qed.
#[global] Hint Resolve dicts_ok_update_activity : wfdb.

Lemma dicts_ok_set_quota t q n : preserves dicts_ok (MultitenantManager.set_quota t q n).
Proof. unfold MultitenantManager.set_quota. wf_tac. Qed.
#[global] Hint Resolve dicts_ok_set_quota : wfdb.

Lemma dicts_ok_get_or_create_tenant t :
  preserves dicts_ok (MultitenantManager.get_or_create_tenant t).
Proof. unfold MultitenantManager.get_or_create_tenant. wf_tac. Qed.
#[global] Hint Resolve dicts_ok_get_or_create_tenant : wfdb.

Lemma dicts_ok_mt_start_tenant_servers t :
  preserves dicts_ok (MultitenantManager.start_tenant_servers t).
Proof. unfold MultitenantManager.start_tenant_servers. wf_tac. Qed.
#[global] Hint Resolve dicts_ok_mt_start_tenant_servers : wfdb.

Lemma dicts_ok_mt_stop_tenant_servers t :
  preserves dicts_ok (MultitenantManager.stop_tenant_servers t).
Proof. unfold MultitenantManager.stop_tenant_servers. wf_tac. Qed.
#[global] Hint Resolve dicts_ok_mt_stop_tenant_servers : wfdb.

Lemma dicts_ok_del_tenant t : preserves dicts_ok (MultitenantManager.del_tenant t).
Proof. unfold MultitenantManager.del_tenant. wf_tac. Qed.
#[global] Hint Resolve dicts_ok_del_tenant : wfdb.

Lemma dicts_ok_cleanup_inactive_tenants n :
  preserves dicts_ok (MultitenantManager.cleanup_inactive_tenants n).
Proof.
  unfold MultitenantManager.cleanup_inactive_tenants, for_items.
  eapply hoare_bind; [wf_step|]. intros env. cbv zeta.
  eapply hoare_bind; [wf_step|]. intros items.
  apply hoare_for_items_live; [|auto].
  intros acc item. wf_tac.
Qed.
#[global] Hint Resolve dicts_ok_cleanup_inactive_tenants : wfdb.

Lemma dicts_ok_reload r : preserves dicts_ok (reload r).
Proof. unfold reload. wf_tac. Qed.
#[global] Hint Resolve dicts_ok_reload : wfdb.

Lemma dicts_ok_exec op : preserves dicts_ok (exec op).
Proof. destruct op; cbn [exec]; unfold ignore; wf_tac. Qed.

Lemma dicts_ok_initial r : dicts_ok (initial_world r).
Proof. repeat split; cbn; try apply NoDup_nil_2. constructor. Qed.

(** In every reachable state the dictionaries are dictionaries. *)
Lemma dicts_ok_reachable w ts : reachable w ts -> dicts_ok w.
Proof.
  induction 1 as [r|w ts env op _ IH|w ts env sid managed client _ IH Hres
                 |w ts1 ts2 env sid managed client _ IH
                 |w ts env sid managed client _ IH Hres
                 |w ts1 ts2 env sid managed client _ IH].
  - apply dicts_ok_initial.
  - apply preserves_run; [apply dicts_ok_exec|exact IH].
  - apply preserves_run; [apply dicts_ok_start_server_enter|exact IH].
  - apply preserves_run; [|exact IH].
    apply dicts_ok_start_server_resume. readonly_tac.
  - apply preserves_run; [apply dicts_ok_stop_server_enter|exact IH].
  - apply preserves_run; [|exact IH].
    apply dicts_ok_stop_server_resume. readonly_tac.
Qed.

Lemma table_valid_reachable w ts : reachable w ts -> table_valid w.
Proof.
  intros H. split; [apply (dicts_ok_reachable w ts H)|].
  intros sid l Hin. apply Inv_reachable in H. destruct H as (_ & Ht & _).
  destruct (Ht sid l Hin) as (m & Hm & _). eapply lookup_lt_Some; eauto.
Qed.

(** * Loops *)

(** Loops whose body always returns. *)
Lemma for_each_returns {A} (I : World -> Prop) env (l : list A) body :
  (forall x w, In x l -> I w ->
     exists w' t, body x env w = mkOut (Ret tt) w' t /\ I w') ->
  forall w, I w ->
    exists w' t, for_each l body env w = mkOut (Ret tt) w' t /\ I w'.
Proof.
  induction l as [|x l IH]; intros Hbody w HI; cbn [for_each].
  - exists w, []. auto.
  - destruct (Hbody x w (or_introl eq_refl) HI) as (w1 & t1 & E1 & H1).
    destruct (IH (fun x w Hin => Hbody x w (or_intror Hin)) w1 H1)
      as (w2 & t2 & E2 & H2).
    exists w2, (t1 ++ t2)%list. rewrite (bind_Ret _ _ _ _ _ _ _ E1), E2. auto.
Qed.

(** * Starting the servers of a tenant that are already running *)

(** [start_server] of a running server returns its record before any
    await. *)
Lemma start_server_already_running tenant_id server_config l env w :
  already_running w tenant_id server_config l ->
  let server_id :=
    Orchestrator._generate_server_id tenant_id (ServerConfig.name server_config) in
  Orchestrator.start_server server_id env w
  = mkOut (Ret l) w [Log WARNING ("Servidor ya esta ejecutandose: " ++ server_id)].
Proof.
  intros ((parts & Hsplit & Hcfg) & Hget & m & Hm & Hst). cbv zeta.
  set (server_id :=
         Orchestrator._generate_server_id tenant_id (ServerConfig.name server_config))
    in *.
  unfold Orchestrator.start_server, Orchestrator.start_server_enter.
  assert (Hparse : Orchestrator._parse_server_id server_id env w = mkOut (Ret parts) w [])
    by (unfold Orchestrator._parse_server_id; rewrite Hsplit; reflexivity).
  destruct (Registry.get_server_config (registry w) parts.1 parts.2) as [cfg|] eqn:Hreg;
    [|contradiction].
  assert (Hrun : Orchestrator.running_record server_id env w = mkOut (Ret (Some l)) w []).
  { rewrite (running_record_some _ _ _ _ _ Hget Hm).
    apply is_running_true in Hst. rewrite Hst. reflexivity. }
  unfold bind at 1. unfold bind at 1. rewrite Hparse. cbv beta iota zeta.
  unfold bind at 1, gets at 1. rewrite Hreg. cbv beta iota.
  unfold bind at 1. rewrite Hrun. cbv beta iota.
  reflexivity.
Qed.

Lemma start_loop_already_running tenant_id env w cfgs :
  forall started acc,
    Forall2 (already_running w tenant_id) cfgs started ->
    exists t,
      for_fold cfgs acc
        (fun started_servers server_config =>
           let server_id :=
             Orchestrator._generate_server_id tenant_id
               (ServerConfig.name server_config) in
           try_except
             (managed <- Orchestrator.start_server server_id ;;
              ret (started_servers ++ [managed])%list)
             (fun e => Some (
                log ERROR ("Error iniciando servidor " ++ server_id ++ ": " ++ str e) ;;
                ret started_servers))) env w
      = mkOut (Ret (acc ++ started)%list) w t
      /\ Forall log_line t.
Proof.
  cbv zeta.
  induction cfgs as [|cfg cfgs IH]; intros started acc H; inversion H; subst;
    cbn [for_fold].
  - exists []. rewrite app_nil_r. split; [reflexivity|constructor].
  - match goal with
    | Hl : Forall2 _ cfgs ?l' |- _ =>
        destruct (IH l' (acc ++ [y])%list Hl) as (t & E & Ht)
    end.
    match goal with
    | Hy : already_running w tenant_id cfg y |- _ =>
        pose proof (start_server_already_running tenant_id cfg y env w Hy) as Es
    end.
    cbv zeta in Es.
    match goal with
    | |- context [bind ?m _ env w] =>
        assert (Hstep : exists t1,
                  m env w = mkOut (Ret (acc ++ [y])%list) w t1
                  /\ Forall log_line t1)
    end.
    { cbv beta zeta. rewrite try_except_run.
      rewrite (bind_Ret _ _ _ _ _ _ _ Es). cbn.
      eexists. split; [reflexivity|]. repeat constructor. }
    destruct Hstep as (t1 & Hstep & Ht1).
    exists (t1 ++ t)%list. split.
    + rewrite (bind_Ret _ _ _ _ _ _ _ Hstep). cbv beta. rewrite E.
      cbn [res st eff]. rewrite <- app_assoc. reflexivity.
    + apply Forall_app. split; assumption.
Qed.

(** X15.  Starting the servers of a tenant.  The orchestrator's
    [start_tenant_servers] raises, a [ValueError] and without effect, when
    the registry does not know the tenant.  When every enabled server of
    the tenant is already running, it returns their records, in the order
    of the configuration, and changes nothing; it only writes to the log:
    no client is called and no listener notified, so it awaits nothing
    that suspends it. *)
Theorem X15_start_tenant_servers_already_running env w tenant_id :
  let out := Orchestrator.start_tenant_servers tenant_id env w in
  (Registry.get_tenant (registry w) tenant_id = None ->
   out = mkOut (Raise (Exn ValueError ("Tenant no encontrado: " ++ tenant_id))) w [])
  /\ (forall tenant started,
        Registry.get_tenant (registry w) tenant_id = Some tenant ->
        Forall2 (already_running w tenant_id)
          (TenantConfig.get_enabled_servers tenant) started ->
        res out = Ret started /\ st out = w /\ Forall log_line (eff out)).
Proof.
  cbv zeta. split.
  - intros Hnone. unfold Orchestrator.start_tenant_servers, bind, gets.
    rewrite Hnone. reflexivity.
  - intros tenant started Hreg Hall.
    destruct (start_loop_already_running tenant_id env w _ started [] Hall)
      as (t & E & Ht).
    cbv zeta in E. unfold Orchestrator.start_tenant_servers. cbv zeta.
    assert (Hgets : gets (fun w => Registry.get_tenant (registry w) tenant_id) env w
                    = mkOut (Ret (Some tenant)) w [])
      by (unfold gets; rewrite Hreg; reflexivity).
    rewrite (bind_Ret _ _ _ _ _ _ _ Hgets). cbn [res st eff].
    rewrite (bind_Ret _ _ env w tt w
               [Log INFO ("Iniciando servidores del tenant: " ++ tenant_id)] eq_refl).
    cbn [res st eff].
    rewrite (bind_Ret _ _ _ _ _ _ _ E). cbn.
    split; [reflexivity|]. split; [reflexivity|].
    constructor; [exact I|]. apply Forall_app. split; [exact Ht|].
    repeat constructor.
Qed.

(** * Clearing and refreshing the catalog *)

Lemma dict_mem_In {V} k (v : V) d : In (k, v) d -> Dict.mem k d = true.
Proof.
  unfold Dict.mem. induction d as [|[k' v'] d IH]; cbn; [intros []|].
  intros [[= -> ->]|Hin].
  - rewrite String.eqb_refl. reflexivity.
  - destruct (String.eqb k k'); [reflexivity|auto].
Qed.

(** Deleting a key of a dictionary. *)
Lemma dict_del_filter {V} k (d : Dict.t V) :
  NoDup (Dict.keys d) ->
  Dict.del k d = List.filter (fun item => negb (String.eqb item.1 k)) d.
Proof.
  induction d as [|[k' v'] d IH]; cbn; [reflexivity|].
  intros H. apply NoDup_cons in H as [Hnin Hnd].
  rewrite (String.eqb_sym k' k).
  destruct (String.eqb k k') eqn:E; cbn.
  - apply String.eqb_eq in E. subst k'.
    symmetry. apply forallb_filter_id. apply forallb_forall. intros [k0 v0] Hin. cbn.
    apply negb_true_iff, String.eqb_neq. intros ->. apply Hnin.
    apply list_elem_of_In, in_map_iff. exists (k, v0). auto.
  - f_equal. auto.
Qed.

Lemma NoDup_keys_filter {V} (p : string * V -> bool) (d : Dict.t V) :
  NoDup (Dict.keys d) -> NoDup (Dict.keys (List.filter p d)).
Proof.
  induction d as [|[k v] d IH]; cbn; [auto|].
  intros H. apply NoDup_cons in H as [Hnin Hnd].
  destruct (p (k, v)); cbn; [|auto]. apply NoDup_cons. split; [|auto].
  intros Hin. apply Hnin. apply list_elem_of_In. apply list_elem_of_In in Hin.
  unfold Dict.keys in *. apply in_map_iff in Hin as ([k0 v0] & <- & Hin).
  apply filter_In in Hin as [Hin _]. apply in_map_iff. exists (k0, v0). auto.
Qed.

Lemma del_tool_run k v env w :
  In (k, v) (tools w) ->
  DynamicToolRouter.del_tool k env w
  = mkOut (Ret tt) (set_tools (Dict.del k (tools w)) w) [].
Proof.
  intros Hin. unfold DynamicToolRouter.del_tool, bind, gets.
  rewrite (dict_mem_In _ _ _ Hin). reflexivity.
Qed.

(** Deleting the keys [ks], which are keys of the catalog, one by one. *)
Lemma del_tools_loop env ks :
  forall w,
    NoDup (Dict.keys (tools w)) -> NoDup ks ->
    (forall k, In k ks -> In k (Dict.keys (tools w))) ->
    for_each ks DynamicToolRouter.del_tool env w
    = mkOut (Ret tt)
        (set_tools
           (List.filter (fun item => negb (existsb (String.eqb item.1) ks)) (tools w)) w)
        [].
Proof.
  induction ks as [|k ks IH]; intros w Hnd Hks Hsub; cbn [for_each].
  - cbn. unfold ret. f_equal.
    rewrite forallb_filter_id by (apply forallb_forall; reflexivity).
    destruct w; reflexivity.
  - apply NoDup_cons in Hks as [Hnin Hks].
    assert (Hk : exists v, In (k, v) (tools w)).
    { specialize (Hsub k (or_introl eq_refl)). unfold Dict.keys in Hsub.
      apply in_map_iff in Hsub as ([k0 v0] & <- & Hin). eauto. }
    destruct Hk as (v & Hk).
    rewrite (bind_Ret _ _ _ _ _ _ _ (del_tool_run k v env w Hk)).
    set (w1 := set_tools (Dict.del k (tools w)) w).
    assert (Htools1 : tools w1
                      = List.filter (fun item => negb (String.eqb item.1 k)) (tools w))
      by (unfold w1; cbn; apply dict_del_filter; exact Hnd).
    rewrite IH.
    + cbn [res st eff app]. rewrite Htools1.
      assert (Hf : List.filter
                (fun item : string * ToolRegistration.t =>
                   negb (existsb (String.eqb item.1) ks))
                (List.filter
                   (fun item : string * ToolRegistration.t =>
                      negb (String.eqb item.1 k)) (tools w))
              = List.filter
                  (fun item : string * ToolRegistration.t =>
                     negb (existsb (String.eqb item.1) (k :: ks))) (tools w)).
      { clear. induction (tools w) as [|[k0 v0] d IHd]; cbn; [reflexivity|].
        destruct (String.eqb k0 k); cbn; [exact IHd|].
        destruct (existsb (String.eqb k0) ks); cbn; [exact IHd|]. f_equal. exact IHd. }
      rewrite Hf. unfold w1. destruct w; reflexivity.
    + rewrite Htools1. apply NoDup_keys_filter, Hnd.
    + exact Hks.
    + intros k' Hin'. rewrite Htools1.
      specialize (Hsub k' (or_intror Hin')). unfold Dict.keys in *.
      apply in_map_iff in Hsub as ([k0 v0] & <- & Hin0).
      apply in_map_iff. exists (k0, v0). split; [reflexivity|].
      apply filter_In. split; [exact Hin0|]. cbn.
      apply negb_true_iff, String.eqb_neq. intros ->.
      apply Hnin, list_elem_of_In, Hin'.
Qed.

(** [clear_tools] with an id that Python takes for true. *)
Lemma clear_tools_run env w c s :
  NoDup (Dict.keys (tools w)) ->
  DynamicToolRouter.clear_tools (Some (String c s)) env w
  = mkOut (Ret tt)
      (set_tools
         (List.filter
            (fun item =>
               negb (String.eqb (ToolRegistration.server_id item.2) (String c s)))
            (tools w)) w)
      [Log INFO ("Herramientas limpiadas para servidor: " ++ String c s)].
Proof.
  intros Hnd. unfold DynamicToolRouter.clear_tools.
  set (sid := String c s).
  set (p := fun item : string * ToolRegistration.t =>
              String.eqb (ToolRegistration.server_id item.2) sid).
  rewrite (bind_Ret _ _ env w (Dict.items (tools w)) w [] eq_refl). cbn [res st eff].
  assert (H1 : NoDup (List.map fst (List.filter p (Dict.items (tools w))))).
  { change (NoDup (Dict.keys (List.filter p (tools w)))). apply NoDup_keys_filter, Hnd. }
  assert (H2 : forall k, In k (List.map fst (List.filter p (Dict.items (tools w)))) ->
                         In k (Dict.keys (tools w))).
  { intros k Hin. apply in_map_iff in Hin as ([k0 v0] & <- & Hin).
    apply filter_In in Hin as [Hin _]. apply in_map_iff. exists (k0, v0). auto. }
  rewrite (bind_Ret _ _ _ _ _ _ _ (del_tools_loop env _ w Hnd H1 H2)).
  cbn. f_equal. f_equal. unfold Dict.items.
  apply filter_ext_in. intros [k v] Hin. cbn. f_equal.
  destruct (p (k, v)) eqn:Ep.
  - unfold p in Ep. cbn in Ep. rewrite Ep.
    apply existsb_exists. exists k. split; [|apply String.eqb_refl].
    apply in_map_iff. exists (k, v). split; [reflexivity|].
    apply filter_In. auto.
  - unfold p in Ep. cbn in Ep. rewrite Ep.
    apply not_true_iff_false. intros Hex. apply existsb_exists in Hex as (k' & Hin' & Heq).
    apply String.eqb_eq in Heq. subst k'.
    apply in_map_iff in Hin' as ([k0 v0] & Hk0 & Hin0). cbn in Hk0. subst k0.
    apply filter_In in Hin0 as [Hin0 Hp0].
    assert (v0 = v).
    { pose proof (dict_In_get _ _ _ Hnd Hin0) as H3.
      pose proof (dict_In_get _ _ _ Hnd Hin) as H4. congruence. }
    subst v0. unfold p in Hp0. cbn in Hp0. congruence.
Qed.


(** X16.  Clearing the catalog.  With the id of a server, [clear_tools]
    returns normally and leaves exactly the entries of the other servers, in
    their order; with no id, and also with the empty string, which Python
    takes for false, it empties the whole catalog. *)
Theorem X16_clear_tools_removes_server env w server_id :
  NoDup (Dict.keys (tools w)) ->
  DynamicToolRouter.clear_tools (Some server_id) env w
  = if String.eqb server_id "" then
      mkOut (Ret tt) (set_tools Dict.empty w)
            [Log INFO "Todas las herramientas limpiadas"]
    else
      mkOut (Ret tt)
        (set_tools
           (List.filter
              (fun item =>
                 negb (String.eqb (ToolRegistration.server_id item.2) server_id))
              (tools w)) w)
        [Log INFO ("Herramientas limpiadas para servidor: " ++ server_id)].
Proof.
  intros Hnd. destruct server_id as [|c s]; [reflexivity|].
  cbn [String.eqb]. apply clear_tools_run, Hnd.
Qed.

(** The entries of a server that [discover_tools] leaves in the catalog
    are the ones it returns, when none was there before. *)
Lemma discover_tools_owned server_id :
  hoare (fun w => forall reg, In reg (Dict.values (tools w)) ->
                              ToolRegistration.server_id reg <> server_id)
    (DynamicToolRouter.discover_tools server_id)
    (fun regs w => forall reg, In reg (Dict.values (tools w)) ->
                               ToolRegistration.server_id reg = server_id ->
                               In reg regs)
    (fun _ => True).
Proof.
  set (J := fun (acc : list ToolRegistration.t) w =>
              forall reg, In reg (Dict.values (tools w)) ->
                          ToolRegistration.server_id reg = server_id -> In reg acc).
  assert (Htriv : forall A (m : M A) (P : World -> Prop),
            hoare P m (fun _ _ => True) (fun _ => True)).
  { intros A m P env w _. destruct (res _); exact I. }
  unfold DynamicToolRouter.discover_tools.
  eapply hoare_bind; [apply readonly_hoare_weak; [readonly_tac|auto]|]. intros ?.
  eapply hoare_bind; [apply readonly_hoare_weak; [readonly_tac|auto]|].
  intros [client|]; [|apply hoare_raise; auto].
  eapply hoare_bind; [apply readonly_hoare_weak; [readonly_tac|auto]|]. intros env0.
  destruct (negb _); [apply hoare_raise; auto|].
  eapply hoare_try with (E' := fun _ => True); [| |auto].
  - eapply hoare_bind; [apply readonly_hoare_weak; [readonly_tac|auto]|]. intros listed.
    eapply hoare_bind with (Q1 := J).
    + eapply hoare_pre with (P := J []).
      * apply (hoare_for_fold J). intros acc tool _. cbv zeta.
        eapply hoare_bind; [apply readonly_hoare_weak; [readonly_tac|auto]|]. intros p.
        eapply hoare_bind with
          (Q1 := fun _ => J (acc ++ [ToolRegistration.mk
                   (DynamicToolRouter._generate_tool_id server_id (ToolInfo.name tool))
                   server_id (ToolInfo.name tool) p (ToolInfo.description tool)
                   (ToolInfo.input_schema tool) "{}"])%list).
        { apply hoare_modify. intros w HJ reg Hin Hid. cbn in Hin.
          unfold Dict.values in Hin. apply in_map_iff in Hin as ([k r] & <- & Hin).
          apply dict_In_set in Hin as [[-> ->]|Hin]; apply in_or_app.
          - right. left. reflexivity.
          - left. apply HJ; [|exact Hid]. apply in_map_iff. exists (k, r). auto. }
        intros ?.
        eapply hoare_bind; [apply readonly_hoare_weak; [readonly_tac|auto]|]. intros ?.
        apply hoare_ret. auto.
      * intros w H reg Hin Hid. exfalso. exact (H reg Hin Hid).
    + intros discovered.
      eapply hoare_bind; [apply readonly_hoare_weak; [readonly_tac|auto]|]. intros ?.
      apply hoare_ret. auto.
  - intros e k [= <-].
    eapply hoare_bind; [apply Htriv|]. intros ?. apply hoare_raise. auto.
Qed.

(** X17.  Refreshing the tools of a server.  When [refresh_tools] returns,
    every catalog entry owned by the server is one of the registrations it
    returns: no entry of an operation that the server no longer lists is
    left ([discover_tools] alone leaves such entries in place). *)
Theorem X17_refresh_tools_no_stale_entry env w server_id regs :
  NoDup (Dict.keys (tools w)) ->
  res (DynamicToolRouter.refresh_tools server_id env w) = Ret regs ->
  forall reg,
    In reg (Dict.values (tools (st (DynamicToolRouter.refresh_tools server_id env w)))) ->
    ToolRegistration.server_id reg = server_id ->
    In reg regs.
Proof.
  intros Hnd. unfold DynamicToolRouter.refresh_tools.
  rewrite (bind_Ret _ _ env w tt w
             [Log INFO ("Refrescando herramientas del servidor: " ++ server_id)] eq_refl).
  cbn [res st eff].
  set (w1 := st (DynamicToolRouter.clear_tools (Some server_id) env w)).
  assert (Hnone : forall reg, In reg (Dict.values (tools w1)) ->
                              ToolRegistration.server_id reg <> server_id).
  { unfold w1. destruct server_id as [|c s]; [intros ? []|].
    rewrite (clear_tools_run env w c s Hnd). cbn [st].
    intros reg Hin. unfold Dict.values in Hin.
    apply in_map_iff in Hin as ([k r] & <- & Hin).
    apply filter_In in Hin as [_ Hp]. cbn in *.
    apply negb_true_iff, String.eqb_neq in Hp. exact Hp. }
  assert (Hc : exists t, DynamicToolRouter.clear_tools (Some server_id) env w
                         = mkOut (Ret tt) w1 t).
  { unfold w1. destruct server_id as [|c s]; [eexists; reflexivity|].
    rewrite (clear_tools_run env w c s Hnd). eauto. }
  destruct Hc as (t & Hc). rewrite (bind_Ret _ _ _ _ _ _ _ Hc). cbn [res st].
  intros Hres. pose proof (discover_tools_owned server_id env w1 Hnone) as H.
  rewrite Hres in H. exact H.
Qed.

(** * Discovery over all servers *)

(** Loops whose body always returns, with what they do to the outside. *)
Lemma for_fold_returns_eff {A B} (I : B -> World -> Prop) (T : effect -> Prop)
  env (l : list A) body :
  (forall acc x w, In x l -> I acc w ->
     exists acc' w' t, body acc x env w = mkOut (Ret acc') w' t /\ I acc' w'
                       /\ Forall T t) ->
  forall acc w, I acc w ->
    exists acc' w' t, for_fold l acc body env w = mkOut (Ret acc') w' t /\ I acc' w'
                      /\ Forall T t.
Proof.
  induction l as [|x l IH]; intros Hbody acc w HI; cbn [for_fold].
  - exists acc, w, []. repeat split; auto.
  - destruct (Hbody acc x w (or_introl eq_refl) HI) as (acc1 & w1 & t1 & E1 & H1 & T1).
    destruct (IH (fun acc x w Hin => Hbody acc x w (or_intror Hin)) acc1 w1 H1)
      as (acc2 & w2 & t2 & E2 & H2 & T2).
    exists acc2, w2, (t1 ++ t2)%list. rewrite (bind_Ret _ _ _ _ _ _ _ E1), E2.
    repeat split; auto. apply Forall_app. auto.
Qed.

Lemma get_server_status_run server_id l m env w :
  Dict.get server_id (managed_servers w) = Some l ->
  servers_store w !! l = Some m ->
  exists status,
    Orchestrator.get_server_status server_id env w = mkOut (Ret (Some status)) w []
    /\ Orchestrator.status_state status = ServerState_name (ManagedServer.state m)
    /\ Orchestrator.status_restart_count status = ManagedServer.restart_count m.
Proof.
  intros Hget Hm. unfold Orchestrator.get_server_status, bind, gets, deref_server.
  rewrite Hget. cbn. rewrite Hm. cbn. eexists. split; [reflexivity|]. cbn. auto.
Qed.

(** The snapshot [get_all_servers_status] takes. *)
Lemma get_all_servers_status_run env w :
  Inv w ->
  exists d,
    OrchestratorStatus.get_all_servers_status env w = mkOut (Ret d) w []
    /\ forall server_id v,
         In (server_id, v) d ->
         exists status m,
           v = Some status
           /\ managed_record w server_id = Some m
           /\ Orchestrator.status_state status
              = ServerState_name (ManagedServer.state m).
Proof.
  intros HI. unfold OrchestratorStatus.get_all_servers_status.
  rewrite (bind_Ret _ _ env w (Dict.keys (managed_servers w)) w [] eq_refl).
  cbn [res st eff].
  assert (Hloop : forall ids acc,
            (forall sid, In sid ids -> In sid (Dict.keys (managed_servers w))) ->
            (forall sid v, In (sid, v) acc ->
               exists status m, v = Some status /\ managed_record w sid = Some m
                 /\ Orchestrator.status_state status
                    = ServerState_name (ManagedServer.state m)) ->
            exists d,
              for_fold ids acc
                (fun result server_id =>
                   condition <- Orchestrator.get_server_status server_id ;;
                   match condition with
                   | None => ret result
                   | Some _ =>
                       value <- Orchestrator.get_server_status server_id ;;
                       ret (Dict.set server_id value result)
                   end) env w = mkOut (Ret d) w []
              /\ forall sid v, In (sid, v) d ->
                   exists status m, v = Some status /\ managed_record w sid = Some m
                     /\ Orchestrator.status_state status
                        = ServerState_name (ManagedServer.state m)).
  { induction ids as [|sid ids IH]; intros acc Hsub Hacc; cbn [for_fold].
    - exists acc. auto.
    - assert (Hk : exists l, Dict.get sid (managed_servers w) = Some l).
      { specialize (Hsub sid (or_introl eq_refl)). unfold Dict.keys in Hsub.
        apply in_map_iff in Hsub as ([k l] & Hk & Hin). cbn in Hk. subst k.
        destruct (Dict.get sid (managed_servers w)) as [l0|] eqn:E; [eauto|].
        exfalso. clear -Hin E. induction (managed_servers w) as [|[k v] d IHd]; [destruct Hin|].
        cbn in E. destruct Hin as [[= -> ->]|Hin].
        - rewrite String.eqb_refl in E. discriminate.
        - destruct (String.eqb sid k); [discriminate|auto]. }
      destruct Hk as (l & Hget).
      destruct (managed_record_valid w sid l HI Hget) as (m & Hm & Hrec & _).
      destruct (get_server_status_run sid l m env w Hget Hm) as (status & Es & Hstate & _).
      rewrite bind_run. cbv beta.
      rewrite (bind_Ret _ _ _ _ _ _ _ Es). cbn [res st eff].
      rewrite (bind_Ret _ _ _ _ _ _ _ Es). cbn [res st eff ret app].
      destruct (IH (Dict.set sid (Some status) acc)) as (d & E & Hd).
      + intros s Hin. apply Hsub. right. exact Hin.
      + intros s v Hin. apply dict_In_set in Hin as [[-> ->]|Hin]; [|auto].
        exists status, m. auto.
      + exists d. rewrite E. cbn. auto. }
  destruct (Hloop (Dict.keys (managed_servers w)) Dict.empty) as (d & E & Hd).
  - auto.
  - intros ? ? [].
  - exists d. split; [|exact Hd].
    match goal with
    | |- context [for_fold ?ids ?acc ?body env w] =>
        assert (Heq : for_fold ids acc body env w = mkOut (Ret d) w []) by exact E;
        rewrite Heq
    end.
    reflexivity.
Qed.

Lemma register_one_out server_id env acc tool w :
  (exists r w1 lvl msg,
      register_one server_id acc tool env w = mkOut (Ret r) w1 [Log lvl msg]
      /\ servers_store w1 = servers_store w
      /\ managed_servers w1 = managed_servers w)
  \/ (exists e, register_one server_id acc tool env w = mkOut (Raise e) w []).
Proof.
  destruct (split_once ":" server_id) as [[t n]|] eqn:Hsplit.
  - left. rewrite (register_one_run env w _ _ _ acc tool Hsplit).
    do 4 eexists. split; [reflexivity|]. split; reflexivity.
  - right.
    unfold register_one, DynamicToolRouter._generate_prefixed_name,
      Orchestrator._parse_server_id, bind, raise.
    rewrite Hsplit. eexists. reflexivity.
Qed.

Lemma register_loop_out server_id env listed :
  forall acc w,
    let out := for_fold listed acc (register_one server_id) env w in
    res out <> Stuck
    /\ servers_store (st out) = servers_store w
    /\ managed_servers (st out) = managed_servers w
    /\ Forall (fun e => exists lvl msg, e = Log lvl msg) (eff out).
Proof.
  cbv zeta. induction listed as [|tool listed IH]; intros acc w; cbn [for_fold].
  - cbn. split; [discriminate|]. repeat split; constructor.
  - destruct (register_one_out server_id env acc tool w)
      as [(r & w1 & lvl & msg & E & H1 & H2)|(e & E)].
    + rewrite (bind_Ret _ _ _ _ _ _ _ E). cbn [res st eff app].
      destruct (IH r w1) as (G1 & G2 & G3 & G4).
      split; [exact G1|]. split; [congruence|]. split; [congruence|].
      constructor; [eauto|exact G4].
    + rewrite (bind_Raise _ _ _ _ _ _ _ E). cbn.
      split; [discriminate|]. repeat split; constructor.
Qed.

(** What [discover_tools] does apart from the catalog: it meets no
    dangling address in a consistent state, it leaves the servers as they
    are, and the only client call it makes is [list_tools] on the client
    of the server, which is running. *)
Lemma discover_tools_frame server_id env w :
  Inv w ->
  let out := DynamicToolRouter.discover_tools server_id env w in
  res out <> Stuck
  /\ servers_store (st out) = servers_store w
  /\ managed_servers (st out) = managed_servers w
  /\ Forall (discovery_effect w) (eff out).
Proof.
  intros HI. cbv zeta. unfold DynamicToolRouter.discover_tools.
  rewrite (bind_Ret _ _ env w tt w
             [Log INFO ("Descubriendo herramientas del servidor: " ++ server_id)] eq_refl).
  cbn [res st eff].
  assert (Hc : exists r,
            Orchestrator.get_server_client server_id env w = mkOut (Ret r) w []
            /\ forall c, r = Some c -> live_client w c).
  { destruct (Dict.get server_id (managed_servers w)) as [l|] eqn:Hget.
    - destruct (managed_record_valid w server_id l HI Hget) as (m & Hm & Hrec & _).
      rewrite (get_server_client_run _ _ _ _ _ Hget Hm). eexists. split; [reflexivity|].
      intros c Hc. destruct (ManagedServer.is_running m) eqn:Hr; [|discriminate].
      apply is_running_true in Hr. exists server_id, m. auto.
    - exists None. split; [|discriminate].
      unfold Orchestrator.get_server_client, bind, gets. rewrite Hget. reflexivity. }
  destruct Hc as (r & Hc & Hlive).
  rewrite (bind_Ret _ _ _ _ _ _ _ Hc). cbn [res st eff].
  destruct r as [client|];
    [|cbn; split; [discriminate|]; split; [reflexivity|]; split; [reflexivity|];
      repeat constructor].
  rewrite (bind_Ret _ _ env w env w [] eq_refl). cbn [res st eff].
  destruct (negb (is_initialized env client));
    [cbn; split; [discriminate|]; split; [reflexivity|]; split; [reflexivity|];
     repeat constructor|].
  change (fun discovered tool => _) with (register_one server_id).
  assert (Hcall : discovery_effect w (ClientCall client ListTools)).
  { split; [reflexivity|]. apply Hlive. reflexivity. }
  rewrite try_except_run.
  destruct (list_tools env client) as [e|listed] eqn:Hlist.
  - rewrite (bind_Raise _ _ env w e w [ClientCall client ListTools])
      by (unfold DynamicToolRouter.await_list_tools; rewrite Hlist; reflexivity).
    cbn. split; [discriminate|]. split; [reflexivity|]. split; [reflexivity|].
    constructor; [exact I|]. constructor; [exact Hcall|]. repeat constructor.
  - rewrite (bind_Ret _ _ env w listed w [ClientCall client ListTools])
      by (unfold DynamicToolRouter.await_list_tools; rewrite Hlist; reflexivity).
    cbn [res st eff].
    rewrite bind_run.
    pose proof (register_loop_out server_id env listed [] w) as Hloop.
    cbv zeta in Hloop.
    set (loop := for_fold listed [] (register_one server_id) env w) in *.
    destruct Hloop as (H1 & H2 & H3 & H4).
    assert (H4' : Forall (discovery_effect w) (eff loop)).
    { eapply Forall_impl; [exact H4|]. intros e (lvl & msg & ->). exact I. }
    destruct (res loop) as [discovered|e|]; [| |contradiction]; cbn [res st eff].
    + cbn. split; [discriminate|]. split; [exact H2|]. split; [exact H3|].
      constructor; [exact I|]. constructor; [exact Hcall|].
      apply Forall_app. split; [exact H4'|]. repeat constructor.
    + cbn. split; [discriminate|]. split; [exact H2|]. split; [exact H3|].
      constructor; [exact I|]. constructor; [exact Hcall|].
      apply Forall_app. split; [exact H4'|]. repeat constructor.
Qed.

Lemma live_client_frame w w' c :
  servers_store w' = servers_store w ->
  managed_servers w' = managed_servers w ->
  live_client w' c -> live_client w c.
Proof.
  intros Hs Hm (sid & m & Hrec & Hst & Hc). exists sid, m.
  unfold managed_record in *. rewrite <- Hs, <- Hm. auto.
Qed.

Lemma discovery_effect_frame w w' e :
  servers_store w' = servers_store w ->
  managed_servers w' = managed_servers w ->
  discovery_effect w' e -> discovery_effect w e.
Proof.
  intros Hs Hm. destruct e; cbn; auto.
  intros [-> H]. split; [reflexivity|]. eapply live_client_frame; eauto.
Qed.

(** X18.  [discover_all_tools] returns in every consistent state, whatever
    the servers answer: a failed discovery is logged and skipped.  It leaves
    the servers as they are, notifies no listener, and the only calls it
    makes to clients are [list_tools] on clients of servers that are
    running. *)
Theorem X18_discover_all_tools_returns env w :
  Inv w ->
  let out := RouterCatalog.discover_all_tools env w in
  (exists all_tools, res out = Ret all_tools)
  /\ Inv (st out)
  /\ servers_store (st out) = servers_store w
  /\ managed_servers (st out) = managed_servers w
  /\ Forall (discovery_effect w) (eff out).
Proof.
  intros HI. cbv zeta. unfold RouterCatalog.discover_all_tools.
  rewrite (bind_Ret _ _ env w tt w
             [Log INFO "Descubriendo herramientas de todos los servidores"] eq_refl).
  cbn [res st eff].
  destruct (get_all_servers_status_run env w HI) as (d & Ed & Hd).
  rewrite (bind_Ret _ _ _ _ _ _ _ Ed). cbn [res st eff].
  set (J := fun (_ : list ToolRegistration.t) (w' : World) =>
              Inv w' /\ servers_store w' = servers_store w
              /\ managed_servers w' = managed_servers w).
  lazymatch goal with
  | |- context [for_fold (Dict.items d) ?a0 ?body] =>
      assert (Hloop : exists all_tools w1 t1,
                for_fold (Dict.items d) a0 body env w = mkOut (Ret all_tools) w1 t1
                /\ J all_tools w1 /\ Forall (discovery_effect w) t1);
      [apply for_fold_returns_eff|]
  end.
  - intros acc [server_id v] w' Hin (HI' & Hs' & Hm').
    destruct (Hd server_id v Hin) as (status & m & -> & _ & _).
    cbn [fst snd RouterCatalog.subscript_state].
    rewrite (bind_Ret _ _ env w' (Orchestrator.status_state status) w' [] eq_refl).
    cbn [res st eff app].
    destruct (String.eqb (Orchestrator.status_state status) "RUNNING").
    2:{ exists acc, w', []. split; [reflexivity|]. split; [|constructor].
        split; auto. }
    rewrite try_except_run, bind_run.
    destruct (discover_tools_frame server_id env w' HI') as (G1 & G2 & G3 & G4).
    cbv zeta in G1, G2, G3, G4.
    assert (G5 : Inv (st (DynamicToolRouter.discover_tools server_id env w'))).
    { apply Inv_InvK. apply preserves_run; [apply preserves_discover_tools|].
      apply Inv_InvK. exact HI'. }
    assert (G4' : Forall (discovery_effect w)
                    (eff (DynamicToolRouter.discover_tools server_id env w'))).
    { eapply Forall_impl; [exact G4|]. intros e. apply discovery_effect_frame; auto. }
    destruct (res (DynamicToolRouter.discover_tools server_id env w'))
      as [discovered|e|]; [| |contradiction]; unfold ret, bind, log, emit;
      cbn [res st eff].
    + eexists _, _, _. split; [reflexivity|]. split.
      * split; [exact G5|]. split; [rewrite G2; exact Hs'|rewrite G3; exact Hm'].
      * rewrite app_nil_r. exact G4'.
    + eexists _, _, _. split; [reflexivity|]. split.
      * split; [exact G5|]. split; [rewrite G2; exact Hs'|rewrite G3; exact Hm'].
      * apply Forall_app. split; [exact G4'|]. repeat constructor.
  - split; [exact HI|]. split; reflexivity.
  - destruct Hloop as (all_tools & w1 & t1 & E1 & (HI1 & Hs1 & Hm1) & T1).
    rewrite (bind_Ret _ _ _ _ _ _ _ E1). cbn.
    split; [eauto|]. split; [exact HI1|]. split; [exact Hs1|]. split; [exact Hm1|].
    constructor; [exact I|]. apply Forall_app. split; [exact T1|]. repeat constructor.
Qed.

(** * The manager at the limit of servers *)

(** X19.  A tenant at its limit.  When the context of the tenant tracks as
    many servers as the limit of ["max_servers"] or more, the manager's
    [start_tenant_servers] raises [QuotaExceededError] before it starts
    anything: it has only stamped the last activity of the context and
    written one log line; no server is started, also none of those the
    context tracks already. *)
Theorem X19_start_tenant_servers_at_quota env w tenant_id l c lim :
  Dict.get tenant_id (tenants w) = Some l ->
  contexts_store w !! l = Some c ->
  res (MultitenantManager.get_quota tenant_id "max_servers" env w) = Ret lim ->
  ge_limit (Z.of_nat (Dict.len (TenantContext.servers c))) lim = true ->
  MultitenantManager.start_tenant_servers tenant_id env w
  = mkOut
      (Raise (Exn QuotaExceededError
                ("Tenant " ++ tenant_id ++ " ha excedido su cuota de servidores")))
      (set_contexts_store
         (<[l := TenantContext.set_last_activity (now env) c]> (contexts_store w)) w)
      [Log INFO ("Iniciando servidores del tenant: " ++ tenant_id)].
Proof.
  intros Hget Hc Hq Hge.
  unfold MultitenantManager.start_tenant_servers.
  rewrite (bind_Ret _ _ env w tt w
             [Log INFO ("Iniciando servidores del tenant: " ++ tenant_id)] eq_refl).
  cbn [res st eff].
  rewrite (bind_Ret _ _ _ _ _ _ _ (get_or_create_existing tenant_id l c env w Hget Hc)).
  cbn [res st eff].
  set (w1 := set_contexts_store _ w).
  assert (Hc1 : contexts_store w1 !! l
                = Some (TenantContext.set_last_activity (now env) c)).
  { unfold w1. destruct w. cbn in *. apply list_lookup_insert_eq.
    eapply lookup_lt_Some; eauto. }
  assert (Hq1 : MultitenantManager.get_quota tenant_id "max_servers" env w1
                = mkOut (Ret lim) w1 []).
  { rewrite get_quota_run in Hq |- *. cbn [res] in Hq. injection Hq as <-.
    unfold w1. destruct w. reflexivity. }
  assert (Hcheck : MultitenantManager.check_quota tenant_id "max_servers" env w1
                   = mkOut (Raise (Exn QuotaExceededError
                       ("Tenant " ++ tenant_id ++ " ha excedido su cuota de servidores")))
                       w1 []).
  { unfold MultitenantManager.check_quota.
    rewrite (bind_Ret _ _ env w1 (Some l) w1 [])
      by (unfold gets, w1; destruct w; cbn in *; rewrite Hget; reflexivity).
    cbn [res st eff].
    rewrite (bind_Ret _ _ _ _ _ _ _ Hq1). cbn [res st eff].
    change ("max_servers" =? "max_servers")%string with true. cbn match.
    assert (Hinner :
              (c <- deref_context l ;;
               (if ge_limit (Z.of_nat (Dict.len (TenantContext.servers c))) lim
                then raise (Exn QuotaExceededError
                       ("Tenant " ++ tenant_id ++ " ha excedido su cuota de servidores"))
                else ret tt)) env w1
              = mkOut (Raise (Exn QuotaExceededError
                         ("Tenant " ++ tenant_id ++ " ha excedido su cuota de servidores")))
                      w1 []).
    { rewrite (bind_Ret _ _ env w1 (TenantContext.set_last_activity (now env) c) w1 [])
        by (unfold deref_context; rewrite Hc1; reflexivity).
      cbn [res st eff]. destruct c; cbn in *. rewrite Hge. reflexivity. }
    rewrite (bind_Raise _ _ _ _ _ _ _ Hinner). reflexivity. }
  rewrite (bind_Raise _ _ _ _ _ _ _ Hcheck). reflexivity.
Qed.

(** * Parts of the state an operation leaves alone *)

(** Properties of the state that do not depend on the records of the
    servers, on the catalog or on the contexts are kept by the operations
    that only assign to these. *)
Section Frames.

Variable P : World -> Prop.
Hypothesis P_servers : forall s w, P w -> P (set_servers_store s w).
Hypothesis P_tools : forall t w, P w -> P (set_tools t w).
Hypothesis P_contexts : forall c w, P w -> P (set_contexts_store c w).

Lemma frame_update_server l f : preserves P (update_server l f).
Proof.
  intros env w H. unfold update_server.
  destruct (servers_store w !! l); cbn; auto.
Qed.

Lemma frame_update_context l f : preserves P (update_context l f).
Proof.
  intros env w H. unfold update_context.
  destruct (contexts_store w !! l); cbn; auto.
Qed.

Create HintDb framedb.

Ltac fr_step :=
  first
    [ progress cbv beta zeta
    | solve [ apply readonly_hoare_weak; [ readonly_tac | intros ? ?; assumption ] ]
    | solve [ apply frame_update_server ]
    | solve [ apply frame_update_context ]
    | solve [ apply hoare_modify; intros ? ?; apply P_tools; assumption ]
    | solve [ eauto 2 with framedb nocore ]
    | eapply hoare_bind; [ | intros ?; cbv beta ]
    | match goal with
      | |- hoare _ (try_except _ _) _ ?E =>
          eapply hoare_try with (E' := E);
          [ | intros ? ? ?; cbv beta | intros ? ?; assumption ]
      end
    | apply hoare_for_each; intros ? ?
    | match goal with
      | H : Some _ = Some _ |- _ => injection H as <-
      | H : None = Some _ |- _ => discriminate H
      | H : (if ?b then _ else _) = Some _ |- _ => destruct b
      | |- hoare _ (match ?x with _ => _ end) _ _ => destruct x
      | |- hoare _ (raise _) _ _ => apply hoare_raise; intros ? ?; assumption
      | |- hoare _ (ret _) _ _ => apply hoare_ret; intros ? ?; assumption
      end ].

Ltac fr_tac := repeat fr_step.

Lemma frame_stop_server_enter sid :
  preserves P (Orchestrator.stop_server_enter sid).
Proof. unfold Orchestrator.stop_server_enter. fr_tac. Qed.
#[local] Hint Resolve frame_stop_server_enter : framedb.

Lemma frame_stop_server_resume sid managed client awaited :
  readonly awaited ->
  preserves P (Orchestrator.stop_server_resume sid managed client awaited).
Proof.
  intros Hro. unfold Orchestrator.stop_server_resume.
  eapply hoare_try with (E' := P); [| |auto].
  - eapply hoare_bind.
    + destruct client.
      * eapply hoare_bind; [apply readonly_hoare; exact Hro|]. intros ?. fr_tac.
      * fr_tac.
    + intros ?. fr_tac.
  - intros e k Hk. fr_tac.
Qed.

Lemma frame_stop_server sid : preserves P (Orchestrator.stop_server sid).
Proof.
  unfold Orchestrator.stop_server.
  eapply hoare_bind; [apply frame_stop_server_enter|].
  intros [[managed client]|]; [|fr_tac].
  apply frame_stop_server_resume. destruct client; readonly_tac.
Qed.
#[local] Hint Resolve frame_stop_server : framedb.

Lemma frame_stop_tenant_servers t :
  preserves P (Orchestrator.stop_tenant_servers t).
Proof.
  unfold Orchestrator.stop_tenant_servers.
  eapply hoare_bind; [fr_step|]. intros ?.
  eapply hoare_bind; [fr_step|]. intros items.
  eapply hoare_bind.
  - apply readonly_hoare_weak; [readonly_tac|auto].
  - intros ids. fr_tac.
Qed.
#[local] Hint Resolve frame_stop_tenant_servers : framedb.

Lemma frame_clear_tools sid : preserves P (DynamicToolRouter.clear_tools sid).
Proof. unfold DynamicToolRouter.clear_tools, DynamicToolRouter.del_tool. fr_tac. Qed.
#[local] Hint Resolve frame_clear_tools : framedb.


End Frames.

(** * Eviction of idle tenants *)





(** * Wrappers *)

Lemma first_with_prefixed_name_In tool_name regs reg :
  In reg regs -> ToolRegistration.prefixed_name reg = tool_name ->
  exists reg', DynamicToolRouter.first_with_prefixed_name tool_name regs = Some reg'.
Proof.
  induction regs as [|r regs IH]; cbn; [intros []|].
  intros [->|Hin] Hname.
  - rewrite Hname, String.eqb_refl. eauto.
  - destruct (String.eqb _ _); eauto.
Qed.

Lemma create_tool_wrapper_run tool_name reg env w :
  DynamicToolRouter.first_with_prefixed_name tool_name (Dict.values (tools w))
  = Some reg ->
  RouterCatalog.create_tool_wrapper tool_name env w
  = mkOut (Ret (RouterCatalog.mkToolWrapper tool_name
                  (ToolRegistration.description reg)
                  (fun kwargs => DynamicToolRouter.call_tool tool_name kwargs None)))
          w [].
Proof.
  intros H. unfold RouterCatalog.create_tool_wrapper.
  rewrite (bind_Ret _ _ _ _ _ _ _ (get_tool_run tool_name env w)). cbn [res st eff].
  rewrite H. reflexivity.
Qed.

Lemma wrappers_loop env w regs :
  (forall reg, In reg regs -> In reg (Dict.values (tools w))) ->
  forall acc,
  exists wrappers,
    for_fold regs acc
      (fun wrappers registration =>
         try_except
           (wrapper <- RouterCatalog.create_tool_wrapper
                         (ToolRegistration.prefixed_name registration) ;;
            ret (Dict.set (ToolRegistration.prefixed_name registration)
                          wrapper wrappers))
           (fun e =>
              if isinstance e ToolNotFoundError then Some (ret wrappers)
              else None)) env w
    = mkOut (Ret wrappers) w []
    /\ forall tool_name,
         Dict.get tool_name wrappers
         = match DynamicToolRouter.first_with_prefixed_name tool_name regs with
           | Some _ =>
               match DynamicToolRouter.first_with_prefixed_name tool_name
                       (Dict.values (tools w)) with
               | Some reg =>
                   Some (RouterCatalog.mkToolWrapper tool_name
                           (ToolRegistration.description reg)
                           (fun kwargs =>
                              DynamicToolRouter.call_tool tool_name kwargs None))
               | None => None
               end
           | None => Dict.get tool_name acc
           end.
Proof.
  induction regs as [|registration regs IH]; intros Hsub acc; cbn [for_fold].
  - exists acc. split; [reflexivity|]. reflexivity.
  - destruct (first_with_prefixed_name_In
                (ToolRegistration.prefixed_name registration) (Dict.values (tools w))
                registration (Hsub _ (or_introl eq_refl)) eq_refl) as [reg Hreg].
    set (p := ToolRegistration.prefixed_name registration) in *.
    set (wr := RouterCatalog.mkToolWrapper p (ToolRegistration.description reg)
                 (fun kwargs => DynamicToolRouter.call_tool p kwargs None)).
    destruct (IH (fun r Hin => Hsub r (or_intror Hin)) (Dict.set p wr acc))
      as (wrappers & E & Hget).
    exists wrappers. split.
    + assert (Hbody :
        try_except
          (wrapper <- RouterCatalog.create_tool_wrapper p ;;
           ret (Dict.set p wrapper acc))
          (fun e => if isinstance e ToolNotFoundError then Some (ret acc) else None)
          env w
        = mkOut (Ret (Dict.set p wr acc)) w []).
      { apply try_except_Ret.
        rewrite (bind_Ret _ _ _ _ _ _ _ (create_tool_wrapper_run p reg env w Hreg)).
        reflexivity. }
      rewrite (bind_Ret _ _ _ _ _ _ _ Hbody). cbn [res st eff app].
      rewrite E. reflexivity.
    + intros tool_name. rewrite Hget. cbn [DynamicToolRouter.first_with_prefixed_name].
      fold p. destruct (String.eqb_spec p tool_name) as [->|Hne].
      * rewrite Hreg, dict_get_set_eq.
        destruct (DynamicToolRouter.first_with_prefixed_name tool_name regs);
          reflexivity.
      * destruct (DynamicToolRouter.first_with_prefixed_name tool_name regs);
          [reflexivity|].
        apply dict_get_set_ne. congruence.
Qed.

(** X21.  One wrapper per name.  [create_all_tool_wrappers] returns normally
    and changes nothing; the handler of [ToolNotFoundError] in its loop is
    never entered.  The dictionary it returns has an entry exactly for the
    prefixed names of the catalog; the wrapper under a name carries that
    name, the description of the first catalog entry with that name, and
    calls [call_tool] with that name, so that catalog entries sharing a
    prefixed name share one wrapper. *)
Theorem X21_create_all_tool_wrappers_by_name env w :
  exists wrappers,
    RouterCatalog.create_all_tool_wrappers env w
    = mkOut (Ret wrappers) w [Log INFO "Wrappers creados"]
    /\ forall tool_name,
         Dict.get tool_name wrappers
         = match DynamicToolRouter.first_with_prefixed_name tool_name
                   (Dict.values (tools w)) with
           | Some reg =>
               Some (RouterCatalog.mkToolWrapper tool_name
                       (ToolRegistration.description reg)
                       (fun kwargs =>
                          DynamicToolRouter.call_tool tool_name kwargs None))
           | None => None
           end.
Proof.
  destruct (wrappers_loop env w (Dict.values (tools w)) (fun _ H => H) Dict.empty)
    as (wrappers & E & Hget).
  exists wrappers. split.
  - unfold RouterCatalog.create_all_tool_wrappers.
    rewrite (bind_Ret _ _ env w (Dict.values (tools w)) w [] eq_refl).
    cbn [res st eff].
    rewrite (bind_Ret _ _ _ _ _ _ _ E). reflexivity.
  - intros tool_name. rewrite Hget.
    destruct (DynamicToolRouter.first_with_prefixed_name tool_name
                (Dict.values (tools w))); reflexivity.
Qed.

(** * The manager stops the servers of a tenant *)

Lemma orch_stop_tenant_servers_returns env w tenant_id :
  Inv w -> Forall named (_observers w) ->
  exists t w1,
    Orchestrator.stop_tenant_servers tenant_id env w = mkOut (Ret tt) w1 t
    /\ tools w1 = tools w
    /\ contexts_store w1 = contexts_store w
    /\ tenants w1 = tenants w.
Proof.
  intros HI Hnamed.
  pose proof (preserves_run _ _ env w
                (frame_stop_tenant_servers
                   (fun w' => tools w' = tools w
                              /\ contexts_store w' = contexts_store w
                              /\ tenants w' = tenants w)
                   (fun _ _ H => H) tenant_id)
                (conj eq_refl (conj eq_refl eq_refl))) as Hfr.
  cbv beta in Hfr. revert Hfr.
  unfold Orchestrator.stop_tenant_servers.
  rewrite (bind_Ret _ _ env w tt w
             [Log INFO ("Deteniendo servidores del tenant: " ++ tenant_id)] eq_refl).
  cbn [res st eff].
  rewrite (bind_Ret _ _ env w (Dict.items (managed_servers w)) w [] eq_refl).
  cbn [res st eff].
  destruct (stop_tenant_ids tenant_id env w (Dict.items (managed_servers w)) [])
    as (ids & E & _).
  { intros sid l Hin. destruct HI as (_ & Ht & _).
    destruct (Ht sid l Hin) as (m & Hm & _). eauto. }
  rewrite (bind_Ret _ _ _ _ _ _ _ E). cbn [res st eff app].
  destruct (stop_loop env ids w HI Hnamed) as (t & w' & E2 & _).
  rewrite E2. cbn [res st eff]. intros Hfr. eauto.
Qed.

(** Clearing the tools of several servers, one after the other. *)
Lemma clear_loop env ids :
  forall w,
    NoDup (Dict.keys (tools w)) -> Forall (fun sid => sid <> "") ids ->
    exists t,
      for_each ids (fun sid => DynamicToolRouter.clear_tools (Some sid)) env w
      = mkOut (Ret tt)
          (set_tools
             (List.filter
                (fun item =>
                   negb (existsb (String.eqb (ToolRegistration.server_id item.2)) ids))
                (tools w)) w) t.
Proof.
  induction ids as [|sid ids IH]; intros w Hnd Hne; cbn [for_each].
  - exists []. cbn. unfold ret. f_equal.
    rewrite forallb_filter_id by (apply forallb_forall; reflexivity).
    destruct w; reflexivity.
  - apply Forall_cons in Hne as [Hsid Hne].
    destruct sid as [|c s]; [contradiction|].
    rewrite (bind_Ret _ _ _ _ _ _ _ (clear_tools_run env w c s Hnd)).
    cbn [res st eff].
    set (p1 := fun item : string * ToolRegistration.t =>
                 negb (String.eqb (ToolRegistration.server_id item.2) (String c s))).
    destruct (IH (set_tools (List.filter p1 (tools w)) w)) as (t & E).
    { cbn. apply NoDup_keys_filter, Hnd. }
    { exact Hne. }
    rewrite E. cbn [res st eff]. eexists. f_equal.
    cbn [tools set_tools].
    assert (Hf : forall d : Dict.t ToolRegistration.t,
              List.filter
                (fun item : string * ToolRegistration.t =>
                   negb (existsb (String.eqb (ToolRegistration.server_id item.2)) ids))
                (List.filter p1 d)
              = List.filter
                  (fun item : string * ToolRegistration.t =>
                     negb (existsb (String.eqb (ToolRegistration.server_id item.2))
                             (String c s :: ids))) d).
    { induction d as [|[k0 v0] d IHd]; [reflexivity|]. cbn [List.filter existsb].
      unfold p1 at 1. cbn [snd].
      destruct (String.eqb (ToolRegistration.server_id v0) (String c s)); cbn;
        [exact IHd|].
      destruct (existsb (String.eqb (ToolRegistration.server_id v0)) ids); cbn;
        [exact IHd|]. f_equal. exact IHd. }
    destruct w; cbn. rewrite Hf. reflexivity.
Qed.

(** X22.  The manager forgets what it stopped.  For a tenant that has a
    context, in a consistent state and with named listeners, the manager's
    [stop_tenant_servers] returns normally; the context is then the same
    object, stamped, tracking no server and no tool, and [get_tenant_tools]
    returns the empty list; the catalog has lost exactly the entries of the
    servers the context tracked. *)
Theorem X22_manager_stop_tenant_servers_forgets env env' w tenant_id c :
  Inv w -> NoDup (Dict.keys (tools w)) -> Forall named (_observers w) ->
  tenant_context w tenant_id = Some c ->
  let out := MultitenantManager.stop_tenant_servers tenant_id env w in
  res out = Ret tt
  /\ tenants (st out) = tenants w
  /\ tenant_context (st out) tenant_id
     = Some (TenantContext.set_last_activity (now env)
               (TenantContext.set_tools []
                  (TenantContext.set_servers Dict.empty c)))
  /\ tools (st out)
     = List.filter
         (fun item =>
            negb (existsb (String.eqb (ToolRegistration.server_id item.2))
                    (Dict.keys (TenantContext.servers c))))
         (tools w)
  /\ MultitenantManager.get_tenant_tools tenant_id env' (st out)
     = mkOut (Ret []) (st out) [].
Proof.
  intros HI Hnd Hnamed Hctx. cbv zeta.
  unfold tenant_context in Hctx.
  destruct (Dict.get tenant_id (tenants w)) as [l|] eqn:Hget; [|discriminate].
  assert (Hids : Forall (fun sid => sid <> "") (Dict.keys (TenantContext.servers c))).
  { destruct HI as (_ & _ & Hc & _).
    pose proof (Forall_lookup_1 _ _ _ _ Hc Hctx) as Hok.
    apply Forall_forall. intros sid Hin. apply list_elem_of_In in Hin.
    unfold Dict.keys in Hin. apply in_map_iff in Hin as ([k v] & <- & Hin).
    destruct (Hok k v Hin) as (name & ->). cbn.
    destruct (TenantContext.tenant_id c); discriminate. }
  destruct (orch_stop_tenant_servers_returns env w tenant_id HI Hnamed)
    as (t1 & w1 & E1 & Ht1 & Hc1 & Hn1).
  destruct (clear_loop env (Dict.keys (TenantContext.servers c)) w1) as (t2 & E2);
    [rewrite Ht1; exact Hnd|exact Hids|].
  set (w2 := set_tools _ w1) in E2.
  set (c' := TenantContext.set_last_activity (now env)
               (TenantContext.set_tools []
                  (TenantContext.set_servers Dict.empty c))).
  assert (Hlen : (l < List.length (contexts_store w1))%nat).
  { rewrite Hc1. eapply lookup_lt_Some; eauto. }
  assert (Hrun : exists t,
            MultitenantManager.stop_tenant_servers tenant_id env w
            = mkOut (Ret tt)
                (set_contexts_store (<[l := c']> (contexts_store w1)) w2) t).
  { unfold MultitenantManager.stop_tenant_servers.
    rewrite (bind_Ret _ _ env w tt w
               [Log INFO ("Deteniendo servidores del tenant: " ++ tenant_id)] eq_refl).
    cbn [res st eff].
    rewrite (bind_Ret _ _ _ _ _ _ _ E1). cbn [res st eff].
    rewrite (bind_Ret _ _ env w1 (Some l) w1 [])
      by (unfold gets; rewrite Hn1, Hget; reflexivity).
    cbn [res st eff].
    rewrite (bind_Ret _ _ env w1 tt
               (set_contexts_store (<[l := c']> (contexts_store w1)) w2) t2).
    { cbn. eexists. reflexivity. }
    rewrite (bind_Ret _ _ env w1 c w1 [])
      by (unfold deref_context; rewrite Hc1, Hctx; reflexivity).
    cbn [res st eff].
    rewrite (bind_Ret _ _ _ _ _ _ _ E2). cbn [res st eff].
    unfold TenantContextMethods.update_activity, bind, ask, update_context.
    unfold w2. destruct w1; cbn in *. subst.
    rewrite Hctx. cbn.
    rewrite list_lookup_insert_eq by exact Hlen. cbn.
    rewrite list_insert_insert_eq.
    rewrite list_lookup_insert_eq by exact Hlen. cbn.
    rewrite list_insert_insert_eq. rewrite app_nil_r. reflexivity. }
  destruct Hrun as (t & Hrun). rewrite Hrun. cbn [res st].
  split; [reflexivity|]. split; [unfold w2; cbn; exact Hn1|].
  assert (Hctx' : tenant_context
                    (set_contexts_store (<[l := c']> (contexts_store w1)) w2) tenant_id
                  = Some c').
  { unfold tenant_context, w2. cbn. rewrite Hn1, Hget.
    apply list_lookup_insert_eq. exact Hlen. }
  split; [exact Hctx'|]. split.
  - unfold w2. cbn. rewrite Ht1. reflexivity.
  - unfold MultitenantManager.get_tenant_tools, MultitenantManager.get_tenant.
    unfold tenant_context in Hctx'.
    destruct (Dict.get tenant_id
                (tenants (set_contexts_store (<[l := c']> (contexts_store w1)) w2)))
      as [l'|] eqn:Hget'; [|discriminate].
    rewrite (bind_Ret _ _ _ _ (Some l') _ [])
      by (unfold gets; rewrite Hget'; reflexivity).
    cbn [res st eff].
    rewrite (bind_Ret _ _ _ _ c' _ [])
      by (unfold deref_context; rewrite Hctx'; reflexivity).
    reflexivity.
Qed.

(** * Listings *)

Lemma dict_set_fresh {V} k (v : V) d :
  ~ In k (Dict.keys d) -> Dict.set k v d = (d ++ [(k, v)])%list.
Proof.
  induction d as [|[k' v'] d IH]; cbn; [reflexivity|].
  intros Hnin. destruct (String.eqb_spec k k') as [->|Hne].
  - exfalso. apply Hnin. left. reflexivity.
  - f_equal. apply IH. intros Hin. apply Hnin. right. exact Hin.
Qed.

(** X23.  The status of every server.  In a consistent state
    [get_all_servers_status] changes nothing and returns one entry for every
    managed id, in the order of the table; the value of an entry is what
    [get_server_status] returns for the id, and it is never [None]: the
    filter of the comprehension excludes nothing. *)
Theorem X23_get_all_servers_status_lists_table env w :
  Inv w -> NoDup (Dict.keys (managed_servers w)) ->
  exists d,
    OrchestratorStatus.get_all_servers_status env w = mkOut (Ret d) w []
    /\ Dict.keys d = Dict.keys (managed_servers w)
    /\ forall server_id v,
         In (server_id, v) d ->
         v <> None
         /\ Orchestrator.get_server_status server_id env w = mkOut (Ret v) w [].
Proof.
  intros HI Hnd. unfold OrchestratorStatus.get_all_servers_status.
  rewrite (bind_Ret _ _ env w (Dict.keys (managed_servers w)) w [] eq_refl).
  cbn [res st eff].
  assert (Hloop : forall ids acc,
            (forall sid, In sid ids -> In sid (Dict.keys (managed_servers w))) ->
            NoDup ids ->
            (forall sid, In sid ids -> ~ In sid (Dict.keys acc)) ->
            exists l,
              for_fold ids acc
                (fun result server_id =>
                   condition <- Orchestrator.get_server_status server_id ;;
                   match condition with
                   | None => ret result
                   | Some _ =>
                       value <- Orchestrator.get_server_status server_id ;;
                       ret (Dict.set server_id value result)
                   end) env w
              = mkOut (Ret (acc ++ l)%list) w []
              /\ List.map fst l = ids
              /\ forall server_id v,
                   In (server_id, v) l ->
                   v <> None
                   /\ Orchestrator.get_server_status server_id env w
                      = mkOut (Ret v) w []).
  { induction ids as [|sid ids IH]; intros acc Hsub Hids Hfresh; cbn [for_fold].
    - exists []. rewrite app_nil_r. split; [reflexivity|]. split; [reflexivity|].
      intros ? ? [].
    - apply NoDup_cons in Hids as [Hnin Hids].
      pose proof (Hsub sid (or_introl eq_refl)) as Hin.
      unfold Dict.keys in Hin. apply in_map_iff in Hin as ([sid' l0] & Hfst & Hin).
      cbn in Hfst. subst sid'.
      assert (Hget : exists l1, Dict.get sid (managed_servers w) = Some l1).
      { destruct (Dict.get sid (managed_servers w)) as [l1|] eqn:Hg; [eauto|].
        exfalso. apply dict_mem_In in Hin. unfold Dict.mem in Hin.
        rewrite Hg in Hin. discriminate. }
      destruct Hget as (l1 & Hget).
      destruct (managed_record_valid w sid l1 HI Hget) as (m & Hm & _).
      destruct (get_server_status_run sid l1 m env w Hget Hm) as (status & Es & _).
      rewrite bind_run. cbv beta.
      rewrite (bind_Ret _ _ _ _ _ _ _ Es). cbn [res st eff].
      rewrite (bind_Ret _ _ _ _ _ _ _ Es). cbn [res st eff ret app].
      rewrite (dict_set_fresh sid (Some status) acc)
        by (apply Hfresh; left; reflexivity).
      destruct (IH (acc ++ [(sid, Some status)])%list) as (l & E & Hkeys & Hvals).
      + intros s Hs. apply Hsub. right. exact Hs.
      + exact Hids.
      + intros s Hs Hin'. unfold Dict.keys in Hin'. rewrite map_app in Hin'.
        apply in_app_iff in Hin' as [Hin'|[<-|[]]].
        * apply (Hfresh s (or_intror Hs)). exact Hin'.
        * apply Hnin. apply list_elem_of_In. exact Hs.
      + exists ((sid, Some status) :: l). rewrite E, <- app_assoc.
        split; [reflexivity|]. split; [cbn; f_equal; exact Hkeys|].
        intros server_id v [[= <- <-]|Hin'].
        * split; [discriminate|exact Es].
        * apply Hvals. exact Hin'. }
  destruct (Hloop (Dict.keys (managed_servers w)) Dict.empty) as (l & E & Hkeys & Hvals).
  - auto.
  - exact Hnd.
  - intros sid _ [].
  - exists l. split; [|split; [exact Hkeys|exact Hvals]].
    match goal with
    | |- context [for_fold ?ids ?acc ?body env w] =>
        assert (Heq : for_fold ids acc body env w = mkOut (Ret l) w []) by exact E;
        rewrite Heq
    end.
    reflexivity.
Qed.

(** X24.  Clearing, then listing.  After [clear_tools] with some argument,
    [list_tools] with the same argument returns the empty list, be the
    argument an id, the empty string or [None]; after [clear_tools] with the
    id of a server, [get_tools_by_server] finds nothing for it. *)
Theorem X24_clear_tools_then_list_tools env env' w server_id :
  NoDup (Dict.keys (tools w)) ->
  let w' := st (DynamicToolRouter.clear_tools server_id env w) in
  RouterCatalog.list_tools server_id env' w' = mkOut (Ret []) w' []
  /\ forall sid, server_id = Some sid ->
       DynamicToolRouter.get_tools_by_server sid env' w' = mkOut (Ret []) w' [].
Proof.
  intros Hnd. cbv zeta.
  assert (Hempty : forall sid (d : Dict.t ToolRegistration.t),
            List.filter
              (fun reg => String.eqb (ToolRegistration.server_id reg) sid)
              (Dict.values
                 (List.filter
                    (fun item : string * ToolRegistration.t =>
                       negb (String.eqb (ToolRegistration.server_id item.2) sid)) d))
            = []).
  { intros sid d. induction d as [|[k r] d IH]; [reflexivity|]. cbn.
    destruct (String.eqb (ToolRegistration.server_id r) sid) eqn:E; cbn; [exact IH|].
    rewrite E. exact IH. }
  destruct server_id as [[|c s]|].
  - split; [reflexivity|]. intros sid [= <-]. reflexivity.
  - rewrite (clear_tools_run env w c s Hnd). cbn [st].
    split.
    + unfold RouterCatalog.list_tools, bind, gets, ret.
      cbn -[List.filter Dict.values String.eqb].
      rewrite (Hempty (String c s) (tools w)). reflexivity.
    + intros sid [= <-].
      unfold DynamicToolRouter.get_tools_by_server, bind, gets, ret.
      cbn -[List.filter Dict.values String.eqb].
      rewrite (Hempty (String c s) (tools w)). reflexivity.
  - split; [reflexivity|]. intros sid [=].
Qed.

(** * The client *)

Lemma client_bind_ret {A B} (m : StdioClientWrapper.C A)
  (k : A -> StdioClientWrapper.C B) sdk self n a self1 n1 t1 :
  m sdk self n = StdioClientWrapper.mkRun (inr a) self1 n1 t1 ->
  StdioClientWrapper.bind m k sdk self n
  = StdioClientWrapper.mkRun
      (StdioClientWrapper.outcome (k a sdk self1 n1))
      (StdioClientWrapper.object (k a sdk self1 n1))
      (StdioClientWrapper.awaits (k a sdk self1 n1))
      (t1 ++ StdioClientWrapper.events (k a sdk self1 n1)).
Proof.
  intros H. unfold StdioClientWrapper.bind. rewrite H.
  destruct (k a sdk self1 n1); reflexivity.
Qed.

Lemma client_bind_raise {A B} (m : StdioClientWrapper.C A)
  (k : A -> StdioClientWrapper.C B) sdk self n e self1 n1 t1 :
  m sdk self n = StdioClientWrapper.mkRun (inl e) self1 n1 t1 ->
  StdioClientWrapper.bind m k sdk self n
  = StdioClientWrapper.mkRun (inl e) self1 n1 t1.
Proof. intros H. unfold StdioClientWrapper.bind. rewrite H. reflexivity. Qed.

(** X25.  Connecting.  On a client that is not connected, [connect] returns
    exactly when entering the stdio context and entering the session both
    return; otherwise it raises [MCPConnectionError].  It never awaits an
    exit: when it fails, the [disconnect] of its handler finds the client
    not connected and returns at once, so that the stdio context the client
    holds, entered or not, is not exited. *)
Theorem X25_connect_failure_keeps_context sdk self n :
  StdioClientWrapper._connected self = false ->
  let run := StdioClientWrapper.connect sdk self n in
  (StdioClientWrapper.outcome run = inr tt
   <-> (exists r1 r2, sdk n = StdioClientWrapper.Returns r1
                      /\ sdk (S n) = StdioClientWrapper.Returns r2))
  /\ (StdioClientWrapper.outcome run = inr tt ->
      StdioClientWrapper._connected (StdioClientWrapper.object run) = true)
  /\ (StdioClientWrapper.outcome run <> inr tt ->
      (exists msg,
         StdioClientWrapper.outcome run
         = inl (StdioClientWrapper.Other (Exn MCPConnectionError msg)))
      /\ StdioClientWrapper._connected (StdioClientWrapper.object run) = false
      /\ StdioClientWrapper._stdio_context (StdioClientWrapper.object run) = true)
  /\ forall c,
       In (StdioClientWrapper.Awaited c) (StdioClientWrapper.events run) ->
       c = StdioClientWrapper.StdioEnter \/ c = StdioClientWrapper.SessionEnter.
Proof.
  intros Hc. cbv zeta. destruct self as [mr se sc co ini info]. cbn in Hc. subst co.
  unfold StdioClientWrapper.connect, StdioClientWrapper.bind,
    StdioClientWrapper.try_except, StdioClientWrapper.get,
    StdioClientWrapper.assign, StdioClientWrapper.await,
    StdioClientWrapper.log, StdioClientWrapper.disconnect,
    StdioClientWrapper.raise, StdioClientWrapper.ret.
  cbn.
  destruct (sdk n) as [r1|e1|]; cbn.
  - destruct (sdk (S n)) as [r2|e2|]; cbn.
    + split; [split; eauto|]. split; [reflexivity|]. split; [intros []; reflexivity|].
      intros c [[= <-]|[[= <-]|[[=]|[]]]]; auto.
    + split; [split; [discriminate|intros (? & ? & _ & [=])]|].
      split; [discriminate|]. split; [intros _; eauto|].
      intros c [[= <-]|[[= <-]|[[=]|[]]]]; auto.
    + split; [split; [discriminate|intros (? & ? & _ & [=])]|].
      split; [discriminate|]. split; [intros _; eauto|].
      intros c [[= <-]|[[= <-]|[[=]|[]]]]; auto.
  - split; [split; [discriminate|intros (? & ? & [=] & _)]|].
    split; [discriminate|]. split; [intros _; eauto|].
    intros c [[= <-]|[[=]|[]]]; auto.
  - split; [split; [discriminate|intros (? & ? & [=] & _)]|].
    split; [discriminate|]. split; [intros _; eauto|].
    intros c [[= <-]|[[=]|[]]]; auto.
Qed.

(** X26.  Disconnecting.  [disconnect] never raises.  On a client that is
    not connected it does nothing, whatever the client still holds.  On a
    connected client it resets every attribute exactly when the exits it
    awaits return; when one of them fails, the failure is logged and the
    client is left as it was but for a session already closed: it still
    answers that it is connected. *)
Theorem X26_disconnect_never_raises sdk self n :
  let run := StdioClientWrapper.disconnect sdk self n in
  StdioClientWrapper.outcome run = inr tt
  /\ (StdioClientWrapper._connected self = false ->
      run = StdioClientWrapper.mkRun (inr tt) self n [])
  /\ (StdioClientWrapper._connected self = true ->
      (StdioClientWrapper.object run
       = StdioClientWrapper.mk (StdioClientWrapper.max_retries self)
           false false false false None
       /\ forall i, (n <= i < StdioClientWrapper.awaits run)%nat ->
                    exists r, sdk i = StdioClientWrapper.Returns r)
      \/ (StdioClientWrapper._connected (StdioClientWrapper.object run) = true
          /\ StdioClientWrapper._initialized (StdioClientWrapper.object run)
             = StdioClientWrapper._initialized self
          /\ StdioClientWrapper._server_info (StdioClientWrapper.object run)
             = StdioClientWrapper._server_info self
          /\ StdioClientWrapper._stdio_context (StdioClientWrapper.object run)
             = StdioClientWrapper._stdio_context self
          /\ (n < StdioClientWrapper.awaits run)%nat
          /\ forall r, sdk (StdioClientWrapper.awaits run - 1)%nat
                       <> StdioClientWrapper.Returns r)).
Proof.
  cbv zeta. destruct self as [mr se sc co ini info].
  unfold StdioClientWrapper.disconnect, StdioClientWrapper.bind,
    StdioClientWrapper.try_except, StdioClientWrapper.get,
    StdioClientWrapper.assign, StdioClientWrapper.await,
    StdioClientWrapper.log, StdioClientWrapper.raise, StdioClientWrapper.ret.
  cbn. destruct co; cbn; [|split; [reflexivity|]; split; [reflexivity|discriminate]].
  destruct se; cbn.
  - destruct (sdk n) as [r1|e1|] eqn:E1; cbn.
    + destruct sc; cbn.
      * destruct (sdk (S n)) as [r2|e2|] eqn:E2; cbn.
        -- split; [reflexivity|]. split; [discriminate|]. intros _. left.
           split; [reflexivity|]. intros i Hi.
           assert (i = n \/ i = S n) as [->| ->] by lia; eauto.
        -- split; [reflexivity|]. split; [discriminate|]. intros _. right.
           repeat split; try lia.
           intros r Hr; cbn in Hr; rewrite ?Nat.sub_0_r in Hr; congruence.
        -- split; [reflexivity|]. split; [discriminate|]. intros _. right.
           repeat split; try lia.
           intros r Hr; cbn in Hr; rewrite ?Nat.sub_0_r in Hr; congruence.
      * split; [reflexivity|]. split; [discriminate|]. intros _. left.
        split; [reflexivity|]. intros i Hi. assert (i = n) as -> by lia. eauto.
    + split; [reflexivity|]. split; [discriminate|]. intros _. right.
      repeat split; try lia.
      intros r Hr; cbn in Hr; rewrite ?Nat.sub_0_r in Hr; congruence.
    + split; [reflexivity|]. split; [discriminate|]. intros _. right.
      repeat split; try lia.
      intros r Hr; cbn in Hr; rewrite ?Nat.sub_0_r in Hr; congruence.
  - destruct sc; cbn.
    + destruct (sdk n) as [r2|e2|] eqn:E2; cbn.
      * split; [reflexivity|]. split; [discriminate|]. intros _. left.
        split; [reflexivity|]. intros i Hi. assert (i = n) as -> by lia. eauto.
      * split; [reflexivity|]. split; [discriminate|]. intros _. right.
        repeat split; try lia.
        intros r Hr; cbn in Hr; rewrite ?Nat.sub_0_r in Hr; congruence.
      * split; [reflexivity|]. split; [discriminate|]. intros _. right.
        repeat split; try lia.
        intros r Hr; cbn in Hr; rewrite ?Nat.sub_0_r in Hr; congruence.
    + split; [reflexivity|]. split; [discriminate|]. intros _. left.
      split; [reflexivity|]. intros i Hi. lia.
Qed.

(** One round of the loop of [call_tool]. *)
Lemma attempts_step sdk self tool_name arguments max_retries remaining attempt n :
  StdioClientWrapper.attempts tool_name arguments max_retries (S remaining) attempt
    sdk self n
  = match sdk n with
    | StdioClientWrapper.Returns r =>
        StdioClientWrapper.mkRun (inr (Some r)) self (S n)
          [StdioClientWrapper.Awaited
             (StdioClientWrapper.SessionCallTool tool_name arguments);
           StdioClientWrapper.Logged DEBUG
             ("Resultado exitoso de herramienta: " ++ tool_name)]
    | StdioClientWrapper.Fails e =>
        StdioClientWrapper.mkRun (inl (StdioClientWrapper.Other e)) self (S n)
          [StdioClientWrapper.Awaited
             (StdioClientWrapper.SessionCallTool tool_name arguments)]
    | StdioClientWrapper.TimesOut =>
        if attempt =? max_retries - 1 then
          StdioClientWrapper.mkRun (inl StdioClientWrapper.Timeout) self (S n)
            [StdioClientWrapper.Awaited
               (StdioClientWrapper.SessionCallTool tool_name arguments)]
        else
          StdioClientWrapper.mkRun
            (StdioClientWrapper.outcome
               (StdioClientWrapper.attempts tool_name arguments max_retries
                  remaining (attempt + 1) sdk self (S n)))
            (StdioClientWrapper.object
               (StdioClientWrapper.attempts tool_name arguments max_retries
                  remaining (attempt + 1) sdk self (S n)))
            (StdioClientWrapper.awaits
               (StdioClientWrapper.attempts tool_name arguments max_retries
                  remaining (attempt + 1) sdk self (S n)))
            ([StdioClientWrapper.Awaited
                (StdioClientWrapper.SessionCallTool tool_name arguments);
              StdioClientWrapper.Logged WARNING
                ("Timeout en llamada a herramienta " ++ tool_name);
              StdioClientWrapper.Slept]
             ++ StdioClientWrapper.events
                  (StdioClientWrapper.attempts tool_name arguments max_retries
                     remaining (attempt + 1) sdk self (S n)))
    end.
Proof.
  cbn [StdioClientWrapper.attempts].
  unfold StdioClientWrapper.bind, StdioClientWrapper.try_except,
    StdioClientWrapper.await, StdioClientWrapper.log, StdioClientWrapper.sleep,
    StdioClientWrapper.ret, StdioClientWrapper.raise.
  cbv beta.
  destruct (sdk n) as [r|e|]; cbv beta iota; [reflexivity|reflexivity|].
  destruct (attempt =? max_retries - 1); cbv beta iota; [reflexivity|].
  destruct (StdioClientWrapper.attempts tool_name arguments max_retries remaining
              (attempt + 1) sdk self (S n)).
  reflexivity.
Qed.

(** The loop of [call_tool], with [remaining] rounds to go out of
    [max_retries]. *)
Lemma attempts_run sdk self tool_name arguments max_retries remaining :
  forall n,
    let run :=
      StdioClientWrapper.attempts tool_name arguments max_retries remaining
        (max_retries - Z.of_nat remaining) sdk self n in
    StdioClientWrapper.object run = self
    /\ (StdioClientWrapper.awaits run <= n + remaining)%nat
    /\ (remaining = 0%nat ->
        StdioClientWrapper.outcome run = inr None
        /\ StdioClientWrapper.awaits run = n)
    /\ (forall k r,
          (k < remaining)%nat ->
          (forall i, (i < k)%nat -> sdk (n + i)%nat = StdioClientWrapper.TimesOut) ->
          sdk (n + k)%nat = StdioClientWrapper.Returns r ->
          StdioClientWrapper.outcome run = inr (Some r)
          /\ StdioClientWrapper.awaits run = (n + k + 1)%nat)
    /\ (forall k e,
          (k < remaining)%nat ->
          (forall i, (i < k)%nat -> sdk (n + i)%nat = StdioClientWrapper.TimesOut) ->
          sdk (n + k)%nat = StdioClientWrapper.Fails e ->
          StdioClientWrapper.outcome run = inl (StdioClientWrapper.Other e)
          /\ StdioClientWrapper.awaits run = (n + k + 1)%nat)
    /\ ((0 < remaining)%nat ->
        (forall i, (i < remaining)%nat ->
                   sdk (n + i)%nat = StdioClientWrapper.TimesOut) ->
        StdioClientWrapper.outcome run = inl StdioClientWrapper.Timeout
        /\ StdioClientWrapper.awaits run = (n + remaining)%nat).
Proof.
  cbv zeta. induction remaining as [|remaining IH]; intros n.
  - cbn. split; [reflexivity|]. split; [lia|]. split; [auto|].
    split; [intros; lia|]. split; [intros; lia|]. intros; lia.
  - rewrite attempts_step.
    replace (max_retries - Z.of_nat (S remaining) + 1)
      with (max_retries - Z.of_nat remaining) by lia.
    destruct (sdk n) as [r0|e0|] eqn:E0; cbn [StdioClientWrapper.outcome
      StdioClientWrapper.object StdioClientWrapper.awaits].
    + split; [reflexivity|]. split; [lia|]. split; [discriminate|].
      split; [|split].
      * intros k r Hk Hto Hr. destruct k as [|k].
        -- rewrite Nat.add_0_r in Hr. rewrite Hr in E0. injection E0 as ->.
           split; [reflexivity|lia].
        -- specialize (Hto 0%nat ltac:(lia)). rewrite Nat.add_0_r in Hto. congruence.
      * intros k e Hk Hto He. destruct k as [|k].
        -- rewrite Nat.add_0_r in He. congruence.
        -- specialize (Hto 0%nat ltac:(lia)). rewrite Nat.add_0_r in Hto. congruence.
      * intros _ Hto. specialize (Hto 0%nat ltac:(lia)).
        rewrite Nat.add_0_r in Hto. congruence.
    + split; [reflexivity|]. split; [lia|]. split; [discriminate|].
      split; [|split].
      * intros k r Hk Hto Hr. destruct k as [|k].
        -- rewrite Nat.add_0_r in Hr. congruence.
        -- specialize (Hto 0%nat ltac:(lia)). rewrite Nat.add_0_r in Hto. congruence.
      * intros k e Hk Hto He. destruct k as [|k].
        -- rewrite Nat.add_0_r in He. rewrite He in E0. injection E0 as ->.
           split; [reflexivity|lia].
        -- specialize (Hto 0%nat ltac:(lia)). rewrite Nat.add_0_r in Hto. congruence.
      * intros _ Hto. specialize (Hto 0%nat ltac:(lia)).
        rewrite Nat.add_0_r in Hto. congruence.
    + destruct (Z.eqb_spec (max_retries - Z.of_nat (S remaining)) (max_retries - 1))
        as [Hlast|Hmore]; cbn [StdioClientWrapper.outcome
          StdioClientWrapper.object StdioClientWrapper.awaits].
      * assert (remaining = 0%nat) as -> by lia.
        split; [reflexivity|]. split; [lia|]. split; [discriminate|].
        split; [|split].
        -- intros k r Hk Hto Hr. assert (k = 0%nat) as -> by lia.
           rewrite Nat.add_0_r in Hr. congruence.
        -- intros k e Hk Hto He. assert (k = 0%nat) as -> by lia.
           rewrite Nat.add_0_r in He. congruence.
        -- intros _ _. split; [reflexivity|lia].
      * assert (Hpos : (0 < remaining)%nat) by lia.
        destruct (IH (S n)) as (H1 & H2 & _ & H4 & H5 & H6).
        split; [exact H1|]. split; [lia|]. split; [discriminate|].
        split; [|split].
        -- intros k r Hk Hto Hr. destruct k as [|k].
           ++ rewrite Nat.add_0_r in Hr. congruence.
           ++ destruct (H4 k r) as [G1 G2]; [lia| | |].
              ** intros i Hi. replace (S n + i)%nat with (n + S i)%nat by lia.
                 apply Hto. lia.
              ** replace (S n + k)%nat with (n + S k)%nat by lia. exact Hr.
              ** split; [exact G1|lia].
        -- intros k e Hk Hto He. destruct k as [|k].
           ++ rewrite Nat.add_0_r in He. congruence.
           ++ destruct (H5 k e) as [G1 G2]; [lia| | |].
              ** intros i Hi. replace (S n + i)%nat with (n + S i)%nat by lia.
                 apply Hto. lia.
              ** replace (S n + k)%nat with (n + S k)%nat by lia. exact He.
              ** split; [exact G1|lia].
        -- intros _ Hto. destruct H6 as [G1 G2]; [exact Hpos| |].
           ++ intros i Hi. replace (S n + i)%nat with (n + S i)%nat by lia.
              apply Hto. lia.
           ++ split; [exact G1|lia].
Qed.

(** X27.  Retries of a tool call.  On an initialized client that knows the
    tool, [call_tool] leaves the client as it is and awaits the session at
    most [max_retries] times: it tries again only after a timeout.  It
    returns the first answer that is not a timeout; a failure of the
    session, and a timeout of the last attempt, are raised as
    [MCPToolCallError]; with [max_retries] zero or negative it awaits
    nothing and returns [None]. *)
Theorem X27_call_tool_retries sdk self n tool_name arguments names :
  StdioClientWrapper._initialized self = true ->
  StdioClientWrapper._session self = true ->
  StdioClientWrapper._server_info self = Some names ->
  In tool_name names ->
  let run := StdioClientWrapper.call_tool tool_name arguments sdk self n in
  let limit := Z.to_nat (StdioClientWrapper.max_retries self) in
  StdioClientWrapper.object run = self
  /\ (StdioClientWrapper.awaits run <= n + limit)%nat
  /\ (limit = 0%nat ->
      StdioClientWrapper.outcome run = inr None
      /\ StdioClientWrapper.awaits run = n)
  /\ (forall k r,
        (k < limit)%nat ->
        (forall i, (i < k)%nat -> sdk (n + i)%nat = StdioClientWrapper.TimesOut) ->
        sdk (n + k)%nat = StdioClientWrapper.Returns r ->
        StdioClientWrapper.outcome run = inr (Some r)
        /\ StdioClientWrapper.awaits run = (n + k + 1)%nat)
  /\ (forall k e,
        (k < limit)%nat ->
        (forall i, (i < k)%nat -> sdk (n + i)%nat = StdioClientWrapper.TimesOut) ->
        sdk (n + k)%nat = StdioClientWrapper.Fails e ->
        StdioClientWrapper.outcome run
        = inl (StdioClientWrapper.Other
                 (Exn MCPToolCallError
                    ("Error llamando a herramienta " ++ tool_name ++ ": " ++ str e)))
        /\ StdioClientWrapper.awaits run = (n + k + 1)%nat)
  /\ ((0 < limit)%nat ->
      (forall i, (i < limit)%nat -> sdk (n + i)%nat = StdioClientWrapper.TimesOut) ->
      StdioClientWrapper.outcome run
      = inl (StdioClientWrapper.Other
               (Exn MCPToolCallError ("Timeout llamando a herramienta " ++ tool_name)))
      /\ StdioClientWrapper.awaits run = (n + limit)%nat).
Proof.
  intros Hini Hse Hinfo Hin. cbv zeta.
  assert (Hknown : existsb (String.eqb tool_name) names = true).
  { apply existsb_exists. exists tool_name. split; [exact Hin|apply String.eqb_refl]. }
  set (limit := Z.to_nat (StdioClientWrapper.max_retries self)).
  pose proof (attempts_run sdk self tool_name arguments
                (StdioClientWrapper.max_retries self) limit n) as Hrun.
  cbv zeta in Hrun.
  assert (Hidx : limit = 0%nat
                 \/ StdioClientWrapper.max_retries self - Z.of_nat limit = 0)
    by (unfold limit; lia).
  assert (Hsame :
            StdioClientWrapper.attempts tool_name arguments
              (StdioClientWrapper.max_retries self) limit
              (StdioClientWrapper.max_retries self - Z.of_nat limit) sdk self n
            = StdioClientWrapper.attempts tool_name arguments
                (StdioClientWrapper.max_retries self) limit 0 sdk self n).
  { destruct Hidx as [-> | ->]; reflexivity. }
  rewrite Hsame in Hrun. clear Hsame Hidx.
  set (run := StdioClientWrapper.attempts tool_name arguments
                (StdioClientWrapper.max_retries self) limit 0 sdk self n) in *.
  assert (Hcall :
            StdioClientWrapper.call_tool tool_name arguments sdk self n
            = match StdioClientWrapper.outcome run with
              | inr v =>
                  StdioClientWrapper.mkRun (inr v) (StdioClientWrapper.object run)
                    (StdioClientWrapper.awaits run)
                    (StdioClientWrapper.Logged DEBUG
                       ("Llamando a herramienta: " ++ tool_name)
                     :: StdioClientWrapper.events run)
              | inl StdioClientWrapper.Timeout =>
                  StdioClientWrapper.mkRun
                    (inl (StdioClientWrapper.Other
                            (Exn MCPToolCallError
                               ("Timeout llamando a herramienta " ++ tool_name))))
                    (StdioClientWrapper.object run) (StdioClientWrapper.awaits run)
                    ((StdioClientWrapper.Logged DEBUG
                        ("Llamando a herramienta: " ++ tool_name)
                      :: StdioClientWrapper.events run)
                     ++ [StdioClientWrapper.Logged ERROR
                           ("Timeout llamando a herramienta " ++ tool_name)])
              | inl (StdioClientWrapper.Other e) =>
                  StdioClientWrapper.mkRun
                    (inl (StdioClientWrapper.Other
                            (Exn MCPToolCallError
                               ("Error llamando a herramienta " ++ tool_name
                                ++ ": " ++ str e))))
                    (StdioClientWrapper.object run) (StdioClientWrapper.awaits run)
                    ((StdioClientWrapper.Logged DEBUG
                        ("Llamando a herramienta: " ++ tool_name)
                      :: StdioClientWrapper.events run)
                     ++ [StdioClientWrapper.Logged ERROR
                           ("Error llamando a herramienta " ++ tool_name
                            ++ ": " ++ str e)])
              end).
  { unfold StdioClientWrapper.call_tool.
    rewrite (client_bind_ret _ _ sdk self n self self n [] eq_refl).
    rewrite Hini, Hse. cbn [negb orb].
    rewrite (client_bind_ret _ _ sdk self n true self n [])
      by (rewrite Hinfo, Hknown; reflexivity).
    cbn [negb].
    unfold StdioClientWrapper.try_except.
    rewrite (client_bind_ret _ _ sdk self n tt self n
               [StdioClientWrapper.Logged DEBUG
                  ("Llamando a herramienta: " ++ tool_name)] eq_refl).
    fold limit. fold run.
    destruct run as [[[|e]|v] o a t]; reflexivity. }
  rewrite Hcall.
  destruct Hrun as (H1 & H2 & H3 & H4 & H5 & H6).
  destruct (StdioClientWrapper.outcome run) as [[|e]|v] eqn:Ho;
    cbn [StdioClientWrapper.outcome StdioClientWrapper.object
         StdioClientWrapper.awaits].
  - split; [exact H1|]. split; [exact H2|].
    split; [intros H0; destruct (H3 H0); discriminate|].
    split; [intros k r Hk Hto Hr; destruct (H4 k r Hk Hto Hr); discriminate|].
    split; [intros k e Hk Hto He; destruct (H5 k e Hk Hto He); discriminate|].
    intros Hpos Hto. destruct (H6 Hpos Hto) as [_ G]. split; [reflexivity|exact G].
  - split; [exact H1|]. split; [exact H2|].
    split; [intros H0; destruct (H3 H0); discriminate|].
    split; [intros k r Hk Hto Hr; destruct (H4 k r Hk Hto Hr); discriminate|].
    split.
    + intros k e' Hk Hto He. destruct (H5 k e' Hk Hto He) as [[= ->] G].
      split; [reflexivity|exact G].
    + intros Hpos Hto. destruct (H6 Hpos Hto); discriminate.
  - split; [exact H1|]. split; [exact H2|].
    split; [intros H0; destruct (H3 H0) as [[= ->] G]; auto|].
    split; [intros k r Hk Hto Hr; destruct (H4 k r Hk Hto Hr) as [[= ->] G]; auto|].
    split; [intros k e Hk Hto He; destruct (H5 k e Hk Hto He); discriminate|].
    intros Hpos Hto. destruct (H6 Hpos Hto); discriminate.
Qed.

(** * Instances of the further properties *)

(** On the context of ["t1"], whose one server has one tool, under the
    default limit of 100. *)
Lemma X6_witness :
  (exists c, tenant_context twin_world "t1" = Some c)
  /\ res (MultitenantManager.get_quota "t1" "max_tools_per_server" twin_env twin_world)
     = Ret (Finite 100)
  /\ res (MultitenantManager.check_quota "t1" "max_tools_per_server" twin_env
            twin_world)
     = Ret true.
Proof.
  destruct (tenant_context twin_world "t1") as [c|] eqn:Hc; [|discriminate Hc].
  assert (Hq : res (MultitenantManager.get_quota "t1" "max_tools_per_server"
                      twin_env twin_world) = Ret (Finite 100)) by reflexivity.
  split; [eauto|]. split; [exact Hq|].
  apply (proj2 (proj2 (X6_check_quota_tools_per_server twin_env twin_world "t1" c
                         (Finite 100) Hc Hq))).
  vm_compute in Hc. injection Hc as <-.
  intros server_id l [[= <- <-]|[]]. reflexivity.
Defined.

(** The first call for a tenant the registry knows. *)
Lemma X8_witness :
  Inv (initial_world echo_registry)
  /\ exists l,
       res (MultitenantManager.get_or_create_tenant "default" echo_env
              (initial_world echo_registry)) = Ret l.
Proof.
  split; [apply Inv_initial|].
  apply (proj1 (proj2 (X8_get_or_create_tenant_idempotent echo_env echo_env
                         (initial_world echo_registry) "default"
                         (Inv_initial echo_registry)))).
  right. discriminate.
Defined.

(** The start of ["default:echo"] resumed alone, and resumed after a second
    start has filed a record of its own under the id. *)
Lemma X9_witness :
  Orchestrator.get_server_client "default:echo" echo_env
    (st (Orchestrator.start_server_resume "default:echo" 0%nat 0%nat
           (Orchestrator.connect_and_initialize 0%nat) echo_env starting_world))
  = mkOut (Ret (Some 0%nat))
      (st (Orchestrator.start_server_resume "default:echo" 0%nat 0%nat
             (Orchestrator.connect_and_initialize 0%nat) echo_env starting_world)) []
  /\ res (Orchestrator.start_server_resume "default:echo" 0%nat 0%nat
            (Orchestrator.connect_and_initialize 0%nat) echo_env raced_world)
     = Ret 0%nat
  /\ Dict.get "default:echo" (managed_servers raced_world) = Some 1%nat
  /\ managed_record
       (st (Orchestrator.start_server_resume "default:echo" 0%nat 0%nat
              (Orchestrator.connect_and_initialize 0%nat) echo_env raced_world))
       "default:echo"
     = managed_record raced_world "default:echo".
Proof.
  split; [|split; [|split]].
  - exact (proj1 (proj2 (proj2 (proj2 (proj2
             (X9_start_server_returns_running echo_env echo_env starting_world
                "default:echo" 0%nat 0%nat 0%nat eq_refl)))))
             eq_refl).
  - reflexivity.
  - reflexivity.
  - refine (proj2 (proj2 (proj2 (proj2 (proj2
              (X9_start_server_returns_running echo_env echo_env raced_world
                 "default:echo" 0%nat 0%nat 0%nat eq_refl)))))
              1%nat eq_refl _).
    discriminate.
Defined.

(** The start of ["default:echo"] resumed with a worker that refuses the
    connection. *)
Lemma X10_witness :
  res (Orchestrator.start_server_resume "default:echo" 0%nat 0%nat
         (Orchestrator.connect_and_initialize 0%nat) refusing_env starting_world)
  = Raise (Exn MCPConnectionError "connection refused")
  /\ Orchestrator.get_server_client "default:echo" echo_env
       (st (Orchestrator.start_server_resume "default:echo" 0%nat 0%nat
              (Orchestrator.connect_and_initialize 0%nat) refusing_env
              starting_world))
     = mkOut (Ret None)
         (st (Orchestrator.start_server_resume "default:echo" 0%nat 0%nat
                (Orchestrator.connect_and_initialize 0%nat) refusing_env
                starting_world)) [].
Proof.
  assert (H : Forall named (_observers starting_world)) by constructor.
  pose proof (X10_start_server_connect_failure refusing_env echo_env starting_world
                "default:echo" 0%nat 0%nat _
                (Exn MCPConnectionError "connection refused")
                eq_refl H (or_introl eq_refl)) as (H1 & _ & H3).
  split; [exact H1|]. exact (H3 eq_refl (or_introl eq_refl)).
Defined.

(** The stop of ["default:echo"] resumed after the disconnect. *)
Lemma X11_witness :
  res (Orchestrator.stop_server_resume "default:echo" 0%nat (Some 0%nat)
         (await_client 0%nat Disconnect disconnect) echo_env stopping_world)
  = Ret tt
  /\ Orchestrator.get_server_client "default:echo" echo_env
       (st (Orchestrator.stop_server_resume "default:echo" 0%nat (Some 0%nat)
              (await_client 0%nat Disconnect disconnect) echo_env stopping_world))
     = mkOut (Ret None)
         (st (Orchestrator.stop_server_resume "default:echo" 0%nat (Some 0%nat)
                (await_client 0%nat Disconnect disconnect) echo_env stopping_world))
         [].
Proof.
  pose proof (X11_stop_server_after_disconnect echo_env echo_env stopping_world
                "default:echo" 0%nat (Some 0%nat) _ eq_refl) as (H1 & _ & H3).
  split; [exact H1|]. exact (H3 eq_refl).
Defined.

(** Stopping everything once ["default:echo"] is stopped. *)
Lemma X12_witness :
  res (Orchestrator.stop_all echo_env halted_world) = Ret tt
  /\ st (Orchestrator.stop_all echo_env halted_world) = halted_world.
Proof.
  assert (H1 : table_valid halted_world).
  { split.
    - vm_compute. repeat constructor. intros H. apply elem_of_nil in H. exact H.
    - intros server_id l H. vm_compute in H. destruct H as [[= <- <-]|[]].
      vm_compute. lia. }
  assert (H2 : all_stopped halted_world).
  { intros server_id m. unfold managed_record.
    destruct (Dict.get server_id (managed_servers halted_world)) as [l|] eqn:Hget;
      [|discriminate].
    apply dict_get_In in Hget. vm_compute in Hget. destruct Hget as [[= <- <-]|[]].
    intros [= <-]. reflexivity. }
  pose proof (X12_stop_all_already_stopped echo_env halted_world H1 H2)
    as (H3 & H4 & _).
  split; [exact H3|exact H4].
Defined.

(** Stopping the servers of ["default"] once ["default:echo"] is
    stopped. *)
Lemma X13_witness :
  res (Orchestrator.stop_tenant_servers "default" echo_env halted_world) = Ret tt
  /\ st (Orchestrator.stop_tenant_servers "default" echo_env halted_world)
     = halted_world.
Proof.
  assert (H1 : table_valid halted_world).
  { split.
    - vm_compute. repeat constructor. intros H. apply elem_of_nil in H. exact H.
    - intros server_id l H. vm_compute in H. destruct H as [[= <- <-]|[]].
      vm_compute. lia. }
  assert (H2 : forall server_id l m,
             In (server_id, l) (managed_servers halted_world) ->
             servers_store halted_world !! l = Some m ->
             ManagedServer.tenant_id m = "default" ->
             ManagedServer.state m <> RUNNING).
  { intros server_id l m H. vm_compute in H. destruct H as [[= <- <-]|[]].
    intros [= <-] _. discriminate. }
  rewrite (X13_stop_tenant_servers_none_running echo_env halted_world "default" H1 H2).
  split; reflexivity.
Defined.

(** A monitoring round after the connection of ["default:echo"] was
    lost. *)
Lemma X14_witness :
  table_valid echo_world
  /\ res (Orchestrator._check_servers lost_env echo_world) = Ret tt.
Proof.
  split; [exact (table_valid_reachable _ _ echo_world_reachable)|].
  exact (proj1 (X14_check_servers_never_raises lost_env echo_world
                  (table_valid_reachable _ _ echo_world_reachable))).
Defined.

(** Starting the servers of ["default"] while ["default:echo"] runs. *)
Lemma X15_witness :
  res (Orchestrator.start_tenant_servers "default" echo_env echo_world) = Ret [0%nat]
  /\ st (Orchestrator.start_tenant_servers "default" echo_env echo_world) = echo_world.
Proof.
  assert (H : Forall2 (already_running echo_world "default")
                (TenantConfig.get_enabled_servers (example_tenant "default" ["echo"]).2)
                [0%nat]).
  { constructor; [|constructor]. split; [|split].
    - exists ("default", "echo"). split; [reflexivity|]. vm_compute. discriminate.
    - reflexivity.
    - eexists. split; reflexivity. }
  pose proof (proj2 (X15_start_tenant_servers_already_running echo_env echo_world
                       "default") _ [0%nat] eq_refl H) as (H1 & H2 & _).
  split; [exact H1|exact H2].
Defined.

(** Clearing the tools of ["t1:echo"] leaves those of ["t2:echo"]. *)
Lemma X16_witness :
  NoDup (Dict.keys (tools twin_world))
  /\ Dict.keys
       (tools (st (DynamicToolRouter.clear_tools (Some "t1:echo") twin_env
                     twin_world)))
     = ["t2:echo:add"].
Proof.
  assert (H : NoDup (Dict.keys (tools twin_world))).
  { exact (proj1 (proj2 (dicts_ok_reachable _ _ twin_world_reachable))). }
  split; [exact H|].
  rewrite (X16_clear_tools_removes_server twin_env twin_world "t1:echo" H).
  reflexivity.
Defined.

(** Refreshing ["t1:echo"], which still lists ["add"]. *)
Lemma X17_witness :
  NoDup (Dict.keys (tools twin_world))
  /\ res (DynamicToolRouter.refresh_tools "t1:echo" twin_env twin_world)
     = Ret [registration_of "t1:echo" "echo" (example_tool "add")]
  /\ forall reg,
       In reg (Dict.values
                 (tools (st (DynamicToolRouter.refresh_tools "t1:echo" twin_env
                               twin_world)))) ->
       ToolRegistration.server_id reg = "t1:echo" ->
       reg = registration_of "t1:echo" "echo" (example_tool "add").
Proof.
  assert (H : NoDup (Dict.keys (tools twin_world))).
  { exact (proj1 (proj2 (dicts_ok_reachable _ _ twin_world_reachable))). }
  assert (H2 : res (DynamicToolRouter.refresh_tools "t1:echo" twin_env twin_world)
               = Ret [registration_of "t1:echo" "echo" (example_tool "add")])
    by reflexivity.
  split; [exact H|]. split; [exact H2|].
  intros reg Hin Hid.
  destruct (X17_refresh_tools_no_stale_entry twin_env twin_world "t1:echo" _ H H2
              reg Hin Hid) as [<-|[]].
  reflexivity.
Defined.

(** Discovery over the running server of [echo_world]. *)
Lemma X18_witness :
  Inv echo_world
  /\ (exists all_tools,
        res (RouterCatalog.discover_all_tools echo_env echo_world) = Ret all_tools)
  /\ Forall (discovery_effect echo_world)
       (eff (RouterCatalog.discover_all_tools echo_env echo_world)).
Proof.
  pose proof (X18_discover_all_tools_returns echo_env echo_world
                (Inv_reachable _ _ echo_world_reachable)) as (H1 & _ & _ & _ & H5).
  split; [exact (Inv_reachable _ _ echo_world_reachable)|].
  split; [exact H1|exact H5].
Defined.

(** A second start for ["t1"], whose limit of one server is reached. *)
Lemma X19_witness :
  Dict.get "t1" (tenants full_world) = Some 0%nat
  /\ (exists c, contexts_store full_world !! 0%nat = Some c
                /\ Dict.len (TenantContext.servers c) = 1%nat)
  /\ res (MultitenantManager.get_quota "t1" "max_servers" twin_env full_world)
     = Ret (Finite 1)
  /\ res (MultitenantManager.start_tenant_servers "t1" twin_env full_world)
     = Raise (Exn QuotaExceededError
                "Tenant t1 ha excedido su cuota de servidores").
Proof.
  assert (H1 : Dict.get "t1" (tenants full_world) = Some 0%nat) by reflexivity.
  destruct (contexts_store full_world !! 0%nat) as [c|] eqn:H2; [|discriminate H2].
  assert (H3 : res (MultitenantManager.get_quota "t1" "max_servers" twin_env
                      full_world) = Ret (Finite 1)) by reflexivity.
  assert (Hlen : Dict.len (TenantContext.servers c) = 1%nat).
  { vm_compute in H2. injection H2 as <-. reflexivity. }
  assert (H4 : ge_limit (Z.of_nat (Dict.len (TenantContext.servers c))) (Finite 1)
               = true) by (rewrite Hlen; reflexivity).
  split; [exact H1|]. split; [eauto|]. split; [exact H3|].
  rewrite (X19_start_tenant_servers_at_quota twin_env full_world "t1" 0%nat c
             (Finite 1) H1 H2 H3 H4).
  reflexivity.
Defined.


(** Stopping ["t1"] in [twin_world]. *)
Lemma X22_witness :
  Inv twin_world
  /\ NoDup (Dict.keys (tools twin_world))
  /\ Forall named (_observers twin_world)
  /\ (exists c, tenant_context twin_world "t1" = Some c)
  /\ res (MultitenantManager.stop_tenant_servers "t1" twin_env twin_world) = Ret tt
  /\ MultitenantManager.get_tenant_tools "t1" twin_env
       (st (MultitenantManager.stop_tenant_servers "t1" twin_env twin_world))
     = mkOut (Ret [])
         (st (MultitenantManager.stop_tenant_servers "t1" twin_env twin_world)) [].
Proof.
  assert (H1 : Inv twin_world) by exact (Inv_reachable _ _ twin_world_reachable).
  assert (H2 : NoDup (Dict.keys (tools twin_world))).
  { exact (proj1 (proj2 (dicts_ok_reachable _ _ twin_world_reachable))). }
  assert (H3 : Forall named (_observers twin_world)) by constructor.
  destruct (tenant_context twin_world "t1") as [c|] eqn:H4; [|discriminate H4].
  pose proof (X22_manager_stop_tenant_servers_forgets twin_env twin_env twin_world "t1" c
                H1 H2 H3 H4) as (G1 & _ & _ & _ & G5).
  split; [exact H1|]. split; [exact H2|]. split; [exact H3|]. split; [eauto|].
  split; [exact G1|exact G5].
Defined.

(** The two servers of [twin_world]. *)
Lemma X23_witness :
  Inv twin_world
  /\ NoDup (Dict.keys (managed_servers twin_world))
  /\ exists d,
       OrchestratorStatus.get_all_servers_status twin_env twin_world
       = mkOut (Ret d) twin_world []
       /\ Dict.keys d = ["t1:echo"; "t2:echo"].
Proof.
  assert (H1 : Inv twin_world) by exact (Inv_reachable _ _ twin_world_reachable).
  assert (H2 : NoDup (Dict.keys (managed_servers twin_world))).
  { exact (proj1 (dicts_ok_reachable _ _ twin_world_reachable)). }
  split; [exact H1|]. split; [exact H2|].
  destruct (X23_get_all_servers_status_lists_table twin_env twin_world H1 H2)
    as (d & E & Hk & _).
  exists d. split; [exact E|exact Hk].
Defined.

(** Clearing and listing the tools of ["t1:echo"]. *)
Lemma X24_witness :
  NoDup (Dict.keys (tools twin_world))
  /\ res (RouterCatalog.list_tools (Some "t1:echo") twin_env
            (st (DynamicToolRouter.clear_tools (Some "t1:echo") twin_env twin_world)))
     = Ret [].
Proof.
  assert (H : NoDup (Dict.keys (tools twin_world))).
  { exact (proj1 (proj2 (dicts_ok_reachable _ _ twin_world_reachable))). }
  split; [exact H|].
  rewrite (proj1 (X24_clear_tools_then_list_tools twin_env twin_env twin_world
                    (Some "t1:echo") H)).
  reflexivity.
Defined.

(** A session that cannot be entered. *)
Lemma X25_witness :
  StdioClientWrapper._connected fresh_client = false
  /\ StdioClientWrapper.outcome (StdioClientWrapper.connect broken_sdk fresh_client 0%nat)
     <> inr tt
  /\ StdioClientWrapper._stdio_context
       (StdioClientWrapper.object
          (StdioClientWrapper.connect broken_sdk fresh_client 0%nat)) = true.
Proof.
  assert (H : StdioClientWrapper._connected fresh_client = false) by reflexivity.
  assert (H2 : StdioClientWrapper.outcome
                 (StdioClientWrapper.connect broken_sdk fresh_client 0%nat) <> inr tt)
    by discriminate.
  split; [exact H|]. split; [exact H2|].
  exact (proj2 (proj2 (proj1 (proj2 (proj2
           (X25_connect_failure_keeps_context broken_sdk fresh_client 0%nat H))) H2))).
Defined.

(** A call that succeeds at the second attempt. *)
Lemma X27_witness :
  StdioClientWrapper._initialized ready_client = true
  /\ StdioClientWrapper._session ready_client = true
  /\ StdioClientWrapper._server_info ready_client = Some ["add"]
  /\ In "add" ["add"]
  /\ StdioClientWrapper.outcome
       (StdioClientWrapper.call_tool "add" "{}" late_sdk ready_client 0%nat)
     = inr (Some "{}")
  /\ StdioClientWrapper.awaits
       (StdioClientWrapper.call_tool "add" "{}" late_sdk ready_client 0%nat) = 2%nat.
Proof.
  assert (H1 : StdioClientWrapper._initialized ready_client = true) by reflexivity.
  assert (H2 : StdioClientWrapper._session ready_client = true) by reflexivity.
  assert (H3 : StdioClientWrapper._server_info ready_client = Some ["add"])
    by reflexivity.
  assert (H4 : In "add" ["add"]) by (left; reflexivity).
  split; [exact H1|]. split; [exact H2|]. split; [exact H3|]. split; [exact H4|].
  apply (proj1 (proj2 (proj2 (proj2
           (X27_call_tool_retries late_sdk ready_client 0%nat "add" "{}" ["add"]
              H1 H2 H3 H4)))) 1%nat "{}").
  - vm_compute. lia.
  - intros i Hi. assert (i = 0%nat) as -> by lia. reflexivity.
  - reflexivity.
Defined.
